(** * Guest-User-Invite: the bulk-invite front end and the inviteGuest back end

    A shallow embedding of the two source files of the repository

      - the React front end (constants, [parseCsvLine], [parseManualBulk],
        [parseEntraTemplateCsv], [buildInvitePayload], [safeResponse],
        [sendInvite] and the submit handler [inviteGuest]);
      - the Azure Functions back end [src/functions/inviteGuest.js]
        ([authorizeInviter] and the [inviteGuest] HTTP handler).

    JavaScript strings are sequences of UTF-16 code units.  They are modelled
    by [string], one [ascii] per code unit, which covers every text whose
    code units are below 256 (ASCII and Latin-1).  White space and case
    mapping are the ECMAScript ones restricted to that range. *)

From Stdlib Require Import Bool Arith Lia List ZArith.
From Stdlib Require Import Ascii String.
From Stdlib Require Import Numbers.DecimalString.
From Stdlib Require Import PrimFloat Uint63.
Import ListNotations.

Set Warnings "-register-all".


Open Scope string_scope.
Open Scope list_scope.
Open Scope nat_scope.

(** String concatenation, the JavaScript [+] on strings. *)
Infix "+++" := String.append (right associativity, at level 60).

(** ** JavaScript strings *)

Module JsString.

Definition code (c : ascii) : nat := nat_of_ascii c.

(** ECMAScript WhiteSpace and LineTerminator code points below 256:
    TAB, LF, VT, FF, CR, SPACE and NO-BREAK SPACE.  This is the set used
    by [String.prototype.trim] and by the regular-expression class [\s]. *)
Definition isWhiteSpace (c : ascii) : bool :=
  let n := code c in
  ((9 <=? n) && (n <=? 13)) || (n =? 32) || (n =? 160).

Fixpoint trimStart (s : string) : string :=
  match s with
  | EmptyString => EmptyString
  | String c r => if isWhiteSpace c then trimStart r else s
  end.

Fixpoint trimEnd (s : string) : string :=
  match s with
  | EmptyString => EmptyString
  | String c r =>
      let r' := trimEnd r in
      if isWhiteSpace c && (r' =? "")%string then "" else String c r'
  end.

(** [String.prototype.trim] *)
Definition trim (s : string) : string := trimEnd (trimStart s).

(** Simple case mapping of one code unit below 256: A-Z, and the Latin-1
    capitals U+00C0-U+00DE except the multiplication sign U+00D7. *)
Definition toLowerChar (c : ascii) : ascii :=
  let n := code c in
  if ((65 <=? n) && (n <=? 90))
     || ((192 <=? n) && (n <=? 222) && negb (n =? 215))
  then ascii_of_nat (n + 32) else c.

Fixpoint mapString (f : ascii -> ascii) (s : string) : string :=
  match s with
  | EmptyString => EmptyString
  | String c r => String (f c) (mapString f r)
  end.

(** [String.prototype.toLowerCase] *)
Definition toLowerCase (s : string) : string := mapString toLowerChar s.

(** [String.prototype.startsWith] *)
Definition startsWith (s p : string) : bool := String.prefix p s.

(** [String.prototype.includes]: [p] occurs somewhere in [s]. *)
Fixpoint includes (s p : string) : bool :=
  String.prefix p s ||
  match s with
  | EmptyString => false
  | String _ r => includes r p
  end.

(** [s.slice(0, n)] for a non-negative [n]. *)
Definition slice0 (n : nat) (s : string) : string := String.substring 0 n s.

(** [Boolean(s)] for a string: the empty string is the only falsy one. *)
Definition nonEmpty (s : string) : bool := negb (s =? "")%string.

(** [Array.prototype.join] on an array of strings. *)
Definition join (sep : string) (l : list string) : string :=
  String.concat sep l.

(** Number-to-string conversion of a non-negative integer, as a template
    literal performs it. *)
Definition ofNat (n : nat) : string := NilZero.string_of_uint (Nat.to_uint n).

Definition ofZ (z : Z) : string := NilZero.string_of_int (Z.to_int z).

(** [s.split(/\r?\n/)]: a separator is LF, or CR immediately followed by
    LF; a lone CR stays in its line.  [cur] is the line being read. *)
Fixpoint splitLinesFrom (s : string) (cur : string) : list string :=
  match s with
  | EmptyString => [cur]
  | String c r =>
      if (code c =? 10) then cur :: splitLinesFrom r ""
      else
        match r with
        | String c2 r' =>
            if (code c =? 13) && (code c2 =? 10)
            then cur :: splitLinesFrom r' ""
            else splitLinesFrom r (cur +++ String c "")
        | EmptyString => splitLinesFrom r (cur +++ String c "")
        end
  end.

Definition splitLines (s : string) : list string := splitLinesFrom s "".

(** [s.replace(/\s+/g, " ")]: every maximal run of white space becomes
    one space. *)
Fixpoint collapseFrom (s : string) (inRun : bool) : string :=
  match s with
  | EmptyString => EmptyString
  | String c r =>
      if isWhiteSpace c
      then if inRun then collapseFrom r true
           else String " " (collapseFrom r true)
      else String c (collapseFrom r false)
  end.

Definition collapseWhiteSpace (s : string) : string := collapseFrom s false.

End JsString.

Import JsString.

(** ** JavaScript values *)

Module JsValue.

(** The values that flow through the program: parsed JSON documents,
    request bodies, invite entries and the objects the program builds.
    An object is its list of own properties in insertion order (keys are
    distinct in a well-formed object); a number is an IEEE 754 binary64. *)
Inductive jsval : Type :=
| JUndefined
| JNull
| JBool (b : bool)
| JNum (x : float)
| JStr (s : string)
| JArr (items : list jsval)
| JObj (props : list (string * jsval)).

Definition props_t : Type := list (string * jsval).

(** ToBoolean *)
Definition truthy (v : jsval) : bool :=
  match v with
  | JUndefined | JNull => false
  | JBool b => b
  | JNum x => negb (PrimFloat.eqb x 0%float || PrimFloat.is_nan x)
  | JStr s => nonEmpty s
  | JArr _ | JObj _ => true
  end.

(** [a || b] *)
Definition orElse (a b : jsval) : jsval := if truthy a then a else b.

Definition isString (v : jsval) : bool :=
  match v with JStr _ => true | _ => false end.

Definition isBoolean (v : jsval) : bool :=
  match v with JBool _ => true | _ => false end.

(** [typeof v === "object"] *)
Definition isObjectType (v : jsval) : bool :=
  match v with JNull | JArr _ | JObj _ => true | _ => false end.

Definition isArray (v : jsval) : bool :=
  match v with JArr _ => true | _ => false end.

Fixpoint lookup (k : string) (ps : props_t) : jsval :=
  match ps with
  | [] => JUndefined
  | (k', v) :: r => if (k =? k')%string then v else lookup k r
  end.

Fixpoint hasKey (k : string) (ps : props_t) : bool :=
  match ps with
  | [] => false
  | (k', _) :: r => (k =? k')%string || hasKey k r
  end.

(** [obj.k = v]: an existing property keeps its place, a new one is
    appended. *)
Fixpoint setProp (k : string) (v : jsval) (ps : props_t) : props_t :=
  match ps with
  | [] => [(k, v)]
  | (k', v') :: r =>
      if (k =? k')%string then (k', v) :: r else (k', v') :: setProp k v r
  end.

(** [{...a, ...b}]: the properties of [b] are set on a copy of [a]. *)
Definition spread (a b : props_t) : props_t :=
  fold_left (fun acc kv => setProp (fst kv) (snd kv) acc) b a.

Definition keys (ps : props_t) : list string := map fst ps.

(** [v.k] for one of the property names this program reads (none of them
    is [length], an index or a prototype member, so only an object has
    it).  [None] is the TypeError raised on [undefined] and [null]. *)
Definition getProp (v : jsval) (k : string) : option jsval :=
  match v with
  | JUndefined | JNull => None
  | JObj ps => Some (lookup k ps)
  | _ => Some JUndefined
  end.

(** [v?.k] *)
Definition optProp (v : jsval) (k : string) : jsval :=
  match getProp v k with
  | Some x => x
  | None => JUndefined
  end.

(** [a === "literal"] *)
Definition strictEqStr (v : jsval) (s : string) : bool :=
  match v with JStr t => (t =? s)%string | _ => false end.

(** Number literals of the source. *)
Definition num (z : Z) : jsval := JNum (PrimFloat.of_uint63 (Uint63.of_Z z)).

End JsValue.

Import JsValue.

(** ** Regular expressions

    The patterns of the source are anchored at both ends and use only
    character classes, sequence and repetition, so matching is decided by
    Brzozowski derivatives. *)

Module Regex.

Inductive regex : Type :=
| RNone
| REps
| RClass (p : ascii -> bool)
| RSeq (r1 r2 : regex)
| RAlt (r1 r2 : regex)
| RStar (r : regex).

Definition RPlus (r : regex) : regex := RSeq r (RStar r).

Definition RChar (c : ascii) : regex := RClass (Ascii.eqb c).

Fixpoint nullable (r : regex) : bool :=
  match r with
  | RNone => false
  | REps => true
  | RClass _ => false
  | RSeq a b => nullable a && nullable b
  | RAlt a b => nullable a || nullable b
  | RStar _ => true
  end.

Definition mkSeq (a b : regex) : regex :=
  match a, b with
  | RNone, _ => RNone
  | _, RNone => RNone
  | REps, _ => b
  | _, _ => RSeq a b
  end.

Definition mkAlt (a b : regex) : regex :=
  match a, b with
  | RNone, _ => b
  | _, RNone => a
  | _, _ => RAlt a b
  end.

Fixpoint deriv (c : ascii) (r : regex) : regex :=
  match r with
  | RNone => RNone
  | REps => RNone
  | RClass p => if p c then REps else RNone
  | RSeq a b =>
      if nullable a
      then mkAlt (mkSeq (deriv c a) b) (deriv c b)
      else mkSeq (deriv c a) b
  | RAlt a b => mkAlt (deriv c a) (deriv c b)
  | RStar a => mkSeq (deriv c a) (RStar a)
  end.

(** [/^r$/.test(s)] *)
Fixpoint test (r : regex) (s : string) : bool :=
  match s with
  | EmptyString => nullable r
  | String c rest => test (deriv c r) rest
  end.

End Regex.

(** ** Host built-ins

    What the JavaScript platform provides and the repository only calls:
    the URL parser, [JSON.parse], number formatting and base64 decoding. *)

Record URL : Type := { protocol : string; hostname : string }.

Class Host : Type := {
  (** [new URL(value)]; [None] is the TypeError of an unparsable URL. *)
  URL_new : string -> option URL;
  (** [JSON.parse(text)]; [None] is its SyntaxError. *)
  JSON_parse : string -> option jsval;
  (** Number-to-string conversion of a binary64. *)
  Number_toString : float -> string;
  (** [Buffer.from(s, "base64").toString("utf8")] *)
  base64_utf8 : string -> string
}.

Section ToStringDef.
Context {H : Host}.

(** The ToString abstract operation (template literals, [String(v)],
    [Array.prototype.join]) on the values of this program, which are
    primitives and what [JSON.parse] builds.  [None] is the TypeError
    [Cannot convert object to primitive value]: an object with an own
    member [toString] has a member that is no function in place of the
    inherited method, and the inherited [valueOf] gives the object back.
    An array is joined with commas, a [null] or [undefined] element
    giving the empty text, and the conversion of an element may throw. *)
Fixpoint ToString (v : jsval) : option string :=
  match v with
  | JUndefined => Some "undefined"
  | JNull => Some "null"
  | JBool true => Some "true"
  | JBool false => Some "false"
  | JNum x => Some (Number_toString x)
  | JStr s => Some s
  | JArr items =>
      option_map (join ",")
        ((fix elements (l : list jsval) : option (list string) :=
            match l with
            | [] => Some []
            | e :: r =>
                match match e with
                      | JUndefined | JNull => Some ""
                      | _ => ToString e
                      end, elements r with
                | Some text, Some texts => Some (text :: texts)
                | _, _ => None
                end
            end) items)
  | JObj props => if hasKey "toString" props then None else Some "[object Object]"
  end.

(** The texts of the values of a list, as [join] converts them one after
    the other; [None] when one of the conversions throws. *)
Fixpoint allTexts (l : list jsval) : option (list string) :=
  match l with
  | [] => Some []
  | v :: r =>
      match ToString v, allTexts r with
      | Some text, Some texts => Some (text :: texts)
      | _, _ => None
      end
  end.

End ToStringDef.

(** ** The front end *)

Module Frontend.

Definition API_URL : string :=
  "https://guestinvitemobsa-a3g2dxbdaqfuazap.australiasoutheast-01.azurewebsites.net/api/inviteguest".

Definition notSpaceNorAt (c : ascii) : bool :=
  negb (isWhiteSpace c || Ascii.eqb c "@").

(** [/^[^\s@]+@[^\s@]+\.[^\s@]+$/] *)
Definition EMAIL_REGEX : Regex.regex :=
  Regex.RSeq (Regex.RPlus (Regex.RClass notSpaceNorAt))
    (Regex.RSeq (Regex.RChar "@")
       (Regex.RSeq (Regex.RPlus (Regex.RClass notSpaceNorAt))
          (Regex.RSeq (Regex.RChar ".")
             (Regex.RPlus (Regex.RClass notSpaceNorAt))))).

Definition MAX_NAME_LENGTH : nat := 40.
Definition MAX_BULK_INVITES : nat := 100.
Definition DEFAULT_REDIRECT_URL : string := "https://myapplications.microsoft.com".

Definition sanitizeName (value : string) : string :=
  slice0 MAX_NAME_LENGTH (collapseWhiteSpace (trim value)).

Definition normalizeEmail (value : string) : string :=
  toLowerCase (trim value).

Definition getDisplayName (firstName lastName : string) : string :=
  trim (join " " (filter nonEmpty [firstName; lastName])).

(** [if (typeof payload.k === "string") safe.k = payload.k] *)
Definition copyIfString (k : string) (payload : jsval) (safe : props_t) : props_t :=
  if isString (optProp payload k) then setProp k (optProp payload k) safe else safe.

(** [safeResponse]: the whitelisted string-typed members of a parsed
    backend document, or [null] when there is none. *)
Definition safeResponse (payload : jsval) : jsval :=
  if negb (truthy payload) || negb (isObjectType payload) then JNull
  else
    let safe := [] in
    let safe := copyIfString "message" payload safe in
    let safe := copyIfString "status" payload safe in
    let safe := copyIfString "code" payload safe in
    let safe := copyIfString "error" payload safe in
    let safe := copyIfString "detail" payload safe in
    if 0 <? List.length (keys safe) then JObj safe else JNull.

(** [if (c) body.k = v] *)
Definition setIf (c : bool) (k : string) (v : jsval) (body : props_t) : props_t :=
  if c then setProp k v body else body.

(** [buildInvitePayload]; [payload] is the property list of the entry
    object it is given. *)
Definition buildInvitePayload (payload : props_t) : props_t :=
  let body :=
    [ ("email", lookup "email" payload);
      ("displayName", orElse (lookup "displayName" payload) (JStr "")) ] in
  let body := setIf (truthy (lookup "firstName" payload))
                "firstName" (lookup "firstName" payload) body in
  let body := setIf (truthy (lookup "lastName" payload))
                "lastName" (lookup "lastName" payload) body in
  let body :=
    if truthy (lookup "inviteRedirectUrl" payload)
    then setProp "inviteRedirectURL" (lookup "inviteRedirectUrl" payload)
           (setProp "inviteRedirectUrl" (lookup "inviteRedirectUrl" payload) body)
    else body in
  let body := setIf (isBoolean (lookup "sendEmail" payload))
                "sendEmail" (lookup "sendEmail" payload) body in
  let body := setIf (truthy (lookup "customizedMessageBody" payload))
                "customizedMessageBody" (lookup "customizedMessageBody" payload) body in
  let body := setIf (isBoolean (lookup "resetRedemption" payload))
                "resetRedemption" (lookup "resetRedemption" payload) body in
  body.

Definition dquote : ascii := ascii_of_nat 34.
Definition comma : ascii := ",".

(** The loop of [parseCsvLine]: [line] is what is left to read (from
    index [i] on), [out], [current] and [inQuotes] are its variables. *)
Fixpoint parseCsvLoop (line : string) (out : list string) (current : string)
    (inQuotes : bool) : list string :=
  match line with
  | EmptyString => out ++ [trim current]
  | String ch rest =>
      if Ascii.eqb ch dquote then
        match rest with
        | String ch2 rest' =>
            if inQuotes && Ascii.eqb ch2 dquote
            then parseCsvLoop rest' out (current +++ String dquote "") inQuotes
            else parseCsvLoop rest out current (negb inQuotes)
        | EmptyString => parseCsvLoop rest out current (negb inQuotes)
        end
      else if Ascii.eqb ch comma && negb inQuotes
      then parseCsvLoop rest (out ++ [trim current]) "" inQuotes
      else parseCsvLoop rest out (current +++ String ch "") inQuotes
  end.

Definition parseCsvLine (line : string) : list string :=
  parseCsvLoop line [] "" false.

(** An invite entry as the two parsers build it. *)
Record InviteEntry : Type := {
  email : string;
  firstName : string;
  lastName : string;
  displayName : string;
  inviteRedirectUrl : string;
  sendEmail : bool;
  customizedMessageBody : string;
  resetRedemption : bool
}.

(** The JavaScript object of an entry. *)
Definition entryObject (e : InviteEntry) : props_t :=
  [ ("email", JStr (email e));
    ("firstName", JStr (firstName e));
    ("lastName", JStr (lastName e));
    ("displayName", JStr (displayName e));
    ("inviteRedirectUrl", JStr (inviteRedirectUrl e));
    ("sendEmail", JBool (sendEmail e));
    ("customizedMessageBody", JStr (customizedMessageBody e));
    ("resetRedemption", JBool (resetRedemption e)) ].

Record ParseResult : Type := { entries : list InviteEntry; errors : list string }.

Record Defaults : Type := {
  d_redirectUrl : string;
  d_sendEmail : bool;
  d_customizedMessageBody : string;
  d_resetRedemption : bool
}.

(** [s.split(/\r?\n/).map((line) => line.trim()).filter(Boolean)] *)
Definition nonBlankLines (rawText : string) : list string :=
  filter nonEmpty (map trim (splitLines rawText)).

(** A loop over an array with its running index; [f] is the loop body. *)
Fixpoint forEachFrom {A St : Type} (f : St -> A -> nat -> St) (l : list A)
    (index : nat) (s : St) : St :=
  match l with
  | [] => s
  | x :: r => forEachFrom f r (S index) (f s x index)
  end.

Definition pushEntry (r : ParseResult) (e : InviteEntry) : ParseResult :=
  {| entries := entries r ++ [e]; errors := errors r |}.

Definition pushError (r : ParseResult) (msg : string) : ParseResult :=
  {| entries := entries r; errors := errors r ++ [msg] |}.

(** The callback of [lines.forEach] in [parseManualBulk]. *)
Definition manualLine (defaults : Defaults) (acc : ParseResult) (line : string)
    (index : nat) : ParseResult :=
  let fields := parseCsvLine line in
  let emailRaw := nth 0 fields "" in
  let firstRaw := nth 1 fields "" in
  let lastRaw := nth 2 fields "" in
  let email := normalizeEmail emailRaw in
  let firstName := sanitizeName firstRaw in
  let lastName := sanitizeName lastRaw in
  if negb (Regex.test EMAIL_REGEX email)
  then pushError acc ("Line " +++ ofNat (index + 1) +++ ": invalid email")
  else pushEntry acc
         {| email := email;
            firstName := firstName;
            lastName := lastName;
            displayName := getDisplayName firstName lastName;
            inviteRedirectUrl := d_redirectUrl defaults;
            sendEmail := d_sendEmail defaults;
            customizedMessageBody := d_customizedMessageBody defaults;
            resetRedemption := d_resetRedemption defaults |}.

Definition parseManualBulk (rawText : string) (defaults : Defaults) : ParseResult :=
  let lines := nonBlankLines rawText in
  forEachFrom (manualLine defaults) lines 0 {| entries := []; errors := [] |}.

(** *** The templated CSV *)

Section WithHost.
Context {H : Host}.

Definition isValidHttpUrl (value : string) : bool :=
  if negb (nonEmpty value) then false
  else
    match URL_new value with
    | None => false
    | Some url =>
        let isHttp := (protocol url =? "https:")%string
                      || (protocol url =? "http:")%string in
        let isLocalhost :=
          existsb (String.eqb (hostname url)) ["localhost"; "127.0.0.1"] in
        if negb isHttp then false
        else if (protocol url =? "http:")%string && negb isLocalhost then false
        else true
    end.

(** [parseBoolean(value, fallback)]; [None] is the TypeError of
    [String(value)] on a value that cannot be converted. *)
Definition parseBoolean (value : jsval) (fallback : bool) : option bool :=
  match ToString (orElse value (JStr "")) with
  | Some text =>
      let normalized := toLowerCase (trim text) in
      Some (if (normalized =? "true")%string then true
            else if (normalized =? "false")%string then false
            else fallback)
  | None => None
  end.

(** [rawText.replace(/^\uFEFF/, "")].  U+FEFF is not a code unit below
    256, so no modelled text starts with it and the replacement leaves
    every modelled text as it is. *)
Definition stripBom (rawText : string) : string := rawText.

(** The prefix [p] of ASCII characters matches at the start of [s] under
    the [i] flag. *)
Fixpoint prefixIgnoreCase (p s : string) : option string :=
  match p with
  | EmptyString => Some s
  | String a p' =>
      match s with
      | EmptyString => None
      | String b s' =>
          if Ascii.eqb (toLowerChar a) (toLowerChar b)
          then prefixIgnoreCase p' s'
          else None
      end
  end.

(** [s.replace(/^Example:\s*/i, "")] *)
Definition stripExamplePrefix (s : string) : string :=
  match prefixIgnoreCase "Example:" s with
  | Some rest => trimStart rest
  | None => s
  end.

(** [arr.findIndex(p)]; [None] stands for -1. *)
Fixpoint findIndexFrom {A : Type} (p : A -> bool) (l : list A) (i : nat) : option nat :=
  match l with
  | [] => None
  | x :: r => if p x then Some i else findIndexFrom p r (S i)
  end.

Definition findIndex {A : Type} (p : A -> bool) (l : list A) : option nat :=
  findIndexFrom p l 0.

(** [row[idx] || ""] *)
Definition cell (row : list string) (idx : nat) : string := nth idx row "".

(** [row[idx]] as a value: [undefined] past the end of the row. *)
Definition cellValue (row : list string) (idx : nat) : jsval :=
  match nth_error row idx with
  | Some s => JStr s
  | None => JUndefined
  end.

(** [parseBoolean(sendEmailIdx >= 0 ? row[sendEmailIdx] : true, true)].
    The argument is a cell of the row, [undefined] past the end of the
    row, or the literal [true]: a primitive in each case, so the
    conversion inside [parseBoolean] yields a text and the last branch
    below is never taken. *)
Definition sendEmailOf (row : list string) (sendEmailIdx : option nat) : bool :=
  match parseBoolean
          (match sendEmailIdx with
           | Some idx => cellValue row idx
           | None => JBool true
           end) true with
  | Some flag => flag
  | None => true
  end.

(** The body of the row loop of [parseEntraTemplateCsv]; [line] is
    [lines[i]]. *)
Definition templateRow (emailIdx redirectIdx : nat)
    (sendEmailIdx messageIdx : option nat) (defaultReset : bool)
    (acc : ParseResult) (line : string) (i : nat) : ParseResult :=
  let row := parseCsvLine line in
  let rawEmail := stripExamplePrefix (cell row emailIdx) in
  if negb (nonEmpty rawEmail) || startsWith rawEmail "Example:" then acc
  else
    let email := normalizeEmail rawEmail in
    let redirect := trim (cell row redirectIdx) in
    if negb (Regex.test EMAIL_REGEX email)
    then pushError acc ("Line " +++ ofNat (i + 1) +++ ": invalid inviteeEmail")
    else if negb (isValidHttpUrl redirect)
    then pushError acc ("Line " +++ ofNat (i + 1) +++ ": invalid inviteRedirectURL")
    else pushEntry acc
           {| email := email;
              firstName := "";
              lastName := "";
              displayName := "";
              inviteRedirectUrl := redirect;
              sendEmail := sendEmailOf row sendEmailIdx;
              customizedMessageBody :=
                match messageIdx with
                | Some idx => trim (cell row idx)
                | None => ""
                end;
              resetRedemption := defaultReset |}.

Definition parseEntraTemplateCsv (rawText : string) (defaultReset : bool) : ParseResult :=
  let normalized := stripBom rawText in
  let lines := nonBlankLines normalized in
  if List.length lines <? 2
  then {| entries := [];
          errors := ["CSV is invalid. Expected version row and header row."] |}
  else
    let headers := parseCsvLine (nth 1 lines "") in
    let emailIdx := findIndex (fun h => includes h "[inviteeEmail]") headers in
    let redirectIdx := findIndex (fun h => includes h "[inviteRedirectURL]") headers in
    let sendEmailIdx := findIndex (fun h => includes h "[sendEmail]") headers in
    let messageIdx := findIndex (fun h => includes h "[customizedMessageBody]") headers in
    match emailIdx, redirectIdx with
    | Some emailIdx, Some redirectIdx =>
        forEachFrom
          (templateRow emailIdx redirectIdx sendEmailIdx messageIdx defaultReset)
          (skipn 2 lines) 2 {| entries := []; errors := [] |}
    | _, _ =>
        {| entries := [];
           errors := ["CSV missing required columns: [inviteeEmail] and/or [inviteRedirectURL]."] |}
    end.

End WithHost.

(** *** Submitting invites *)

(** What [fetch] followed by [res.text()] comes to: a response with its
    status and body text, an abort by the 12 second timer, or another
    failure of the request. *)
Inductive FetchOutcome : Type :=
| Responded (status : Z) (text : string)
| Aborted
| Failed.

(** [res.ok]: the status is in the range 200-299. *)
Definition statusOk (status : Z) : bool :=
  ((200 <=? status) && (status <=? 299))%Z.

(** An outbound call: the URL and the object handed to [JSON.stringify]. *)
Record Request : Type := { req_url : string; req_body : props_t }.

(** The network: it answers each request and moves to its next state. *)
Class Network (W : Type) : Type := {
  fetch : W -> Request -> FetchOutcome * W
}.

(** The state threaded through the effectful code: the network and the
    log of the calls issued so far, oldest first. *)
Record Net (W : Type) : Type := { world : W; calls : list Request }.
Arguments world {W} _.
Arguments calls {W} _.

Inductive ResultData : Type :=
| DataObject (ps : props_t)
| DataFile (parsedFromFile : string) (validRows : nat) (invalidRows : list string)
| DataSummary (source : string) (totalRows validRows : nat)
    (invalidRows : list string) (invited failed : nat)
    (failures : list (string * jsval)).

Record Result : Type := { ok : bool; data : ResultData }.

Definition errorResult (msg : string) : Result :=
  {| ok := false; data := DataObject [("error", JStr msg)] |}.

(** [getRedeemUrl(result)]: the member [inviteRedeemUrl] of the data of
    a result when it is a string that starts with [http]; [None] stands
    for [null].  Only a data object can have the member. *)
Definition getRedeemUrl (result : option Result) : option string :=
  match result with
  | Some r =>
      match data r with
      | DataObject ps =>
          match lookup "inviteRedeemUrl" ps with
          | JStr url => if startsWith url "http" then Some url else None
          | _ => None
          end
      | _ => None
      end
  | None => None
  end.

Section WithNetwork.
Context {H : Host} {W : Type} {N : Network W}.

Definition objectProps (v : jsval) : props_t :=
  match v with JObj ps => ps | _ => [] end.

(** The outcome [sendInvite] builds from what [fetch] gave. *)
Definition classifyOutcome (o : FetchOutcome) : Result :=
  match o with
  | Responded status text =>
      let parsed :=
        if nonEmpty text
        then match JSON_parse text with Some v => v | None => JNull end
        else JNull in
      let payloadSafe := safeResponse parsed in
      if negb (statusOk status) then
        let fallbackText := if nonEmpty text then JStr (slice0 280 text) else JNull in
        let d := spread [] (objectProps payloadSafe) in
        let d :=
          setProp "error"
            (orElse
               (if truthy payloadSafe then optProp payloadSafe "error" else payloadSafe)
               (JStr ("Invite failed with HTTP " +++ ofZ status
                      +++ ". Check API permissions and payload format.")))
            d in
        let d :=
          spread d (if truthy fallbackText
                    then [("backendResponse", fallbackText)] else []) in
        {| ok := false; data := DataObject d |}
      else
        {| ok := true;
           data := DataObject
                     (objectProps
                        (orElse payloadSafe (JObj [("message", JStr "Invite sent.")]))) |}
  | Aborted => errorResult "Request timed out. Try again."
  | Failed => errorResult "Network request failed. Check connection and API URL."
  end.

Definition sendInvite (apiUrl : string) (payload : props_t) (n : Net W)
    : Result * Net W :=
  let req := {| req_url := apiUrl; req_body := buildInvitePayload payload |} in
  let (o, w') := fetch (world n) req in
  (classifyOutcome o, {| world := w'; calls := calls n ++ [req] |}).

Inductive Mode : Type := Single | Bulk.

(** The component state that [inviteGuest] reads and writes. *)
Record AppState : Type := {
  mode : Mode;
  st_email : string;
  st_firstName : string;
  st_lastName : string;
  redirectUrl : string;
  sendEmailFlag : bool;
  resetRedemptionFlag : bool;
  st_customizedMessageBody : string;
  bulkInput : string;
  bulkEntriesFromFile : list InviteEntry;
  bulkFileName : string;
  loading : bool;
  result : option Result
}.

Definition setLoading (b : bool) (s : AppState) : AppState :=
  {| mode := mode s; st_email := st_email s; st_firstName := st_firstName s;
     st_lastName := st_lastName s; redirectUrl := redirectUrl s;
     sendEmailFlag := sendEmailFlag s; resetRedemptionFlag := resetRedemptionFlag s;
     st_customizedMessageBody := st_customizedMessageBody s;
     bulkInput := bulkInput s; bulkEntriesFromFile := bulkEntriesFromFile s;
     bulkFileName := bulkFileName s; loading := b; result := result s |}.

Definition setResult (r : option Result) (s : AppState) : AppState :=
  {| mode := mode s; st_email := st_email s; st_firstName := st_firstName s;
     st_lastName := st_lastName s; redirectUrl := redirectUrl s;
     sendEmailFlag := sendEmailFlag s; resetRedemptionFlag := resetRedemptionFlag s;
     st_customizedMessageBody := st_customizedMessageBody s;
     bulkInput := bulkInput s; bulkEntriesFromFile := bulkEntriesFromFile s;
     bulkFileName := bulkFileName s; loading := loading s; result := r |}.

(** [setEmail(""); setFirstName(""); setLastName("")] *)
Definition clearSingle (s : AppState) : AppState :=
  {| mode := mode s; st_email := ""; st_firstName := ""; st_lastName := "";
     redirectUrl := redirectUrl s;
     sendEmailFlag := sendEmailFlag s; resetRedemptionFlag := resetRedemptionFlag s;
     st_customizedMessageBody := st_customizedMessageBody s;
     bulkInput := bulkInput s; bulkEntriesFromFile := bulkEntriesFromFile s;
     bulkFileName := bulkFileName s; loading := loading s; result := result s |}.

(** [setBulkInput(""); setBulkEntriesFromFile([]); setBulkFileName("")] *)
Definition clearBulk (s : AppState) : AppState :=
  {| mode := mode s; st_email := st_email s; st_firstName := st_firstName s;
     st_lastName := st_lastName s; redirectUrl := redirectUrl s;
     sendEmailFlag := sendEmailFlag s; resetRedemptionFlag := resetRedemptionFlag s;
     st_customizedMessageBody := st_customizedMessageBody s;
     bulkInput := ""; bulkEntriesFromFile := []; bulkFileName := "";
     loading := loading s; result := result s |}.

Definition withResetRedemption (flag : bool) (e : InviteEntry) : InviteEntry :=
  {| email := email e; firstName := firstName e; lastName := lastName e;
     displayName := displayName e; inviteRedirectUrl := inviteRedirectUrl e;
     sendEmail := sendEmail e; customizedMessageBody := customizedMessageBody e;
     resetRedemption := flag |}.

Definition apiConfigured : bool := isValidHttpUrl API_URL.

(** The submission loop: one [sendInvite] per entry, awaited before the
    next; [failures] is the array the loop pushes to. *)
Fixpoint submitAll (entries : list InviteEntry) (failures : list (string * jsval))
    (n : Net W) : list (string * jsval) * Net W :=
  match entries with
  | [] => (failures, n)
  | entry :: rest =>
      let (response, n') := sendInvite API_URL (entryObject entry) n in
      let failures' :=
        if negb (ok response)
        then failures ++
             [(email entry,
               orElse (match data response with
                       | DataObject ps => lookup "error" ps
                       | _ => JUndefined
                       end) (JStr "Invite failed"))]
        else failures in
      submitAll rest failures' n'
  end.

(** The bulk branch of [inviteGuest].  [gathered] is the outcome of the
    choice of the entries: the rows of the uploaded file with the current
    reset flag, or the manual rows, or nothing when the redirect URL of a
    manual submission is rejected. *)
Definition gatherEntries (s : AppState) : option ParseResult :=
  if 0 <? List.length (bulkEntriesFromFile s) then
    Some {| entries := map (withResetRedemption (resetRedemptionFlag s))
                         (bulkEntriesFromFile s);
            errors := [] |}
  else if negb (isValidHttpUrl (trim (redirectUrl s))) then None
  else
    Some (parseManualBulk (bulkInput s)
            {| d_redirectUrl := trim (redirectUrl s);
               d_sendEmail := sendEmailFlag s;
               d_customizedMessageBody := trim (st_customizedMessageBody s);
               d_resetRedemption := resetRedemptionFlag s |}).

Definition inviteBulk (s : AppState) (n : Net W) : AppState * Net W :=
  match gatherEntries s with
  | None =>
      (setResult (Some (errorResult "Please enter a valid redirect URL for bulk invites."))
         (setLoading false s), n)
  | Some parsed =>
      let entries := entries parsed in
      let validationErrors := errors parsed in
      if List.length entries =? 0 then
        (setResult
           (Some (errorResult "No valid rows found. Upload Entra CSV or add manual rows."))
           (setLoading false s), n)
      else if MAX_BULK_INVITES <? List.length entries then
        (setResult
           (Some (errorResult ("Bulk invite limit is " +++ ofNat MAX_BULK_INVITES
                               +++ " rows per submission.")))
           (setLoading false s), n)
      else
        let (failures, n') := submitAll entries [] n in
        let summary :=
          DataSummary
            (if 0 <? List.length (bulkEntriesFromFile s)
             then "file:" +++ bulkFileName s else "manual")
            (List.length entries + List.length validationErrors)
            (List.length entries)
            validationErrors
            (List.length entries - List.length failures)
            (List.length failures)
            failures in
        let clean :=
          (List.length failures =? 0) && (List.length validationErrors =? 0) in
        let s1 := setResult (Some {| ok := clean; data := summary |}) s in
        let s2 := if clean then clearBulk s1 else s1 in
        (setLoading false s2, n')
  end.

(** The single branch of [inviteGuest]. *)
Definition inviteSingle (s : AppState) (n : Net W) : AppState * Net W :=
  let normalizedEmail := normalizeEmail (st_email s) in
  let normalizedFirstName := sanitizeName (st_firstName s) in
  let normalizedLastName := sanitizeName (st_lastName s) in
  let normalizedRedirect := trim (redirectUrl s) in
  if negb (Regex.test EMAIL_REGEX normalizedEmail) then
    (setResult (Some (errorResult "Please enter a valid guest email."))
       (setLoading false s), n)
  else if negb (isValidHttpUrl normalizedRedirect) then
    (setResult (Some (errorResult "Please enter a valid redirect URL."))
       (setLoading false s), n)
  else
    let (response, n') :=
      sendInvite API_URL
        (entryObject
           {| email := normalizedEmail;
              firstName := normalizedFirstName;
              lastName := normalizedLastName;
              displayName := getDisplayName normalizedFirstName normalizedLastName;
              inviteRedirectUrl := normalizedRedirect;
              sendEmail := sendEmailFlag s;
              customizedMessageBody := trim (st_customizedMessageBody s);
              resetRedemption := resetRedemptionFlag s |}) n in
    let s1 := setResult (Some response) s in
    let s2 := if ok response then clearSingle s1 else s1 in
    (setLoading false s2, n').

(** The submit handler [inviteGuest] of the form. *)
Definition inviteGuest (s : AppState) (n : Net W) : AppState * Net W :=
  if negb apiConfigured then
    (setResult (Some (errorResult "Enter a valid API URL to continue.")) s, n)
  else
    let s := setResult None (setLoading true s) in
    match mode s with
    | Single => inviteSingle s n
    | Bulk => inviteBulk s n
    end.

(** *** The file input and the text area *)

(** The file chosen in the file input: its name and what [file.text()]
    gives, [None] when reading fails. *)
Record UploadedFile : Type := { file_name : string; file_text : option string }.

(** [setBulkEntriesFromFile(entries); setBulkFileName(name)] *)
Definition setBulkFile (entries : list InviteEntry) (name : string) (s : AppState)
    : AppState :=
  {| mode := mode s; st_email := st_email s; st_firstName := st_firstName s;
     st_lastName := st_lastName s; redirectUrl := redirectUrl s;
     sendEmailFlag := sendEmailFlag s; resetRedemptionFlag := resetRedemptionFlag s;
     st_customizedMessageBody := st_customizedMessageBody s;
     bulkInput := bulkInput s; bulkEntriesFromFile := entries;
     bulkFileName := name; loading := loading s; result := result s |}.

(** [setBulkInput(value)] *)
Definition setBulkInput (value : string) (s : AppState) : AppState :=
  {| mode := mode s; st_email := st_email s; st_firstName := st_firstName s;
     st_lastName := st_lastName s; redirectUrl := redirectUrl s;
     sendEmailFlag := sendEmailFlag s; resetRedemptionFlag := resetRedemptionFlag s;
     st_customizedMessageBody := st_customizedMessageBody s;
     bulkInput := value; bulkEntriesFromFile := bulkEntriesFromFile s;
     bulkFileName := bulkFileName s; loading := loading s; result := result s |}.

(** [onBulkFileChange]; [file] is [event.target.files?.[0]]. *)
Definition onBulkFileChange (file : option UploadedFile) (s : AppState) : AppState :=
  match file with
  | None => s
  | Some f =>
      match file_text f with
      | Some text =>
          let parsed := parseEntraTemplateCsv text (resetRedemptionFlag s) in
          setResult
            (Some {| ok := List.length (errors parsed) =? 0;
                     data := DataFile (file_name f) (List.length (entries parsed))
                               (errors parsed) |})
            (setBulkFile (entries parsed) (file_name f) s)
      | None =>
          setResult (Some (errorResult "Unable to read the uploaded CSV."))
            (setBulkFile [] (file_name f) s)
      end
  end.

(** The [onChange] handler of the text area of manual rows. *)
Definition onBulkInputChange (value : string) (s : AppState) : AppState :=
  if 0 <? List.length (bulkEntriesFromFile s)
  then setBulkFile [] "" (setBulkInput value s)
  else setBulkInput value s.

End WithNetwork.

End Frontend.

(** ** The back end: [src/functions/inviteGuest.js] *)

Module Backend.

Definition GRAPH_SCOPE : string := "https://graph.microsoft.com/.default".
Definition GRAPH_BASE : string := "https://graph.microsoft.com/v1.0".
Definition EXT_FIELD : string :=
  "extension_9722db236acf4a89b1c3463d9a982b12_guestSource".

(** [process.env]: a variable is a string or is not set. *)
Definition Env : Type := string -> option string.

(** [process.env.NAME || ""] *)
Definition envOr (env : Env) (name : string) (dflt : string) : string :=
  match env name with
  | Some v => if nonEmpty v then v else dflt
  | None => dflt
  end.

(** [process.env.NAME !== "false"] *)
Definition envNotFalse (env : Env) (name : string) : bool :=
  match env name with
  | Some v => negb (v =? "false")%string
  | None => true
  end.

(** [s.split(c)] for a one-character separator. *)
Fixpoint splitOnFrom (c : ascii) (s : string) (cur : string) : list string :=
  match s with
  | EmptyString => [cur]
  | String a r =>
      if Ascii.eqb a c then cur :: splitOnFrom c r ""
      else splitOnFrom c r (cur +++ String a "")
  end.

Definition splitOn (c : ascii) (s : string) : list string := splitOnFrom c s "".

(** The module-level constants, computed once from the environment. *)
Record Config : Type := {
  GUEST_SOURCE_VALUE : string;
  WHOAMI_ENABLED : bool;
  IS_AZURE_RUNTIME : bool;
  ALLOW_LOCAL_ANONYMOUS_INVITE : bool;
  ALLOWED_INVITER_GROUP_OBJECT_IDS : list string;
  ENFORCE_GROUP_MEMBERSHIP_IN_AZURE : bool;
  AZURE_CLIENT_ID : string
}.

Definition loadConfig (env : Env) : Config :=
  {| GUEST_SOURCE_VALUE := envOr env "GUEST_SOURCE_VALUE" "GuestInvited";
     WHOAMI_ENABLED :=
       match env "ENABLE_WHOAMI" with
       | Some v => (v =? "true")%string
       | None => false
       end || negb (nonEmpty (envOr env "WEBSITE_INSTANCE_ID" ""));
     IS_AZURE_RUNTIME := nonEmpty (envOr env "WEBSITE_INSTANCE_ID" "");
     ALLOW_LOCAL_ANONYMOUS_INVITE := envNotFalse env "ALLOW_LOCAL_ANONYMOUS_INVITE";
     ALLOWED_INVITER_GROUP_OBJECT_IDS :=
       filter nonEmpty
         (map trim (splitOn "," (envOr env "ALLOWED_INVITER_GROUP_OBJECT_IDS" "")));
     ENFORCE_GROUP_MEMBERSHIP_IN_AZURE :=
       envNotFalse env "ENFORCE_GROUP_MEMBERSHIP_IN_AZURE";
     AZURE_CLIENT_ID := trim (envOr env "AZURE_CLIENT_ID" "") |}.

(** A thrown error, by the properties the handlers read from it.  What
    the program, the identity library and [fetch] throw are Error
    objects, on which every such read is defined; a thrown [null] or
    [undefined], on which the reads of a [catch] block would throw in
    their turn, is outside the model. *)
Record Exn : Type := {
  e_message : jsval;
  e_status : jsval;
  e_details : jsval;
  e_wwwAuthenticate : jsval;
  e_requestId : jsval;
  e_clientRequestId : jsval
}.

(** The TypeError of a property read on [undefined] or [null]. *)
Definition typeError (what prop : string) : Exn :=
  {| e_message := JStr ("Cannot read properties of " +++ what
                        +++ " (reading '" +++ prop +++ "')");
     e_status := JUndefined; e_details := JUndefined;
     e_wwwAuthenticate := JUndefined; e_requestId := JUndefined;
     e_clientRequestId := JUndefined |}.

(** The TypeError of a conversion to text that cannot be made. *)
Definition conversionError : Exn :=
  {| e_message := JStr "Cannot convert object to primitive value";
     e_status := JUndefined; e_details := JUndefined;
     e_wwwAuthenticate := JUndefined; e_requestId := JUndefined;
     e_clientRequestId := JUndefined |}.

(** The answer of the directory service to one call. *)
Record GraphResponse : Type := {
  g_status : Z;
  g_statusText : string;
  g_text : string;
  g_wwwAuthenticate : option string;
  g_requestId : option string;
  g_clientRequestId : option string
}.

Record GraphCall : Type := {
  c_method : string;
  c_url : string;
  c_token : jsval;
  c_body : option jsval
}.

Record Runtime : Type := { rt_mode : string; azClientIdConfigured : bool }.

(** The outside world of the back end: the identity provider that issues
    tokens and the directory service.  Either may answer or throw. *)
Class Directory (W : Type) : Type := {
  (** [runtime.credential.getToken(GRAPH_SCOPE)]: the AccessToken object. *)
  getToken : W -> Runtime -> (Exn + jsval) * W;
  (** [fetch] and [res.text()] of one directory call. *)
  graphFetch : W -> GraphCall -> (Exn + GraphResponse) * W
}.

Inductive Event : Type :=
| EvGetToken (r : Runtime)
| EvGraph (c : GraphCall).

(** The state threaded through the handlers: the world and the log of the
    external calls made so far, oldest first. *)
Record Sys (W : Type) : Type := { world : W; events : list Event }.
Arguments world {W} _.
Arguments events {W} _.

(** Computations that read and change the world and may throw. *)
Definition M (W A : Type) : Type := Sys W -> (Exn + A) * Sys W.

Definition ret {W A : Type} (a : A) : M W A := fun s => (inr a, s).

Definition throw {W A : Type} (e : Exn) : M W A := fun s => (inl e, s).

Definition bind {W A B : Type} (m : M W A) (k : A -> M W B) : M W B :=
  fun s =>
    match m s with
    | (inl e, s') => (inl e, s')
    | (inr a, s') => k a s'
    end.

(** [try { m } catch (e) { h e }] *)
Definition tryCatch {W A : Type} (m : M W A) (h : Exn -> M W A) : M W A :=
  fun s =>
    match m s with
    | (inl e, s') => h e s'
    | (inr a, s') => (inr a, s')
    end.

Notation "x <- m ;; k" := (bind m (fun x => k))
  (at level 61, m at next level, right associativity).

(** An HTTP request to the function app, by what the handler reads. *)
Record HttpRequest : Type := {
  (** [request.headers.get("x-ms-client-principal")] *)
  principalHeader : option string;
  (** what [request.json()] resolves to; [None] when it rejects *)
  jsonBody : option jsval
}.

Record HttpResponse : Type := { status : jsval; jsonBody_out : jsval }.

Inductive AuthDecision : Type :=
| Authorized (mode : string) (caller : jsval)
| Denied (status : Z) (error : string).

Definition isAuthorized (d : AuthDecision) : bool :=
  match d with Authorized _ _ => true | Denied _ _ => false end.

(** [v || null] for an optional header value. *)
Definition headerOrNull (h : option string) : jsval :=
  match h with
  | Some s => if nonEmpty s then JStr s else JNull
  | None => JNull
  end.

Section WithWorld.
Context {H : Host} {W : Type} {D : Directory W}.

(** The result of a conversion, or its TypeError thrown. *)
Definition converted {A : Type} (o : option A) : M W A :=
  match o with
  | Some a => ret a
  | None => throw conversionError
  end.

(** The text of [v] inside a template literal. *)
Definition toText (v : jsval) : M W string := converted (ToString v).

Definition tryParseJson (text : string) : jsval :=
  if negb (nonEmpty text) then JNull
  else match JSON_parse text with
       | Some v => v
       | None => JStr text
       end.

(** [s.replace(/-/g, "+").replace(/_/g, "/")] *)
Definition base64urlToBase64 (s : string) : string :=
  mapString (fun c => if Ascii.eqb c "-" then "+"%char
                      else if Ascii.eqb c "_" then "/"%char else c) s.

(** [s.padEnd(Math.ceil(s.length / 4) * 4, "=")] *)
Definition padBase64 (s : string) : string :=
  let n := String.length s in
  s +++ string_of_list_ascii (repeat "="%char ((4 - n mod 4) mod 4)).

Definition decodeJwtClaims (token : jsval) : jsval :=
  match token with
  | JStr t =>
      if negb (nonEmpty t) then JNull
      else
        let parts := splitOn "." t in
        if List.length parts <? 2 then JNull
        else
          let padded := padBase64 (base64urlToBase64 (nth 1 parts "")) in
          match JSON_parse (base64_utf8 padded) with
          | Some v => v
          | None => JNull
          end
  | _ => JNull
  end.

Definition decodeClientPrincipal (request : HttpRequest) : jsval :=
  match headerOrNull (principalHeader request) with
  | JStr raw =>
      match JSON_parse (base64_utf8 raw) with
      | Some v => v
      | None => JNull
      end
  | _ => JNull
  end.

Definition getClaimValue (principal : jsval) (claimName : string) : jsval :=
  let claims :=
    match optProp principal "claims" with
    | JArr items => items
    | _ => []
    end in
  let found :=
    match find (fun c => strictEqStr (optProp c "typ") claimName) claims with
    | Some c => c
    | None => JUndefined
    end in
  orElse (optProp found "val") JNull.

Definition getCallerObjectId (principal : jsval) : jsval :=
  orElse
    (getClaimValue principal
       "http://schemas.microsoft.com/identity/claims/objectidentifier")
    (orElse (getClaimValue principal "oid")
       (orElse (optProp principal "userId") JNull)).

Definition getRuntimeCredential (cfg : Config) : Runtime :=
  let configuredClientId := AZURE_CLIENT_ID cfg in
  if IS_AZURE_RUNTIME cfg then
    if nonEmpty configuredClientId
    then {| rt_mode := "managed_identity_user_assigned"; azClientIdConfigured := true |}
    else {| rt_mode := "managed_identity_system_assigned"; azClientIdConfigured := false |}
  else {| rt_mode := "local_default_credential";
          azClientIdConfigured := nonEmpty configuredClientId |}.

Definition getGraphAccessToken (cfg : Config) : M W (jsval * Runtime) :=
  let runtime := getRuntimeCredential cfg in
  fun s =>
    let (r, w') := getToken (world s) runtime in
    let s' := {| world := w'; events := events s ++ [EvGetToken runtime] |} in
    match r with
    | inl e => (inl e, s')
    | inr token => (inr (optProp token "token", runtime), s')
    end.

(** [graphRequest(method, url, token, body)].  The options of [fetch]
    are built before the call, and the header [Bearer ${token}] among
    them converts the token to text, which may throw; the call is logged
    with the token it was made for. *)
Definition graphRequest (method url : string) (token : jsval) (body : option jsval)
    : M W jsval :=
  _ <- toText token ;;
  fun s =>
    let call := {| c_method := method; c_url := url; c_token := token; c_body := body |} in
    let (r, w') := graphFetch (world s) call in
    let s' := {| world := w'; events := events s ++ [EvGraph call] |} in
    match r with
    | inl e => (inl e, s')
    | inr res =>
        let json := tryParseJson (g_text res) in
        if negb (Frontend.statusOk (g_status res)) then
          (inl {| e_message :=
                    JStr ("Graph call failed: " +++ ofZ (g_status res) +++ " "
                          +++ g_statusText res);
                  e_status := num (g_status res);
                  e_details := json;
                  e_wwwAuthenticate := headerOrNull (g_wwwAuthenticate res);
                  e_requestId := headerOrNull (g_requestId res);
                  e_clientRequestId := headerOrNull (g_clientRequestId res) |}, s')
        else (inr json, s')
    end.

Definition authorizeInviter (cfg : Config) (request : HttpRequest) (graphToken : jsval)
    : M W AuthDecision :=
  if negb (IS_AZURE_RUNTIME cfg) && ALLOW_LOCAL_ANONYMOUS_INVITE cfg then
    ret (Authorized "local_bypass"
           (JObj [("userType", JStr "Member"); ("id", JStr "local-dev")]))
  else
    let principal := decodeClientPrincipal request in
    if negb (truthy principal) then
      ret (Denied 401
             "Unauthorized. Enable App Service Authentication and call this API as a signed-in internal user.")
    else
      let callerOid := getCallerObjectId principal in
      if negb (truthy callerOid) then
        ret (Denied 401 "Unauthorized. Caller object ID claim is missing.")
      else
        callerText <- toText callerOid ;;
        caller <- graphRequest "GET"
                    (GRAPH_BASE +++ "/users/" +++ callerText
                     +++ "?$select=id,displayName,userPrincipalName,userType,accountEnabled")
                    graphToken None ;;
        if negb (truthy (optProp caller "id"))
           || match optProp caller "accountEnabled" with
              | JBool false => true
              | _ => false
              end
        then ret (Denied 403 "Forbidden. Caller account is not active.")
        else if negb (strictEqStr (optProp caller "userType") "Member")
        then ret (Denied 403 "Forbidden. Only tenant Member users can send invites.")
        else if IS_AZURE_RUNTIME cfg && ENFORCE_GROUP_MEMBERSHIP_IN_AZURE cfg
                && (List.length (ALLOWED_INVITER_GROUP_OBJECT_IDS cfg) =? 0)
        then ret (Denied 500
                    "Server misconfiguration. ALLOWED_INVITER_GROUP_OBJECT_IDS must be set in Azure.")
        else
          let shouldCheckGroupMembership :=
            (0 <? List.length (ALLOWED_INVITER_GROUP_OBJECT_IDS cfg))
            && (negb (IS_AZURE_RUNTIME cfg) || ENFORCE_GROUP_MEMBERSHIP_IN_AZURE cfg) in
          if shouldCheckGroupMembership then
            callerText <- toText callerOid ;;
            membership <- graphRequest "POST"
                            (GRAPH_BASE +++ "/users/" +++ callerText
                             +++ "/checkMemberGroups")
                            graphToken
                            (Some (JObj [("groupIds",
                                          JArr (map JStr
                                                  (ALLOWED_INVITER_GROUP_OBJECT_IDS cfg)))])) ;;
            let matched :=
              match optProp membership "value" with
              | JArr items => items
              | _ => []
              end in
            if List.length matched =? 0
            then ret (Denied 403 "Forbidden. Caller is not in the allowed inviter group.")
            else ret (Authorized "entra_authenticated" caller)
          else ret (Authorized "entra_authenticated" caller).

(** *** The [inviteGuest] HTTP handler *)

(** [v.k], throwing the TypeError of a read on [undefined] or [null]. *)
Definition readProp (v : jsval) (k : string) : M W jsval :=
  match getProp v k with
  | Some x => ret x
  | None =>
      throw (typeError (match v with JNull => "null" | _ => "undefined" end) k)
  end.

Definition runtimeMode (rt : option Runtime) : jsval :=
  match rt with
  | Some r => orElse (JStr (rt_mode r)) JNull
  | None => JNull
  end.

Definition runtimeClientId (rt : option Runtime) : jsval :=
  match rt with
  | Some r => orElse (JBool (azClientIdConfigured r)) (JBool false)
  | None => JBool false
  end.

(** The [catch] block of the handler; [rt] is the variable [runtime] at
    the time of the throw. *)
Definition errorResponse (rt : option Runtime) (e : Exn) : HttpResponse :=
  {| status := orElse (e_status e) (num 500);
     jsonBody_out :=
       JObj [ ("error", orElse (e_message e) (JStr "Unknown error"));
              ("details", orElse (e_details e) JNull);
              ("requestId", orElse (e_requestId e) JNull);
              ("clientRequestId", orElse (e_clientRequestId e) JNull);
              ("wwwAuthenticate", orElse (e_wwwAuthenticate e) JNull);
              ("runtime", runtimeMode rt);
              ("azClientIdConfigured", runtimeClientId rt) ] |}.

Definition tokenContext (claims : jsval) : jsval :=
  if truthy claims then
    JObj [ ("aud", optProp claims "aud");
           ("tid", optProp claims "tid");
           ("appid", optProp claims "appid");
           ("oid", optProp claims "oid");
           ("roles", orElse (optProp claims "roles") (JArr [])) ]
  else JNull.

(** The object [invitationBody] posted to the directory service. *)
Definition buildInvitationBody (email displayName redirectUrl : jsval)
    (sendInvitationMessage : bool) (customizedMessageBody messageLanguage : string)
    (resetRedemption : bool) : props_t :=
  let invitationBody :=
    [ ("invitedUserEmailAddress", email);
      ("invitedUserDisplayName", displayName);
      ("inviteRedirectUrl", redirectUrl);
      ("sendInvitationMessage", JBool sendInvitationMessage) ] in
  let invitationBody :=
    if sendInvitationMessage then
      setProp "invitedUserMessageInfo"
        (JObj (spread [("messageLanguage", JStr messageLanguage)]
                 (if nonEmpty customizedMessageBody
                  then [("customizedMessageBody", JStr customizedMessageBody)]
                  else [])))
        invitationBody
    else invitationBody in
  if resetRedemption
  then setProp "resetRedemption" (JBool true) invitationBody
  else invitationBody.

(** The part of the [try] block after [runtime] has been assigned;
    [invitationBody] is built from the request body before the call. *)
Definition inviteAuthorized (cfg : Config) (request : HttpRequest)
    (email : jsval) (invitationBody : props_t)
    (accessToken : jsval) (runtime : Runtime) : M W HttpResponse :=
  let claims := decodeJwtClaims accessToken in
  inviterAuth <- authorizeInviter cfg request accessToken ;;
  match inviterAuth with
  | Denied st err =>
      ret {| status := num st;
             jsonBody_out :=
               JObj [ ("error", JStr err);
                      ("runtime", runtimeMode (Some runtime));
                      ("azClientIdConfigured", runtimeClientId (Some runtime)) ] |}
  | Authorized authMode caller =>
      invitation <- graphRequest "POST" (GRAPH_BASE +++ "/invitations") accessToken
                      (Some (JObj invitationBody)) ;;
      let invitedUserId := optProp (optProp invitation "invitedUser") "id" in
      if negb (truthy invitedUserId) then
        ret {| status := num 500;
               jsonBody_out :=
                 JObj [ ("error", JStr "Invite succeeded but invitedUser.id not returned");
                        ("invitation", invitation) ] |}
      else
        invitedUserText <- toText invitedUserId ;;
        _ <- graphRequest "PATCH" (GRAPH_BASE +++ "/users/" +++ invitedUserText)
               accessToken
               (Some (JObj [(EXT_FIELD, JStr (GUEST_SOURCE_VALUE cfg))])) ;;
        ret {| status := num 200;
               jsonBody_out :=
                 JObj [ ("status", JStr "invited_and_stamped");
                        ("invitedUserId", invitedUserId);
                        ("email", email);
                        ("guestSource", JStr (GUEST_SOURCE_VALUE cfg));
                        ("inviteRedeemUrl",
                         orElse (optProp invitation "inviteRedeemUrl") JNull);
                        ("inviterAuthorizationMode", JStr authMode);
                        ("inviter",
                         JObj [ ("id", orElse (optProp caller "id") JNull);
                                ("userType", orElse (optProp caller "userType") JNull);
                                ("userPrincipalName",
                                 orElse (optProp caller "userPrincipalName") JNull) ]);
                        ("runtime", runtimeMode (Some runtime));
                        ("azClientIdConfigured", runtimeClientId (Some runtime));
                        ("tokenContext", tokenContext claims) ] |}
  end.

(** The values the handler reads from the request body. *)

(** [[body.firstName, body.lastName].filter(Boolean).join(" ").trim()];
    [None] is the TypeError of a name that cannot be converted to text. *)
Definition joinedNames (body : jsval) : option string :=
  option_map (fun texts => trim (join " " texts))
    (allTexts (filter truthy [optProp body "firstName"; optProp body "lastName"])).

(** [body.displayName || joinedNames || email]: the names are joined
    only when [body.displayName] is falsy. *)
Definition displayNameOf (body email : jsval) : option jsval :=
  if truthy (optProp body "displayName") then Some (optProp body "displayName")
  else match joinedNames body with
       | Some text => Some (orElse (JStr text) email)
       | None => None
       end.

Definition redirectUrlOf (body : jsval) : jsval :=
  orElse (optProp body "redirectUrl")
    (orElse (optProp body "inviteRedirectUrl")
       (orElse (optProp body "inviteRedirectURL")
          (JStr "https://myapps.microsoft.com"))).

Definition sendInvitationMessageOf (body : jsval) : bool :=
  match optProp body "sendEmail" with
  | JBool b => b
  | _ => true
  end.

Definition customizedMessageBodyOf (body : jsval) : string :=
  match optProp body "customizedMessageBody" with
  | JStr s => trim s
  | _ => ""
  end.

Definition messageLanguageOf (body : jsval) : string :=
  match optProp body "messageLanguage" with
  | JStr s => if nonEmpty (trim s) then trim s else "en-US"
  | _ => "en-US"
  end.

Definition resetRedemptionOf (body : jsval) : bool :=
  match optProp body "resetRedemption" with
  | JBool b => b
  | _ => false
  end.

(** The handler registered as [inviteGuest].  The variable [runtime] is
    [null] until the token has been acquired; the [catch] block reads it,
    so the [try] block is split where it is assigned. *)
Definition inviteGuest (cfg : Config) (request : HttpRequest) : M W HttpResponse :=
  tryCatch
    (let body := match jsonBody request with
                 | Some v => v
                 | None => JObj []
                 end in
     email <- readProp body "email" ;;
     displayName <- converted (displayNameOf body email) ;;
     let redirectUrl := redirectUrlOf body in
     let sendInvitationMessage := sendInvitationMessageOf body in
     let customizedMessageBody := customizedMessageBodyOf body in
     let messageLanguage := messageLanguageOf body in
     let resetRedemption := resetRedemptionOf body in
     if negb (truthy email) then
       ret {| status := num 400;
              jsonBody_out := JObj [("error", JStr "email is required")] |}
     else
       tokenResponse <- getGraphAccessToken cfg ;;
       let accessToken := fst tokenResponse in
       let runtime := snd tokenResponse in
       tryCatch
         (inviteAuthorized cfg request email
            (buildInvitationBody email displayName redirectUrl
               sendInvitationMessage customizedMessageBody messageLanguage
               resetRedemption)
            accessToken runtime)
         (fun e => ret (errorResponse (Some runtime) e)))
    (fun e => ret (errorResponse None e)).

(** *** The [whoami] HTTP handler *)

(** [v?.[0]]: the first element of an array, the first character of a
    string, the member [0] of an object. *)
Definition optFirst (v : jsval) : jsval :=
  match v with
  | JArr items => nth 0 items JUndefined
  | JStr (String c _) => JStr (String c "")
  | JObj ps => lookup "0" ps
  | _ => JUndefined
  end.

Definition whoamiClaims (claims : jsval) : jsval :=
  if truthy claims then
    JObj [ ("aud", optProp claims "aud");
           ("appid", optProp claims "appid");
           ("oid", optProp claims "oid");
           ("tid", optProp claims "tid");
           ("roles", orElse (optProp claims "roles") (JArr []));
           ("iss", optProp claims "iss") ]
  else JNull.

(** The [catch] block of [whoami]. *)
Definition whoamiError (e : Exn) : HttpResponse :=
  {| status := orElse (e_status e) (num 500);
     jsonBody_out :=
       JObj [ ("error", orElse (e_message e) (JStr "Unknown error"));
              ("details", orElse (e_details e) JNull);
              ("requestId", orElse (e_requestId e) JNull);
              ("clientRequestId", orElse (e_clientRequestId e) JNull);
              ("wwwAuthenticate", orElse (e_wwwAuthenticate e) JNull) ] |}.

(** The handler registered as [whoami]. *)
Definition whoami (cfg : Config) : M W HttpResponse :=
  if negb (WHOAMI_ENABLED cfg) then
    ret {| status := num 404; jsonBody_out := JObj [("error", JStr "Not found")] |}
  else
    tryCatch
      (tokenResponse <- getGraphAccessToken cfg ;;
       let accessToken := fst tokenResponse in
       let runtime := snd tokenResponse in
       let claims := decodeJwtClaims accessToken in
       org <- graphRequest "GET"
                (GRAPH_BASE +++ "/organization?$select=id,displayName,verifiedDomains")
                accessToken None ;;
       ret {| status := num 200;
              jsonBody_out :=
                JObj [ ("runtime", JStr (rt_mode runtime));
                       ("azClientIdConfigured", JBool (azClientIdConfigured runtime));
                       ("tokenClaims", whoamiClaims claims);
                       ("organization",
                        orElse (optFirst (optProp org "value")) JNull) ] |})
      (fun e => ret (whoamiError e)).

End WithWorld.

End Backend.

(** ** Specification-level definitions

    The properties of the specification, written from its words, to be
    compared with the code above. *)

Module Spec.

Import Frontend.

(** The language of a regular expression: [Matches r s] when the whole of
    [s] matches [r]. *)
Inductive Matches : Regex.regex -> string -> Prop :=
| M_eps : Matches Regex.REps ""
| M_class p c : p c = true -> Matches (Regex.RClass p) (String c "")
| M_seq a b s t : Matches a s -> Matches b t -> Matches (Regex.RSeq a b) (s +++ t)
| M_alt_l a b s : Matches a s -> Matches (Regex.RAlt a b) s
| M_alt_r a b s : Matches b s -> Matches (Regex.RAlt a b) s
| M_star_nil r : Matches (Regex.RStar r) ""
| M_star_cons r s t :
    Matches r s -> Matches (Regex.RStar r) t -> Matches (Regex.RStar r) (s +++ t).

(** Every character of [s] satisfies [p]. *)
Fixpoint allChars (p : ascii -> bool) (s : string) : bool :=
  match s with
  | EmptyString => true
  | String c r => p c && allChars p r
  end.

(** A non-empty run of characters that are neither white space nor [@]. *)
Definition addressPart (s : string) : Prop :=
  s <> "" /\ allChars notSpaceNorAt s = true.

(** "local-part [@] domain with at least one dot, no whitespace". *)
Definition addressShape (s : string) : Prop :=
  exists l d t,
    s = l +++ "@" +++ d +++ "." +++ t
    /\ addressPart l /\ addressPart d /\ addressPart t.

(** Put [c] in front of the first field of a non-empty list of fields. *)
Definition consHead (c : ascii) (l : list string) : list string :=
  match l with
  | [] => [String c ""]
  | s :: r => String c s :: r
  end.

(** "Splitting on commas not enclosed in double quotes": the raw fields
    of a line; [inQuotes] tells whether an odd number of double quotes has
    been read so far. *)
Fixpoint splitOutsideQuotes (line : string) (inQuotes : bool) : list string :=
  match line with
  | EmptyString => [""]
  | String ch rest =>
      if Ascii.eqb ch dquote
      then consHead ch (splitOutsideQuotes rest (negb inQuotes))
      else if Ascii.eqb ch comma && negb inQuotes
      then "" :: splitOutsideQuotes rest false
      else consHead ch (splitOutsideQuotes rest inQuotes)
  end.

(** The text of a raw field: the quotes that open and close a quoted part
    are dropped, "a doubled quote inside a quoted field is an escaped
    literal quote", and a quote left open runs to the end of the field. *)
Fixpoint unquoteFrom (field : string) (inQuotes : bool) : string :=
  match field with
  | EmptyString => EmptyString
  | String ch rest =>
      if Ascii.eqb ch dquote then
        match rest with
        | String ch2 rest' =>
            if inQuotes && Ascii.eqb ch2 dquote
            then String dquote (unquoteFrom rest' inQuotes)
            else unquoteFrom rest (negb inQuotes)
        | EmptyString => EmptyString
        end
      else String ch (unquoteFrom rest inQuotes)
  end.

Definition unquote (field : string) : string := unquoteFrom field false.

(** The number of double quotes in a text. *)
Fixpoint countQuotes (s : string) : nat :=
  match s with
  | EmptyString => 0
  | String c r => (if Ascii.eqb c dquote then 1 else 0) + countQuotes r
  end.

(** The character at index [i] of [line] is a comma preceded by an even
    number of double quotes. *)
Definition isSeparatorAt (line : string) (i : nat) : bool :=
  match String.get i line with
  | Some c => Ascii.eqb c comma && Nat.even (countQuotes (String.substring 0 i line))
  | None => false
  end.

Definition separators (line : string) : list nat :=
  filter (isSeparatorAt line) (seq 0 (String.length line)).

(** The fields the loop still has to emit, given the raw fields left and
    the text [current] gathered for the first of them. *)
Definition fieldsFrom (current : string) (inQuotes : bool) (raw : list string)
    : list string :=
  match raw with
  | [] => []
  | first :: others =>
      trim (current +++ unquoteFrom first inQuotes)
      :: map (fun f => trim (unquote f)) others
  end.

(** [isSeparatorAt] for a text read from a state [q]: the comma at [i] is
    outside quotes when the parity of the quotes before it undoes [q]. *)
Definition isSeparatorFrom (q : bool) (line : string) (i : nat) : bool :=
  match String.get i line with
  | Some c =>
      Ascii.eqb c comma
      && Bool.eqb (Nat.even (countQuotes (String.substring 0 i line))) (negb q)
  | None => false
  end.

(** The first field of a free-form line, as an address. *)
Definition lineEmail (line : string) : string :=
  normalizeEmail (nth 0 (parseCsvLine line) "").

Definition validLine (line : string) : bool :=
  Regex.test EMAIL_REGEX (lineEmail line).

Definition lineError (n : nat) : string :=
  "Line " +++ ofNat n +++ ": invalid email".

(** "Entries and errors partition the non-blank lines": [Partition k lines
    es errs] reads the lines of [lines], the first of which is the
    [(k+1)]-th non-blank line, and gives each line either one entry (its
    address trimmed, lower-cased and of the right shape) or one error
    with its number, in order. *)
Inductive Partition : nat -> list string -> list InviteEntry -> list string -> Prop :=
| P_done k : Partition k [] [] []
| P_entry k line rest e es errs :
    validLine line = true ->
    email e = lineEmail line ->
    trim (email e) = email e ->
    toLowerCase (email e) = email e ->
    Partition (S k) rest es errs ->
    Partition k (line :: rest) (e :: es) errs
| P_error k line rest es errs :
    validLine line = false ->
    Partition (S k) rest es errs ->
    Partition k (line :: rest) es (lineError (S k) :: errs).

(** The lines of a text with their line numbers in the text, counted
    from 1, blank lines dropped. *)
Definition numberedNonBlank (rawText : string) : list (nat * string) :=
  let ls := map trim (splitLines rawText) in
  filter (fun p => nonEmpty (snd p)) (combine (seq 1 (List.length ls)) ls).

(** The errors of the invalid lines, each citing its line number in the
    text. *)
Definition errorsByTextLine (rawText : string) : list string :=
  map (fun p => lineError (fst p))
    (filter (fun p => negb (validLine (snd p))) (numberedNonBlank rawText)).

(** The keys a payload may carry. *)
Definition payloadKeys : list string :=
  [ "email"; "displayName"; "firstName"; "lastName"; "inviteRedirectUrl";
    "inviteRedirectURL"; "sendEmail"; "customizedMessageBody"; "resetRedemption" ].

(** The value of an optional key: that of the entry when the key is
    included, none otherwise. *)
Definition included (c : bool) (v : jsval) : jsval := if c then v else JUndefined.

(** The fields [safeResponse] lets through. *)
Definition safeKeys : list string := ["message"; "status"; "code"; "error"; "detail"].

(** The parsed backend document of a response text, [null] when there is
    no text or it is not JSON. *)
Definition backendJson {H : Host} (text : string) : jsval :=
  if nonEmpty text
  then match JSON_parse text with Some v => v | None => JNull end
  else JNull.

(** The message of a failure whose backend document has no usable
    [error] field. *)
Definition genericFailure (status : Z) : string :=
  "Invite failed with HTTP " +++ ofZ status
  +++ ". Check API permissions and payload format.".

(** The usable entries of a bulk submission. *)
Definition usableEntries (s : AppState) : list InviteEntry :=
  if 0 <? List.length (bulkEntriesFromFile s)
  then map (withResetRedemption (resetRedemptionFlag s)) (bulkEntriesFromFile s)
  else entries
         (parseManualBulk (bulkInput s)
            {| d_redirectUrl := trim (redirectUrl s);
               d_sendEmail := sendEmailFlag s;
               d_customizedMessageBody := trim (st_customizedMessageBody s);
               d_resetRedemption := resetRedemptionFlag s |}).

(** The request [sendInvite] issues for an entry. *)
Definition requestOf (e : InviteEntry) : Request :=
  {| req_url := API_URL; req_body := buildInvitePayload (entryObject e) |}.

(** The answers of the network to a sequence of requests sent one after
    the other. *)
Fixpoint replay {W : Type} {N : Network W} (w : W) (reqs : list Request)
    : list FetchOutcome * W :=
  match reqs with
  | [] => ([], w)
  | r :: rest =>
      let (o, w') := fetch w r in
      let (os, w'') := replay w' rest in
      (o :: os, w'')
  end.

(** The addresses of the entries whose call failed, in the order of the
    entries; [outcomes] are the outcomes of the calls, one per entry. *)
Definition failedEmails {H : Host} (es : list InviteEntry)
    (outcomes : list FetchOutcome) : list string :=
  map (fun p => email (fst p))
    (filter (fun p => negb (ok (classifyOutcome (snd p)))) (combine es outcomes)).

(** The caller's directory profile passes the identity checks: it has an
    id, the account is not disabled, and the account is a Member. *)
Definition callerAccepted (caller : jsval) : bool :=
  truthy (optProp caller "id")
  && negb (match optProp caller "accountEnabled" with
           | JBool false => true
           | _ => false
           end)
  && strictEqStr (optProp caller "userType") "Member".

(** The directory call that fetches the profile of the caller whose
    object id has the text [oid]. *)
Definition profileUrl (oid : string) : string :=
  Backend.GRAPH_BASE +++ "/users/" +++ oid
  +++ "?$select=id,displayName,userPrincipalName,userType,accountEnabled".

(** The event is the attribute-stamping PATCH. *)
Definition isPatch (ev : Backend.Event) : bool :=
  match ev with
  | Backend.EvGraph c => (Backend.c_method c =? "PATCH")%string
  | Backend.EvGetToken _ => false
  end.

(** The body the handler works with: the parsed body, or the empty
    object when the body is not JSON. *)
Definition bodyOf (request : Backend.HttpRequest) : jsval :=
  match Backend.jsonBody request with
  | Some v => v
  | None => JObj []
  end.

(** Every white-space character of [s] is a space, and no two of them
    are adjacent; [afterSpace] tells whether the character before [s] was
    a space. *)
Fixpoint singleSpacedFrom (s : string) (afterSpace : bool) : bool :=
  match s with
  | EmptyString => true
  | String c r =>
      if isWhiteSpace c
      then Ascii.eqb c " " && negb afterSpace && singleSpacedFrom r true
      else singleSpacedFrom r false
  end.

Definition singleSpaced (s : string) : bool := singleSpacedFrom s false.

(** The characters of [s] are all different from [c]. *)
Definition freeOf (c : ascii) (s : string) : bool :=
  allChars (fun x => negb (Ascii.eqb x c)) s.

(** A field as a CSV writer quotes it: in double quotes, every double
    quote of the text doubled. *)
Fixpoint doubleQuotes (s : string) : string :=
  match s with
  | EmptyString => EmptyString
  | String c r =>
      if Ascii.eqb c dquote
      then String dquote (String dquote (doubleQuotes r))
      else String c (doubleQuotes r)
  end.

Definition csvQuote (field : string) : string :=
  String dquote (doubleQuotes field +++ String dquote "").

(** Every member of an object is a string. *)
Definition allStrings (ps : props_t) : bool :=
  forallb (fun kv => isString (snd kv)) ps.

(** A row-level error of the templated parser for a file of [n] non-blank
    lines: it cites a data line, numbered from 3 to [n]. *)
Definition templateRowError (n : nat) (msg : string) : Prop :=
  exists k,
    3 <= k <= n
    /\ (msg = "Line " +++ ofNat k +++ ": invalid inviteeEmail"
        \/ msg = "Line " +++ ofNat k +++ ": invalid inviteRedirectURL").

(** The header row of a templated text. *)
Definition templateHeaders (rawText : string) : list string :=
  parseCsvLine (nth 1 (nonBlankLines rawText) "").

(** What the row loop keeps true: the entries are valid, the errors cite
    lines read so far, and no row has given more than one of them. *)
Definition templateInvariant {H : Host} (reset : bool) (i : nat) (acc : ParseResult) : Prop :=
  Forall (fun e =>
            Regex.test EMAIL_REGEX (email e) = true
            /\ normalizeEmail (email e) = email e
            /\ isValidHttpUrl (inviteRedirectUrl e) = true
            /\ trim (inviteRedirectUrl e) = inviteRedirectUrl e
            /\ firstName e = "" /\ lastName e = "" /\ displayName e = ""
            /\ trim (customizedMessageBody e) = customizedMessageBody e
            /\ resetRedemption e = reset) (entries acc)
  /\ Forall (templateRowError i) (errors acc)
  /\ List.length (entries acc) + List.length (errors acc) + 2 <= i.

(** The entry a single-invite submission sends. *)
Definition singleEntry (s : AppState) : InviteEntry :=
  {| email := normalizeEmail (st_email s);
     firstName := sanitizeName (st_firstName s);
     lastName := sanitizeName (st_lastName s);
     displayName :=
       getDisplayName (sanitizeName (st_firstName s)) (sanitizeName (st_lastName s));
     inviteRedirectUrl := trim (redirectUrl s);
     sendEmail := sendEmailFlag s;
     customizedMessageBody := trim (st_customizedMessageBody s);
     resetRedemption := resetRedemptionFlag s |}.

(** An entry that may be sent: a well-formed address and an accepted
    redirect URL. *)
Definition sendable {H : Host} (e : InviteEntry) : Prop :=
  Regex.test EMAIL_REGEX (email e) = true
  /\ isValidHttpUrl (inviteRedirectUrl e) = true.

(** The conditions [authorizeInviter] reads from the configuration. *)
Definition localBypass (cfg : Backend.Config) : bool :=
  negb (Backend.IS_AZURE_RUNTIME cfg) && Backend.ALLOW_LOCAL_ANONYMOUS_INVITE cfg.

Definition misconfigured (cfg : Backend.Config) : bool :=
  Backend.IS_AZURE_RUNTIME cfg && Backend.ENFORCE_GROUP_MEMBERSHIP_IN_AZURE cfg
  && (List.length (Backend.ALLOWED_INVITER_GROUP_OBJECT_IDS cfg) =? 0).

Definition checksGroups (cfg : Backend.Config) : bool :=
  (0 <? List.length (Backend.ALLOWED_INVITER_GROUP_OBJECT_IDS cfg))
  && (negb (Backend.IS_AZURE_RUNTIME cfg)
      || Backend.ENFORCE_GROUP_MEMBERSHIP_IN_AZURE cfg).

(** The two directory calls of [authorizeInviter] for the caller whose
    object id has the text [oid]. *)
Definition profileCall (oid : string) (token : jsval) : Backend.GraphCall :=
  {| Backend.c_method := "GET"; Backend.c_url := profileUrl oid;
     Backend.c_token := token; Backend.c_body := None |}.

Definition groupCall (cfg : Backend.Config) (oid : string) (token : jsval)
    : Backend.GraphCall :=
  {| Backend.c_method := "POST";
     Backend.c_url :=
       Backend.GRAPH_BASE +++ "/users/" +++ oid +++ "/checkMemberGroups";
     Backend.c_token := token;
     Backend.c_body :=
       Some (JObj [("groupIds",
                    JArr (map JStr (Backend.ALLOWED_INVITER_GROUP_OBJECT_IDS cfg)))]) |}.

(** The status of a denial is one of the three the procedure uses. *)
Definition denialStatus (st : Z) : Prop := (st = 401 \/ st = 403 \/ st = 500)%Z.

(** The event is the acquisition of a token. *)
Definition isTokenEvent (ev : Backend.Event) : bool :=
  match ev with
  | Backend.EvGetToken _ => true
  | Backend.EvGraph _ => false
  end.

(** The call that posts the invitation. *)
Definition isInvitationPost (c : Backend.GraphCall) : Prop :=
  Backend.c_method c = "POST"
  /\ Backend.c_url c = Backend.GRAPH_BASE +++ "/invitations".

(** The invitation the handler posts for a request body that names
    [email], with the display name computed for it. *)
Definition invitationOf (body email displayName : jsval) : props_t :=
  Backend.buildInvitationBody email
    displayName
    (Backend.redirectUrlOf body)
    (Backend.sendInvitationMessageOf body)
    (Backend.customizedMessageBodyOf body)
    (Backend.messageLanguageOf body)
    (Backend.resetRedemptionOf body).

(** The call is made by GET or POST and does not post an invitation. *)
Definition isLookupCall (c : Backend.GraphCall) : Prop :=
  (Backend.c_method c = "GET" \/ Backend.c_method c = "POST")
  /\ ~ isInvitationPost c.

(** The calls that may follow the authorization: none, the invitation,
    or the invitation and then one PATCH. *)
Definition invitationTail (tail : list Backend.Event) : Prop :=
  tail = []
  \/ exists inv,
       isInvitationPost inv
       /\ (tail = [Backend.EvGraph inv]
           \/ exists p, Backend.c_method p = "PATCH"
                        /\ tail = [Backend.EvGraph inv; Backend.EvGraph p]).

(** The one directory call of [whoami]. *)
Definition organizationCall (token : jsval) : Backend.GraphCall :=
  {| Backend.c_method := "GET";
     Backend.c_url :=
       Backend.GRAPH_BASE +++ "/organization?$select=id,displayName,verifiedDomains";
     Backend.c_token := token; Backend.c_body := None |}.

End Spec.

(** ** Instances used in the examples *)

Module Examples.

Import Frontend Backend.

Definition LF : string := String (ascii_of_nat 10) "".
Definition QUOTE : string := String (ascii_of_nat 34) "".

(** The text up to the first [/]. *)
Fixpoint hostPart (s : string) : string :=
  match s with
  | EmptyString => EmptyString
  | String c r => if Ascii.eqb c "/" then EmptyString else String c (hostPart r)
  end.

(** A lower-case letter, a digit, [-] or [.]. *)
Definition hostChar (c : ascii) : bool :=
  let n := code c in
  ((97 <=? n) && (n <=? 122)) || ((48 <=? n) && (n <=? 57))
  || (n =? 45) || (n =? 46).

(** A lower-case letter: a host that has one is a domain name, not an
    IPv4 address. *)
Definition isLowerLetter (c : ascii) : bool :=
  let n := code c in (97 <=? n) && (n <=? 122).

Definition plainHost (after : string) : option string :=
  let h := hostPart after in
  if nonEmpty h && Spec.allChars hostChar h
     && negb (Spec.allChars (fun c => negb (isLowerLetter c)) h)
  then Some h else None.

(** A URL parser for the plain addresses [https://host] and
    [http://host], with or without a path, whose host is a lower-case
    domain name; it rejects every other text. *)
Definition plainUrl (value : string) : option URL :=
  if String.prefix "https://" value
  then match plainHost (String.substring 8 (String.length value) value) with
       | Some h => Some {| protocol := "https:"; hostname := h |}
       | None => None
       end
  else if String.prefix "http://" value
  then match plainHost (String.substring 7 (String.length value) value) with
       | Some h => Some {| protocol := "http:"; hostname := h |}
       | None => None
       end
  else None.

(** The JSON documents of the examples. *)
Definition errorDocument : string :=
  "{" +++ QUOTE +++ "error" +++ QUOTE +++ ":" +++ QUOTE +++ "denied" +++ QUOTE +++ ","
  +++ QUOTE +++ "trace" +++ QUOTE +++ ":" +++ QUOTE +++ "db.js:41" +++ QUOTE +++ "}".

Definition tableJson (text : string) : option jsval :=
  if (text =? "{}")%string then Some (JObj [])
  else if (text =? "null")%string then Some JNull
  else if (text =? errorDocument)%string
  then Some (JObj [("error", JStr "denied"); ("trace", JStr "db.js:41")])
  else None.

(** A host that agrees with the platform on the URLs and documents of the
    examples; the examples format no number and decode no base64 text. *)
Definition exampleHost : Host :=
  {| URL_new := plainUrl;
     JSON_parse := tableJson;
     Number_toString := fun _ => "0";
     base64_utf8 := fun s => s |}.

(** A backend that answers every invite call with the same outcome. *)
Definition constantNetwork (o : FetchOutcome) : Network unit :=
  {| fetch := fun w _ => (o, w) |}.

(** A directory service that issues the token [tok] and answers every
    call with status 201 and the empty object. *)
Definition emptyAnswer : GraphResponse :=
  {| g_status := 201; g_statusText := "Created"; g_text := "{}";
     g_wwwAuthenticate := None; g_requestId := None; g_clientRequestId := None |}.

Definition exampleDirectory : Directory unit :=
  {| getToken := fun w _ => (inr (JObj [("token", JStr "tok")]), w);
     graphFetch := fun w _ => (inr emptyAnswer, w) |}.

Definition noEnv : Env := fun _ => None.

(** The managed runtime with enforcement on and no allowed group. *)
Definition azureEnv : Env :=
  fun name => if (name =? "WEBSITE_INSTANCE_ID")%string then Some "instance-1" else None.

(** The defaults of a manual submission made with the initial form. *)
Definition someDefaults : Defaults :=
  {| d_redirectUrl := "https://myapplications.microsoft.com";
     d_sendEmail := true;
     d_customizedMessageBody := "";
     d_resetRedemption := false |}.

(** [n] free-form rows, each a well-formed address, one per line. *)
Fixpoint manyRows (n : nat) : string :=
  match n with
  | 0 => ""
  | S m => "guest@external.com" +++ LF +++ manyRows m
  end.

(** The form in bulk mode with [rows] typed into the text area and no
    file loaded. *)
Definition bulkForm (rows : string) : AppState :=
  {| mode := Bulk; st_email := ""; st_firstName := ""; st_lastName := "";
     redirectUrl := DEFAULT_REDIRECT_URL; sendEmailFlag := true;
     resetRedemptionFlag := false; st_customizedMessageBody := "";
     bulkInput := rows; bulkEntriesFromFile := []; bulkFileName := "";
     loading := false; result := None |}.

Definition freshNet : Net unit := {| Frontend.world := tt; calls := [] |}.

(** A templated file: the version row, the header row and the example
    row of the template. *)
Definition templateFile : string :=
  "version:v1.0" +++ LF
  +++ "Email address to invite [inviteeEmail] Required,Redirection url [inviteRedirectURL] Required"
  +++ LF
  +++ "Example: foo@bar.com,https://myapplications.microsoft.com".

Definition freshSys : Sys unit := {| Backend.world := tt; events := [] |}.

(** A request with no client-principal header and no JSON body. *)
Definition anonymousRequest : HttpRequest :=
  {| principalHeader := None; jsonBody := None |}.

(** A request whose body is the JSON literal [null]. *)
Definition nullBodyRequest : HttpRequest :=
  {| principalHeader := None; jsonBody := Some JNull |}.

(** A request to invite [guest@external.com]. *)
Definition guestRequest : HttpRequest :=
  {| principalHeader := None;
     jsonBody := Some (JObj [("email", JStr "guest@external.com")]) |}.

(** A request to invite [guest@external.com] whose first name is an
    object with a member [toString], which has no text. *)
Definition unnamedRequest : HttpRequest :=
  {| principalHeader := None;
     jsonBody := Some (JObj [("email", JStr "guest@external.com");
                             ("firstName", JObj [("toString", num 1)])]) |}.

(** *** A signed-in caller and a directory that knows them *)

Definition jsonString (s : string) : string := QUOTE +++ s +++ QUOTE.

Definition jsonMember (k v : string) : string := jsonString k +++ ":" +++ v.

(** The client principal [{"userId":"u1"}] and its base64 text. *)
Definition principalDocument : string :=
  "{" +++ jsonMember "userId" (jsonString "u1") +++ "}".

Definition principalHeaderText : string := "eyJ1c2VySWQiOiJ1MSJ9".

Definition callerDocument : string :=
  "{" +++ jsonMember "id" (jsonString "u1") +++ ","
  +++ jsonMember "userType" (jsonString "Member") +++ ","
  +++ jsonMember "accountEnabled" "true" +++ "}".

Definition membershipDocument : string :=
  "{" +++ jsonMember "value" ("[" +++ jsonString "g1" +++ "]") +++ "}".

Definition invitationDocument : string :=
  "{" +++ jsonMember "invitedUser" ("{" +++ jsonMember "id" (jsonString "g-1") +++ "}")
  +++ "}".

Definition directoryJson (text : string) : option jsval :=
  if (text =? principalDocument)%string
  then Some (JObj [("userId", JStr "u1")])
  else if (text =? callerDocument)%string
  then Some (JObj [("id", JStr "u1"); ("userType", JStr "Member");
                   ("accountEnabled", JBool true)])
  else if (text =? membershipDocument)%string
  then Some (JObj [("value", JArr [JStr "g1"])])
  else if (text =? invitationDocument)%string
  then Some (JObj [("invitedUser", JObj [("id", JStr "g-1")])])
  else None.

(** A host that agrees with the platform on the documents above and on
    the base64 text of the principal; the examples decode no other base64
    text and format no number. *)
Definition directoryHost : Host :=
  {| URL_new := plainUrl;
     JSON_parse := directoryJson;
     Number_toString := fun _ => "0";
     base64_utf8 :=
       fun s => if (s =? principalHeaderText)%string then principalDocument else "" |}.

Definition answer (status : Z) (statusText text : string) : GraphResponse :=
  {| g_status := status; g_statusText := statusText; g_text := text;
     g_wwwAuthenticate := None; g_requestId := None; g_clientRequestId := None |}.

(** A directory that has the user [u1], a Member of the group [g1],
    accepts every invitation and every PATCH. *)
Definition scriptedDirectory : Directory unit :=
  {| getToken := fun w _ => (inr (JObj [("token", JStr "tok")]), w);
     graphFetch :=
       fun w c =>
         (inr (if (c_method c =? "GET")%string then answer 200 "OK" callerDocument
               else if (c_method c =? "PATCH")%string then answer 204 "No Content" ""
               else if includes (c_url c) "/checkMemberGroups"
               then answer 200 "OK" membershipDocument
               else answer 201 "Created" invitationDocument), w) |}.

(** The managed runtime with the allowed groups [g1] and [g2]. *)
Definition groupEnv : Env :=
  fun name =>
    if (name =? "WEBSITE_INSTANCE_ID")%string then Some "instance-1"
    else if (name =? "ALLOWED_INVITER_GROUP_OBJECT_IDS")%string then Some "g1, g2"
    else None.

(** A request of the signed-in user [u1] to invite [guest@external.com]. *)
Definition signedInRequest : HttpRequest :=
  {| principalHeader := Some principalHeaderText;
     jsonBody := Some (JObj [("email", JStr "guest@external.com")]) |}.

(** The form in single mode with an address typed in. *)
Definition singleForm (address : string) : AppState :=
  {| mode := Single; st_email := address; st_firstName := ""; st_lastName := "";
     redirectUrl := DEFAULT_REDIRECT_URL; sendEmailFlag := true;
     resetRedemptionFlag := false; st_customizedMessageBody := "";
     bulkInput := ""; bulkEntriesFromFile := []; bulkFileName := "";
     loading := false; result := None |}.

End Examples.
(** * Facts about JavaScript strings *)

Module StringFacts.

Lemma append_nil_r (s : string) : s +++ "" = s.
Proof. induction s as [|c s IH]; simpl; [reflexivity | now rewrite IH]. Qed.

Lemma append_assoc (a b c : string) : (a +++ b) +++ c = a +++ (b +++ c).
Proof. induction a as [|x a IH]; simpl; [reflexivity | now rewrite IH]. Qed.

Lemma append_char_assoc (a : string) (c : ascii) (b : string) :
  (a +++ String c "") +++ b = a +++ String c b.
Proof. now rewrite append_assoc. Qed.

(** Induction that goes down a string two characters at a time, as the
    loops that look one character ahead do. *)
Lemma string_ind2 (P : string -> Prop) :
  P "" ->
  (forall c, P (String c "")) ->
  (forall c1 c2 s, P s -> P (String c2 s) -> P (String c1 (String c2 s))) ->
  forall s, P s.
Proof.
  intros H0 H1 H2 s.
  assert (both : P s /\ forall c, P (String c s)).
  { induction s as [|c2 s [IHs IHc]].
    - split; [exact H0 | exact H1].
    - split; [apply IHc | intro c1; apply H2; [exact IHs | apply IHc]]. }
  exact (proj1 both).
Qed.

Lemma eqb_empty_iff (s : string) : (s =? "")%string = true <-> s = "".
Proof. apply String.eqb_eq. Qed.

Lemma trimStart_idem (s : string) : trimStart (trimStart s) = trimStart s.
Proof.
  induction s as [|c s IH]; simpl; [reflexivity|].
  destruct (isWhiteSpace c) eqn:E; [exact IH | simpl; now rewrite E].
Qed.

Lemma trimEnd_idem (s : string) : trimEnd (trimEnd s) = trimEnd s.
Proof.
  induction s as [|c s IH]; simpl; [reflexivity|].
  destruct (isWhiteSpace c && (trimEnd s =? "")%string) eqn:E; simpl;
    [reflexivity | now rewrite IH, E].
Qed.

Lemma trimStart_trimEnd (s : string) : trimStart (trimEnd s) = trimEnd (trimStart s).
Proof.
  induction s as [|c s IH]; simpl; [reflexivity|].
  destruct (isWhiteSpace c) eqn:Ec; simpl.
  - destruct (trimEnd s =? "")%string eqn:E.
    + apply String.eqb_eq in E. rewrite E in IH. simpl in IH. exact IH.
    + simpl. now rewrite Ec.
  - now rewrite Ec.
Qed.

Lemma trim_idem (s : string) : trim (trim s) = trim s.
Proof.
  unfold trim.
  now rewrite trimStart_trimEnd, trimStart_idem, trimEnd_idem.
Qed.

Lemma trim_empty : trim "" = "".
Proof. reflexivity. Qed.

(** Case mapping neither makes nor removes white space. *)
Lemma isWhiteSpace_toLowerChar (c : ascii) :
  isWhiteSpace (toLowerChar c) = isWhiteSpace c.
Proof. destruct c as [[] [] [] [] [] [] [] []]; reflexivity. Qed.

Lemma toLowerChar_idem (c : ascii) : toLowerChar (toLowerChar c) = toLowerChar c.
Proof. destruct c as [[] [] [] [] [] [] [] []]; reflexivity. Qed.

Lemma toLowerCase_idem (s : string) : toLowerCase (toLowerCase s) = toLowerCase s.
Proof.
  unfold toLowerCase.
  induction s as [|c s IH]; simpl; [reflexivity | now rewrite toLowerChar_idem, IH].
Qed.

Lemma mapString_empty_iff (f : ascii -> ascii) (s : string) :
  (mapString f s =? "")%string = (s =? "")%string.
Proof. destruct s; reflexivity. Qed.

Lemma trimStart_toLowerCase (s : string) :
  trimStart (toLowerCase s) = toLowerCase (trimStart s).
Proof.
  unfold toLowerCase.
  induction s as [|c s IH]; simpl; [reflexivity|].
  rewrite isWhiteSpace_toLowerChar.
  destruct (isWhiteSpace c); [exact IH | reflexivity].
Qed.

Lemma trimEnd_toLowerCase (s : string) :
  trimEnd (toLowerCase s) = toLowerCase (trimEnd s).
Proof.
  unfold toLowerCase.
  induction s as [|c s IH]; simpl; [reflexivity|].
  rewrite isWhiteSpace_toLowerChar, IH, mapString_empty_iff.
  destruct (isWhiteSpace c && (trimEnd s =? "")%string); reflexivity.
Qed.

Lemma trim_toLowerCase (s : string) : trim (toLowerCase s) = toLowerCase (trim s).
Proof. unfold trim. now rewrite trimStart_toLowerCase, trimEnd_toLowerCase. Qed.

Lemma normalizeEmail_trimmed (v : string) :
  trim (Frontend.normalizeEmail v) = Frontend.normalizeEmail v.
Proof. unfold Frontend.normalizeEmail. now rewrite trim_toLowerCase, trim_idem. Qed.

Lemma normalizeEmail_lowercase (v : string) :
  toLowerCase (Frontend.normalizeEmail v) = Frontend.normalizeEmail v.
Proof. unfold Frontend.normalizeEmail. apply toLowerCase_idem. Qed.

End StringFacts.

(** * Regular expressions: derivatives decide the language *)

Module RegexFacts.

Import Regex Spec StringFacts.

Lemma append_eq_nil (s t : string) : s +++ t = "" -> s = "" /\ t = "".
Proof. destruct s; [auto | discriminate]. Qed.

Lemma append_eq_cons (s t : string) (c : ascii) (u : string) :
  s +++ t = String c u ->
  (s = "" /\ t = String c u) \/ (exists s', s = String c s' /\ u = s' +++ t).
Proof.
  destruct s as [|x s]; cbn; intro E.
  - left. auto.
  - injection E as -> <-. right. eauto.
Qed.

Lemma nullable_correct (r : regex) : nullable r = true <-> Matches r "".
Proof.
  induction r as [| |p|a IHa b IHb|a IHa b IHb|a IHa]; cbn.
  - split; [discriminate | intro M; inversion M].
  - split; [constructor | reflexivity].
  - split; [discriminate | intro M; inversion M].
  - rewrite andb_true_iff, IHa, IHb. split.
    + intros [Ma Mb]. change "" with ("" +++ ""). now apply M_seq.
    + intro M. inversion M as [| |a' b' s t Ma Mb E1 E2| | | |]; subst.
      apply append_eq_nil in E2. destruct E2; subst. auto.
  - rewrite orb_true_iff, IHa, IHb. split.
    + intros [M|M]; [now apply M_alt_l | now apply M_alt_r].
    + intro M. inversion M; subst; auto.
  - split; [constructor | reflexivity].
Qed.

Lemma Matches_none (s : string) : ~ Matches RNone s.
Proof. intro M. inversion M. Qed.

Lemma Matches_eps (s : string) : Matches REps s -> s = "".
Proof. intro M. now inversion M. Qed.

Lemma mkSeq_correct (a b : regex) (s : string) :
  Matches (mkSeq a b) s <-> Matches (RSeq a b) s.
Proof.
  destruct a as [| |p|a1 a2|a1 a2|a1].
  - cbn. split; [intro M; inversion M|].
    intro M. inversion M; subst. exfalso. eapply Matches_none; eauto.
  - destruct b as [| |p|b1 b2|b1 b2|b1]; cbn;
      try (split;
           [ intro M; change s with ("" +++ s); apply M_seq; [constructor | exact M]
           | intro M; inversion M as [| |a' b' s1 t1 Ma Mb E1 E2| | | |]; subst;
             apply Matches_eps in Ma; subst; exact Mb ]).
  - destruct b; cbn; try tauto.
    split; [intro M; inversion M|].
    intro M. inversion M; subst. exfalso. eapply Matches_none; eauto.
  - destruct b; cbn; try tauto.
    split; [intro M; inversion M|].
    intro M. inversion M; subst. exfalso. eapply Matches_none; eauto.
  - destruct b; cbn; try tauto.
    split; [intro M; inversion M|].
    intro M. inversion M; subst. exfalso. eapply Matches_none; eauto.
  - destruct b; cbn; try tauto.
    split; [intro M; inversion M|].
    intro M. inversion M; subst. exfalso. eapply Matches_none; eauto.
Qed.

Lemma mkAlt_correct (a b : regex) (s : string) :
  Matches (mkAlt a b) s <-> Matches (RAlt a b) s.
Proof.
  destruct a as [| |p|a1 a2|a1 a2|a1].
  - cbn. split; [now apply M_alt_r|].
    intro M. inversion M; subst; [exfalso; eapply Matches_none; eauto | assumption].
  - destruct b; cbn; try tauto.
    split; [now apply M_alt_l|].
    intro M. inversion M; subst; [assumption | exfalso; eapply Matches_none; eauto].
  - destruct b; cbn; try tauto.
    split; [now apply M_alt_l|].
    intro M. inversion M; subst; [assumption | exfalso; eapply Matches_none; eauto].
  - destruct b; cbn; try tauto.
    split; [now apply M_alt_l|].
    intro M. inversion M; subst; [assumption | exfalso; eapply Matches_none; eauto].
  - destruct b; cbn; try tauto.
    split; [now apply M_alt_l|].
    intro M. inversion M; subst; [assumption | exfalso; eapply Matches_none; eauto].
  - destruct b; cbn; try tauto.
    split; [now apply M_alt_l|].
    intro M. inversion M; subst; [assumption | exfalso; eapply Matches_none; eauto].
Qed.

(** A non-empty match of a repetition starts with a non-empty match of
    its body. *)
Lemma Matches_star_cons (r : regex) (c : ascii) (s : string) :
  Matches (RStar r) (String c s) ->
  exists s1 s2, s = s1 +++ s2 /\ Matches r (String c s1) /\ Matches (RStar r) s2.
Proof.
  intro M. remember (RStar r) as rs eqn:Er. remember (String c s) as cs eqn:Es.
  revert s Es.
  induction M as [| | | | | |r' u t Mu _ Mt IHt]; intros s0 Es; try discriminate.
  injection Er as ->.
  apply append_eq_cons in Es. destruct Es as [[-> ->] | (u' & -> & ->)].
  - apply IHt; reflexivity.
  - eauto.
Qed.

Lemma deriv_correct (r : regex) :
  forall (c : ascii) (s : string), Matches (deriv c r) s <-> Matches r (String c s).
Proof.
  induction r as [| |p|a IHa b IHb|a IHa b IHb|a IHa]; intros c s; cbn [deriv].
  - split; intro M; inversion M.
  - split; intro M; inversion M.
  - destruct (p c) eqn:Ep.
    + split; intro M.
      * apply Matches_eps in M. subst. now constructor.
      * inversion M; subst. constructor.
    + split; intro M; [inversion M|].
      inversion M; subst. congruence.
  - assert (seqd : Matches (mkSeq (deriv c a) b) s
                   <-> exists s1 s2, s = s1 +++ s2
                                     /\ Matches a (String c s1) /\ Matches b s2).
    { rewrite mkSeq_correct. split.
      - intro M. inversion M as [| |a' b' s1 s2 Ma Mb E1 E2| | | |]; subst.
        apply IHa in Ma. eauto.
      - intros (s1 & s2 & -> & Ma & Mb). apply M_seq; [now apply IHa | exact Mb]. }
    assert (split_seq : Matches (RSeq a b) (String c s)
                        <-> (exists s1 s2, s = s1 +++ s2
                                           /\ Matches a (String c s1) /\ Matches b s2)
                            \/ (Matches a "" /\ Matches b (String c s))).
    { split.
      - intro M. inversion M as [| |a' b' s1 s2 Ma Mb E1 E2| | | |]; subst.
        apply append_eq_cons in E2. destruct E2 as [[-> ->] | (u & -> & ->)].
        + right. auto.
        + left. eauto.
      - intros [(s1 & s2 & -> & Ma & Mb) | [Ma Mb]].
        + change (String c (s1 +++ s2)) with (String c s1 +++ s2). now apply M_seq.
        + change (String c s) with ("" +++ String c s). now apply M_seq. }
    rewrite split_seq.
    destruct (nullable a) eqn:En.
    + rewrite mkAlt_correct. split.
      * intro M. inversion M; subst.
        -- left. now apply seqd.
        -- right. split; [now apply nullable_correct | now apply IHb].
      * intros [M | [_ Mb]].
        -- apply M_alt_l. now apply seqd.
        -- apply M_alt_r. now apply IHb.
    + rewrite seqd. split; [auto|].
      intros [M | [Ma _]]; [exact M|].
      apply nullable_correct in Ma. congruence.
  - rewrite mkAlt_correct. split.
    + intro M. inversion M; subst;
        [apply M_alt_l; now apply IHa | apply M_alt_r; now apply IHb].
    + intro M. inversion M; subst;
        [apply M_alt_l; now apply IHa | apply M_alt_r; now apply IHb].
  - rewrite mkSeq_correct. split.
    + intro M. inversion M as [| |a' b' s1 s2 Ma Mb E1 E2| | | |]; subst.
      apply IHa in Ma.
      change (String c (s1 +++ s2)) with (String c s1 +++ s2).
      now apply M_star_cons.
    + intro M. apply Matches_star_cons in M.
      destruct M as (s1 & s2 & -> & Ma & Ms).
      apply M_seq; [now apply IHa | exact Ms].
Qed.

(** [test] decides the language. *)
Lemma test_correct (s : string) :
  forall r, test r s = true <-> Matches r s.
Proof.
  induction s as [|c s IH]; intro r; cbn [test].
  - apply nullable_correct.
  - rewrite IH. apply deriv_correct.
Qed.

End RegexFacts.

Module EmailFacts.

Import Regex Frontend Spec StringFacts RegexFacts.

Lemma Matches_class_star (p : ascii -> bool) (s : string) :
  Matches (RStar (RClass p)) s <-> allChars p s = true.
Proof.
  split.
  - intro M. remember (RStar (RClass p)) as r eqn:Er.
    induction M as [| | | | | |r' u t Mu _ Mt IHt]; try discriminate.
    + reflexivity.
    + injection Er as ->. inversion Mu as [|p' c Hc| | | | |]; subst.
      cbn. rewrite Hc. now apply IHt.
  - induction s as [|c s IH]; cbn; intro Hall.
    + constructor.
    + apply andb_true_iff in Hall. destruct Hall as [Hc Hs].
      change (String c s) with (String c "" +++ s).
      apply M_star_cons; [now constructor | now apply IH].
Qed.

Lemma Matches_class_plus (p : ascii -> bool) (s : string) :
  Matches (RPlus (RClass p)) s <-> s <> "" /\ allChars p s = true.
Proof.
  unfold RPlus. split.
  - intro M. inversion M as [| |a b u t Mu Mt E1 E2| | | |]; subst.
    inversion Mu as [|p' c Hc| | | | |]; subst.
    apply Matches_class_star in Mt. cbn. rewrite Hc, Mt. split; [discriminate | reflexivity].
  - intros [Hne Hall]. destruct s as [|c s]; [congruence|].
    cbn in Hall. apply andb_true_iff in Hall. destruct Hall as [Hc Hs].
    change (String c s) with (String c "" +++ s).
    apply M_seq; [now constructor | now apply Matches_class_star].
Qed.

Lemma Matches_char (c : ascii) (s : string) :
  Matches (RChar c) s <-> s = String c "".
Proof.
  unfold RChar. split.
  - intro M. inversion M as [|p' x Hx| | | | |]; subst.
    apply Ascii.eqb_eq in Hx. now subst.
  - intros ->. constructor. apply Ascii.eqb_refl.
Qed.

(** The pattern of the source accepts exactly the texts of the shape
    local-part [@] domain [.] rest, each part non-empty and free of white
    space and of [@]. *)
Lemma EMAIL_REGEX_shape (s : string) :
  Regex.test EMAIL_REGEX s = true <-> addressShape s.
Proof.
  rewrite test_correct. unfold EMAIL_REGEX, addressShape, addressPart. split.
  - intro M.
    inversion M as [| |a1 b1 l r1 Ml M1 E1 E2| | | |]; subst.
    inversion M1 as [| |a2 b2 at' r2 Mat M2 E1 E2| | | |]; subst.
    inversion M2 as [| |a3 b3 d r3 Md M3 E1 E2| | | |]; subst.
    inversion M3 as [| |a4 b4 dot' t Mdot Mt E1 E2| | | |]; subst.
    apply Matches_char in Mat, Mdot. subst.
    apply Matches_class_plus in Ml, Md, Mt.
    exists l, d, t. auto.
  - intros (l & d & t & -> & Hl & Hd & Ht).
    apply M_seq; [now apply Matches_class_plus|].
    change ("@" +++ d +++ "." +++ t) with (String "@" "" +++ d +++ "." +++ t).
    apply M_seq; [now apply Matches_char|].
    apply M_seq; [now apply Matches_class_plus|].
    change ("." +++ t) with (String "." "" +++ t).
    apply M_seq; [now apply Matches_char | now apply Matches_class_plus].
Qed.

End EmailFacts.

(** * The row parser *)

Module CsvFacts.

Import Frontend Spec StringFacts.

Lemma splitOutsideQuotes_cons (line : string) (q : bool) :
  exists first others, splitOutsideQuotes line q = first :: others.
Proof.
  revert q; induction line as [|c r IH]; intro q; simpl.
  - now exists "", [].
  - destruct (Ascii.eqb c dquote).
    + destruct (IH (negb q)) as (f & o & E). rewrite E. simpl. eauto.
    + destruct (Ascii.eqb c comma && negb q).
      * eauto.
      * destruct (IH q) as (f & o & E). rewrite E. simpl. eauto.
Qed.

(** The first raw field of a non-empty text is empty when the text starts
    with a separating comma, and starts with its first character
    otherwise. *)
Lemma splitOutsideQuotes_head (c : ascii) (r : string) (q : bool) :
  exists first others,
    splitOutsideQuotes (String c r) q = first :: others /\
    (first = "" /\ Ascii.eqb c dquote = false \/ exists f', first = String c f').
Proof.
  simpl.
  destruct (Ascii.eqb c dquote) eqn:Eq.
  - destruct (splitOutsideQuotes_cons r (negb q)) as (f & o & E).
    rewrite E. simpl. exists (String c f), o. split; [reflexivity | right; eauto].
  - destruct (Ascii.eqb c comma && negb q).
    + exists "", (splitOutsideQuotes r false). split; [reflexivity | left; auto].
    + destruct (splitOutsideQuotes_cons r q) as (f & o & E).
      rewrite E. simpl. exists (String c f), o. split; [reflexivity | right; eauto].
Qed.

Lemma dquote_not_comma : Ascii.eqb dquote comma = false.
Proof. reflexivity. Qed.

(** The loop of the parser emits the fields of the specification. *)
Lemma parseCsvLoop_fields (line : string) :
  forall out current q,
    parseCsvLoop line out current q
    = out ++ fieldsFrom current q (splitOutsideQuotes line q).
Proof.
  induction line as [| c | c1 c2 s IHs IHc] using string_ind2; intros out current q.
  - simpl. now rewrite append_nil_r.
  - simpl. destruct (Ascii.eqb c dquote) eqn:Eq.
    + apply Ascii.eqb_eq in Eq. subst c. simpl. now rewrite append_nil_r.
    + destruct (Ascii.eqb c comma && negb q) eqn:Ec; simpl.
      * rewrite <- app_assoc. simpl. rewrite append_nil_r.
        unfold unquote. simpl. reflexivity.
      * rewrite Eq. reflexivity.
  - change (parseCsvLoop (String c1 (String c2 s)) out current q)
      with (if Ascii.eqb c1 dquote
            then if q && Ascii.eqb c2 dquote
                 then parseCsvLoop s out (current +++ String dquote "") q
                 else parseCsvLoop (String c2 s) out current (negb q)
            else if Ascii.eqb c1 comma && negb q
            then parseCsvLoop (String c2 s) (out ++ [trim current]) "" q
            else parseCsvLoop (String c2 s) out (current +++ String c1 "") q).
    destruct (Ascii.eqb c1 dquote) eqn:E1.
    + apply Ascii.eqb_eq in E1. subst c1.
      destruct (q && Ascii.eqb c2 dquote) eqn:Eesc.
      * apply andb_true_iff in Eesc. destruct Eesc as [Hq E2]. subst q.
        apply Ascii.eqb_eq in E2. subst c2.
        rewrite IHs. f_equal.
        change (splitOutsideQuotes (String dquote (String dquote s)) true)
          with (consHead dquote (consHead dquote (splitOutsideQuotes s true))).
        destruct (splitOutsideQuotes_cons s true) as (f & o & E). rewrite E.
        simpl. now rewrite append_char_assoc.
      * rewrite IHc. f_equal.
        change (splitOutsideQuotes (String dquote (String c2 s)) q)
          with (consHead dquote (splitOutsideQuotes (String c2 s) (negb q))).
        destruct (splitOutsideQuotes_head c2 s (negb q))
          as (f & o & E & [[Hf Hc2] | [f' Hf]]); rewrite E; subst f; simpl.
        -- now rewrite append_nil_r.
        -- rewrite Eesc. reflexivity.
    + destruct (Ascii.eqb c1 comma && negb q) eqn:Ec.
      * apply andb_true_iff in Ec. destruct Ec as [Ec Hq].
        apply negb_true_iff in Hq. subst q.
        rewrite IHc, <- app_assoc. f_equal.
        change (splitOutsideQuotes (String c1 (String c2 s)) false)
          with (if Ascii.eqb c1 dquote
                then consHead c1 (splitOutsideQuotes (String c2 s) true)
                else if Ascii.eqb c1 comma && negb false
                then "" :: splitOutsideQuotes (String c2 s) false
                else consHead c1 (splitOutsideQuotes (String c2 s) false)).
        rewrite E1, Ec. cbn [andb negb].
        destruct (splitOutsideQuotes_cons (String c2 s) false) as (f & o & E).
        rewrite E. cbn [fieldsFrom app map unquoteFrom String.append].
        rewrite append_nil_r. reflexivity.
      * rewrite IHc. f_equal.
        change (splitOutsideQuotes (String c1 (String c2 s)) q)
          with (if Ascii.eqb c1 dquote
                then consHead c1 (splitOutsideQuotes (String c2 s) (negb q))
                else if Ascii.eqb c1 comma && negb q
                then "" :: splitOutsideQuotes (String c2 s) false
                else consHead c1 (splitOutsideQuotes (String c2 s) q)).
        rewrite E1, Ec.
        destruct (splitOutsideQuotes_cons (String c2 s) q) as (f & o & E).
        rewrite E. cbn [consHead fieldsFrom]. f_equal. f_equal.
        rewrite append_char_assoc. f_equal.
        cbn [unquoteFrom]. rewrite E1. reflexivity.
Qed.

Lemma parseCsvLine_fields (line : string) :
  parseCsvLine line = map (fun f => trim (unquote f)) (splitOutsideQuotes line false).
Proof.
  unfold parseCsvLine. rewrite parseCsvLoop_fields. simpl.
  destruct (splitOutsideQuotes_cons line false) as (f & o & E). rewrite E.
  reflexivity.
Qed.

Lemma parseCsvLine_trimmed (line : string) :
  Forall (fun f => trim f = f) (parseCsvLine line).
Proof.
  rewrite parseCsvLine_fields. apply Forall_map, Forall_forall.
  intros f _. apply trim_idem.
Qed.

Lemma parseCsvLine_nonempty (line : string) : parseCsvLine line <> [].
Proof.
  rewrite parseCsvLine_fields.
  destruct (splitOutsideQuotes_cons line false) as (f & o & E). rewrite E.
  discriminate.
Qed.

End CsvFacts.

Module SeparatorFacts.

Import Frontend Spec StringFacts CsvFacts.

Lemma isSeparatorFrom_false (line : string) (i : nat) :
  isSeparatorFrom false line i = isSeparatorAt line i.
Proof.
  unfold isSeparatorFrom, isSeparatorAt.
  destruct (String.get i line); [|reflexivity].
  now destruct (Nat.even _).
Qed.

Lemma isSeparatorFrom_succ (q : bool) (c : ascii) (r : string) (i : nat) :
  isSeparatorFrom q (String c r) (S i)
  = isSeparatorFrom (if Ascii.eqb c dquote then negb q else q) r i.
Proof.
  unfold isSeparatorFrom. cbn [String.get String.substring countQuotes].
  destruct (String.get i r); [|reflexivity].
  f_equal.
  destruct (Ascii.eqb c dquote).
  - change (1 + ?n) with (S n). rewrite Nat.even_succ, <- Nat.negb_even.
    now destruct (Nat.even _), q.
  - reflexivity.
Qed.

Lemma isSeparatorFrom_zero (q : bool) (c : ascii) (r : string) :
  isSeparatorFrom q (String c r) 0 = Ascii.eqb c comma && negb q.
Proof.
  unfold isSeparatorFrom. cbn. now destruct q, (Ascii.eqb c comma).
Qed.

Lemma length_consHead (c : ascii) (l : list string) :
  l <> [] -> List.length (consHead c l) = List.length l.
Proof. destruct l; [congruence | reflexivity]. Qed.

Lemma filter_seq_shift (f : nat -> bool) (n : nat) :
  List.length (filter f (seq 1 n))
  = List.length (filter (fun i => f (S i)) (seq 0 n)).
Proof.
  rewrite <- seq_shift.
  generalize (seq 0 n). intro l.
  induction l as [|x l IH]; simpl; [reflexivity|].
  destruct (f (S x)); simpl; now rewrite IH.
Qed.

Lemma length_splitOutsideQuotes (line : string) :
  forall q,
    List.length (splitOutsideQuotes line q)
    = S (List.length (filter (isSeparatorFrom q line) (seq 0 (String.length line)))).
Proof.
  induction line as [|c r IH]; intro q; [reflexivity|].
  assert (tail : List.length (filter (isSeparatorFrom q (String c r))
                                (seq 1 (String.length r)))
                 = List.length
                     (filter (isSeparatorFrom (if Ascii.eqb c dquote then negb q else q) r)
                        (seq 0 (String.length r)))).
  { rewrite filter_seq_shift.
    now rewrite (filter_ext _ _ (isSeparatorFrom_succ q c r)). }
  cbn [String.length seq filter].
  rewrite isSeparatorFrom_zero.
  cbn [splitOutsideQuotes].
  destruct (Ascii.eqb c dquote) eqn:Eq.
  - apply Ascii.eqb_eq in Eq. subst c. rewrite dquote_not_comma. cbn [andb].
    rewrite tail, length_consHead, IH; [reflexivity|].
    destruct (splitOutsideQuotes_cons r (negb q)) as (f & o & E); rewrite E; discriminate.
  - destruct (Ascii.eqb c comma && negb q) eqn:Ec.
    + apply andb_true_iff in Ec. destruct Ec as [_ Hq].
      apply negb_true_iff in Hq. subst q.
      cbn [List.length]. now rewrite tail, IH.
    + rewrite tail, length_consHead, IH; [reflexivity|].
      destruct (splitOutsideQuotes_cons r q) as (f & o & E); rewrite E; discriminate.
Qed.

(** One field more than there are commas outside quotes. *)
Lemma parseCsvLine_length (line : string) :
  List.length (parseCsvLine line) = S (List.length (separators line)).
Proof.
  rewrite parseCsvLine_fields, length_map, length_splitOutsideQuotes.
  unfold separators.
  now rewrite (filter_ext _ _ (isSeparatorFrom_false line)).
Qed.

End SeparatorFacts.

Module CsvClaims.

Import Frontend Spec StringFacts CsvFacts SeparatorFacts Examples.

(** C5.  [parseCsvLine] is a total function from a line to its list of
    fields.  It returns the one empty field for the empty line; it gives
    the two results of the specification; the fields are the raw fields
    obtained by splitting on the commas that an even number of double
    quotes precede, each with its quotes resolved (a doubled quote in a
    quoted part is one literal quote) and trimmed; there is one field more
    than there are such commas; a quote that is never closed is no error
    and keeps the rest of the line, commas included, in its field. *)
Theorem parseCsvLine_contract :
  parseCsvLine "" = [""]
  /\ parseCsvLine ("a," +++ QUOTE +++ "b,c" +++ QUOTE +++ ",d") = ["a"; "b,c"; "d"]
  /\ parseCsvLine ("a," +++ QUOTE +++ "b" +++ QUOTE +++ QUOTE +++ "c" +++ QUOTE)
     = ["a"; "b" +++ QUOTE +++ "c"]
  /\ parseCsvLine ("a," +++ QUOTE +++ "b,c") = ["a"; "b,c"]
  /\ (forall line,
        parseCsvLine line
        = map (fun f => trim (unquote f)) (splitOutsideQuotes line false))
  /\ (forall line, Forall (fun f => trim f = f) (parseCsvLine line))
  /\ (forall line,
        List.length (parseCsvLine line) = S (List.length (separators line))).
Proof.
  repeat split; try reflexivity.
  - exact parseCsvLine_fields.
  - exact parseCsvLine_trimmed.
  - exact parseCsvLine_length.
Qed.

End CsvClaims.

(** * The free-form normalizer *)

Module ManualBulkFacts.

Import Frontend Spec StringFacts CsvFacts Examples.

Lemma manualLine_valid (d : Defaults) (acc : ParseResult) (line : string) (k : nat) :
  validLine line = true ->
  exists e,
    manualLine d acc line k = pushEntry acc e
    /\ email e = lineEmail line
    /\ trim (email e) = email e
    /\ toLowerCase (email e) = email e.
Proof.
  intro Hv. unfold manualLine.
  change (normalizeEmail (nth 0 (parseCsvLine line) "")) with (lineEmail line).
  unfold validLine in Hv. rewrite Hv. cbn [negb].
  eexists. split; [reflexivity|]. cbn [email].
  unfold lineEmail.
  split; [reflexivity | split];
    [apply normalizeEmail_trimmed | apply normalizeEmail_lowercase].
Qed.

Lemma manualLine_invalid (d : Defaults) (acc : ParseResult) (line : string) (k : nat) :
  validLine line = false ->
  manualLine d acc line k = pushError acc (lineError (S k)).
Proof.
  intro Hv. unfold manualLine.
  change (normalizeEmail (nth 0 (parseCsvLine line) "")) with (lineEmail line).
  unfold validLine in Hv. rewrite Hv. cbn [negb].
  unfold lineError. now rewrite Nat.add_1_r.
Qed.

(** The loop over the lines extends the two arrays by a partition of the
    lines it reads. *)
Lemma forEach_manualLine (d : Defaults) (lines : list string) :
  forall k acc,
  exists es errs,
    forEachFrom (manualLine d) lines k acc
    = {| entries := entries acc ++ es; errors := errors acc ++ errs |}
    /\ Partition k lines es errs.
Proof.
  induction lines as [|line rest IH]; intros k acc.
  - exists [], []. split; [|constructor].
    destruct acc; simpl. now rewrite !app_nil_r.
  - cbn [forEachFrom].
    destruct (validLine line) eqn:Hv.
    + destruct (manualLine_valid d acc line k Hv) as (e & Hstep & He & Ht & Hl).
      rewrite Hstep.
      destruct (IH (S k) (pushEntry acc e)) as (es & errs & Hrun & Hp).
      exists (e :: es), errs. split.
      * rewrite Hrun. cbn [pushEntry entries errors]. now rewrite <- app_assoc.
      * now apply P_entry.
    + rewrite (manualLine_invalid d acc line k Hv).
      destruct (IH (S k) (pushError acc (lineError (S k)))) as (es & errs & Hrun & Hp).
      exists es, (lineError (S k) :: errs). split.
      * rewrite Hrun. cbn [pushError entries errors]. now rewrite <- app_assoc.
      * now apply P_error.
Qed.

Lemma Partition_length (k : nat) (lines : list string) (es : list InviteEntry)
    (errs : list string) :
  Partition k lines es errs ->
  List.length es + List.length errs = List.length lines.
Proof.
  induction 1; cbn [List.length]; lia.
Qed.

Lemma nonBlankLines_spec (rawText : string) :
  Forall (fun l => l <> "" /\ trim l = l) (nonBlankLines rawText).
Proof.
  unfold nonBlankLines. apply Forall_forall. intros l Hin.
  apply filter_In in Hin. destruct Hin as [Hin Hne].
  apply in_map_iff in Hin. destruct Hin as (x & <- & _).
  split; [|apply trim_idem].
  unfold nonEmpty in Hne. apply negb_true_iff, String.eqb_neq in Hne. exact Hne.
Qed.

Lemma parseManualBulk_run (rawText : string) (defaults : Defaults) :
  Partition 0 (nonBlankLines rawText)
    (entries (parseManualBulk rawText defaults))
    (errors (parseManualBulk rawText defaults)).
Proof.
  unfold parseManualBulk.
  destruct (forEach_manualLine defaults (nonBlankLines rawText) 0
              {| entries := []; errors := [] |}) as (es & errs & Hrun & Hp).
  rewrite Hrun. exact Hp.
Qed.

(** C4, as amended.  The entries and errors of [parseManualBulk]
    partition the non-blank lines of the input, in order: a line whose
    first field is a well-formed address gives exactly one entry, with the
    address trimmed, lower-cased and of the shape local-part [@] domain
    [.] rest, and no error; any other line gives
    exactly one error [Line N: invalid email] and no entry, and the lines
    after it are still read.  [N] is the position of the line among the
    non-blank lines, counted from 1.  Blank lines give nothing. *)
Theorem parseManualBulk_partition (rawText : string) (defaults : Defaults) :
  let r := parseManualBulk rawText defaults in
  Partition 0 (nonBlankLines rawText) (entries r) (errors r)
  /\ List.length (entries r) + List.length (errors r)
     = List.length (nonBlankLines rawText)
  /\ Forall (fun l => l <> "" /\ trim l = l) (nonBlankLines rawText)
  /\ Forall (fun e => Regex.test EMAIL_REGEX (email e) = true
                      /\ addressShape (email e)
                      /\ trim (email e) = email e
                      /\ toLowerCase (email e) = email e) (entries r).
Proof.
  cbv zeta.
  pose proof (parseManualBulk_run rawText defaults) as Hp.
  split; [exact Hp|]. split; [exact (Partition_length _ _ _ _ Hp)|].
  split; [apply nonBlankLines_spec|].
  induction Hp; [constructor | | assumption].
  constructor; [|assumption].
  assert (Ht : Regex.test EMAIL_REGEX (email e) = true).
  { match goal with
    | He : email _ = lineEmail _, Hv : validLine _ = true |- _ =>
        rewrite He; exact Hv
    end. }
  split; [exact Ht|]. split; [now apply EmailFacts.EMAIL_REGEX_shape|].
  split; assumption.
Qed.

(** C4 as stated fails: for the two-line text whose first line is blank
    and whose second line is [bad], the error cites line 1, while [bad] is
    line 2 of the text. *)
Lemma parseManualBulk_line_number_counterexample :
  errors (parseManualBulk (LF +++ "bad") someDefaults) = ["Line 1: invalid email"]
  /\ numberedNonBlank (LF +++ "bad") = [(2, "bad")]
  /\ errors (parseManualBulk (LF +++ "bad") someDefaults)
     <> errorsByTextLine (LF +++ "bad").
Proof.
  split; [reflexivity | split; [reflexivity | discriminate]].
Qed.

End ManualBulkFacts.

Module ManualBulkNumbering.

Import Frontend Spec StringFacts CsvFacts Examples ManualBulkFacts.

Lemma Partition_errors (k : nat) (lines : list string) (es : list InviteEntry)
    (errs : list string) :
  Partition k lines es errs ->
  errs = map (fun p => lineError (fst p))
           (filter (fun p => negb (validLine (snd p)))
              (combine (seq (S k) (List.length lines)) lines)).
Proof.
  induction 1 as [k | k line rest e es errs Hv _ _ _ _ IH | k line rest es errs Hv _ IH].
  - reflexivity.
  - cbn [List.length seq combine filter snd]. rewrite Hv. exact IH.
  - cbn [List.length seq combine filter snd fst]. rewrite Hv.
    cbn [negb map fst]. now rewrite <- IH.
Qed.

Lemma filter_all {A : Type} (p : A -> bool) (l : list A) :
  forallb p l = true -> filter p l = l.
Proof.
  induction l as [|x l IH]; cbn; [reflexivity|].
  intro Hall. apply andb_true_iff in Hall. destruct Hall as [Hx Hl].
  now rewrite Hx, IH.
Qed.

Lemma filter_snd_combine (p : string -> bool) (l : list string) :
  forall k,
    forallb p l = true ->
    filter (fun q : nat * string => p (snd q)) (combine (seq k (List.length l)) l)
    = combine (seq k (List.length l)) l.
Proof.
  induction l as [|x l IH]; intros k Hall; cbn; [reflexivity|].
  cbn in Hall. apply andb_true_iff in Hall. destruct Hall as [Hx Hl].
  now rewrite Hx, IH.
Qed.

(** In a text without blank lines the number an error cites is the number
    of the line in the text. *)
Lemma parseManualBulk_text_line_numbers (rawText : string) (defaults : Defaults) :
  forallb nonEmpty (map trim (splitLines rawText)) = true ->
  errors (parseManualBulk rawText defaults) = errorsByTextLine rawText.
Proof.
  intro Hall.
  pose proof (parseManualBulk_run rawText defaults) as Hp.
  apply Partition_errors in Hp. rewrite Hp.
  unfold errorsByTextLine, numberedNonBlank, nonBlankLines.
  rewrite (filter_all _ _ Hall), (filter_snd_combine nonEmpty _ 1 Hall).
  reflexivity.
Qed.

End ManualBulkNumbering.

(** * The invite request builder *)

Module PayloadFacts.

Import Frontend Spec Examples.

Lemma keys_within (l allowed : list string) :
  forallb (fun k => existsb (String.eqb k) allowed) l = true ->
  forall k, In k l -> In k allowed.
Proof.
  intros Hall k Hk.
  rewrite forallb_forall in Hall. specialize (Hall k Hk).
  apply existsb_exists in Hall. destruct Hall as (a & Ha & Heq).
  apply String.eqb_eq in Heq. now subst a.
Qed.

Lemma NoDup_by_nodup (l : list string) :
  nodup string_dec l = l -> NoDup l.
Proof. intro E. rewrite <- E. apply NoDup_nodup. Qed.

Ltac payload_cases p :=
  unfold buildInvitePayload, setIf;
  destruct (truthy (lookup "firstName" p));
  destruct (truthy (lookup "lastName" p));
  destruct (truthy (lookup "inviteRedirectUrl" p));
  destruct (isBoolean (lookup "sendEmail" p));
  destruct (truthy (lookup "customizedMessageBody" p));
  destruct (isBoolean (lookup "resetRedemption" p)).

Lemma hasKey_setProp (k k' : string) (v : jsval) (b : props_t) :
  hasKey k (setProp k' v b) = (k =? k')%string || hasKey k b.
Proof.
  induction b as [|[k0 v0] b IH]; cbn [setProp hasKey].
  - reflexivity.
  - destruct (k' =? k0)%string eqn:E; cbn [hasKey].
    + apply String.eqb_eq in E. subst k0. now destruct (k =? k')%string.
    + rewrite IH. now destruct (k =? k')%string, (k =? k0)%string.
Qed.

Lemma lookup_setProp (k k' : string) (v : jsval) (b : props_t) :
  lookup k (setProp k' v b) = if (k =? k')%string then v else lookup k b.
Proof.
  induction b as [|[k0 v0] b IH]; cbn [setProp lookup].
  - reflexivity.
  - destruct (k' =? k0)%string eqn:E; cbn [lookup].
    + apply String.eqb_eq in E. subst k0. now destruct (k =? k')%string.
    + rewrite IH. destruct (k =? k')%string eqn:E1; [|reflexivity].
      apply String.eqb_eq in E1. subst k'. now rewrite E.
Qed.

Lemma hasKey_setIf (c : bool) (k k' : string) (v : jsval) (b : props_t) :
  hasKey k (setIf c k' v b) = (c && (k =? k')%string) || hasKey k b.
Proof. destruct c; [apply hasKey_setProp | reflexivity]. Qed.

Lemma lookup_setIf (c : bool) (k k' : string) (v : jsval) (b : props_t) :
  lookup k (setIf c k' v b) = if c && (k =? k')%string then v else lookup k b.
Proof. destruct c; [apply lookup_setProp | reflexivity]. Qed.

(** [buildInvitePayload] as a chain of conditional assignments. *)
Lemma buildInvitePayload_chain (p : props_t) :
  buildInvitePayload p
  = setIf (isBoolean (lookup "resetRedemption" p)) "resetRedemption"
      (lookup "resetRedemption" p)
      (setIf (truthy (lookup "customizedMessageBody" p)) "customizedMessageBody"
         (lookup "customizedMessageBody" p)
         (setIf (isBoolean (lookup "sendEmail" p)) "sendEmail" (lookup "sendEmail" p)
            (setIf (truthy (lookup "inviteRedirectUrl" p)) "inviteRedirectURL"
               (lookup "inviteRedirectUrl" p)
               (setIf (truthy (lookup "inviteRedirectUrl" p)) "inviteRedirectUrl"
                  (lookup "inviteRedirectUrl" p)
                  (setIf (truthy (lookup "lastName" p)) "lastName" (lookup "lastName" p)
                     (setIf (truthy (lookup "firstName" p)) "firstName"
                        (lookup "firstName" p)
                        [ ("email", lookup "email" p);
                          ("displayName",
                           orElse (lookup "displayName" p) (JStr "")) ])))))).
Proof.
  unfold buildInvitePayload.
  now destruct (truthy (lookup "inviteRedirectUrl" p)).
Qed.

Ltac payload_key :=
  rewrite buildInvitePayload_chain;
  rewrite ?hasKey_setIf, ?lookup_setIf;
  cbn [hasKey lookup String.eqb Ascii.eqb Bool.eqb andb orb];
  rewrite ?andb_false_r, ?andb_true_r, ?orb_false_r;
  cbn [andb orb];
  repeat match goal with
         | |- context [if ?c then _ else _] => destruct c; cbn [andb orb included]
         end;
  try reflexivity.

(** C6.  The payload built from an entry object [p] always has [email]
    and [displayName] (the empty string when the entry has none); it has
    [firstName], [lastName] and [customizedMessageBody] exactly when the
    entry's value is truthy (for a string: not empty), both
    [inviteRedirectUrl] and [inviteRedirectURL], with the same value,
    exactly when the entry has a redirect URL, and [sendEmail] and
    [resetRedemption] exactly when the entry's value is a boolean; it has
    no other key and no key twice.  An entry with empty first and last
    names gives a payload without [firstName] and [lastName]. *)
Theorem buildInvitePayload_keys (p : props_t) :
  let body := buildInvitePayload p in
  (hasKey "email" body = true /\ lookup "email" body = lookup "email" p)
  /\ (hasKey "displayName" body = true
      /\ lookup "displayName" body = orElse (lookup "displayName" p) (JStr ""))
  /\ (hasKey "firstName" body = truthy (lookup "firstName" p)
      /\ lookup "firstName" body
         = included (truthy (lookup "firstName" p)) (lookup "firstName" p))
  /\ (hasKey "lastName" body = truthy (lookup "lastName" p)
      /\ lookup "lastName" body
         = included (truthy (lookup "lastName" p)) (lookup "lastName" p))
  /\ (hasKey "inviteRedirectUrl" body = truthy (lookup "inviteRedirectUrl" p)
      /\ hasKey "inviteRedirectURL" body = truthy (lookup "inviteRedirectUrl" p)
      /\ lookup "inviteRedirectUrl" body
         = included (truthy (lookup "inviteRedirectUrl" p)) (lookup "inviteRedirectUrl" p)
      /\ lookup "inviteRedirectURL" body = lookup "inviteRedirectUrl" body)
  /\ (hasKey "sendEmail" body = isBoolean (lookup "sendEmail" p)
      /\ lookup "sendEmail" body
         = included (isBoolean (lookup "sendEmail" p)) (lookup "sendEmail" p))
  /\ (hasKey "customizedMessageBody" body = truthy (lookup "customizedMessageBody" p)
      /\ lookup "customizedMessageBody" body
         = included (truthy (lookup "customizedMessageBody" p))
             (lookup "customizedMessageBody" p))
  /\ (hasKey "resetRedemption" body = isBoolean (lookup "resetRedemption" p)
      /\ lookup "resetRedemption" body
         = included (isBoolean (lookup "resetRedemption" p)) (lookup "resetRedemption" p))
  /\ (forall k, In k (keys body) -> In k payloadKeys)
  /\ NoDup (keys body)
  /\ (forall e : InviteEntry,
        let b := buildInvitePayload (entryObject e) in
        hasKey "firstName" b = nonEmpty (firstName e)
        /\ hasKey "lastName" b = nonEmpty (lastName e)
        /\ hasKey "customizedMessageBody" b = nonEmpty (customizedMessageBody e)
        /\ hasKey "inviteRedirectUrl" b = nonEmpty (inviteRedirectUrl e)
        /\ hasKey "inviteRedirectURL" b = nonEmpty (inviteRedirectUrl e)
        /\ lookup "sendEmail" b = JBool (sendEmail e)
        /\ lookup "resetRedemption" b = JBool (resetRedemption e)
        /\ lookup "email" b = JStr (email e)
        /\ lookup "displayName" b = JStr (displayName e)).
Proof.
  cbv zeta.
  repeat match goal with |- _ /\ _ => split end.
  1-18: unfold included; payload_key.
  - apply keys_within. payload_cases p; vm_compute; reflexivity.
  - apply NoDup_by_nodup. payload_cases p; vm_compute; reflexivity.
  - intro e. cbv zeta.
    unfold buildInvitePayload, setIf, entryObject.
    cbn [lookup String.eqb Ascii.eqb Bool.eqb truthy isBoolean].
    destruct e as [em fn ln dn ru se cm rr]; cbn [firstName lastName
      customizedMessageBody inviteRedirectUrl sendEmail resetRedemption email
      displayName].
    destruct (nonEmpty fn), (nonEmpty ln), (nonEmpty ru), (nonEmpty cm);
      repeat split; try reflexivity;
      unfold orElse, truthy; destruct (nonEmpty dn) eqn:Edn; try reflexivity;
      cbn; unfold nonEmpty in Edn; apply negb_false_iff, String.eqb_eq in Edn;
      now subst dn.
Qed.

End PayloadFacts.

(** * Outcomes of an invite call *)

Module OutcomeFacts.

Import Frontend Spec Examples PayloadFacts.

Ltac outcome_leaf :=
  eexists; split; [reflexivity|];
  cbn [spread fold_left setProp fst snd String.eqb Ascii.eqb Bool.eqb objectProps
       orElse truthy isString optProp getProp lookup];
  repeat match goal with |- _ /\ _ => split end;
  [ apply keys_within; reflexivity
  | apply NoDup_by_nodup; reflexivity
  | try reflexivity .. ].

(** C7, as amended.  For a response whose status is not in 200-299,
    [sendInvite] builds a failure whose data has no key besides the five
    whitelisted ones and [backendResponse].  [message], [status], [code]
    and [detail] are present exactly when the backend document has them
    as strings, with the backend's value.  [error] is always present: the
    backend's [error] when that is a non-empty string, a generic message
    naming the HTTP status otherwise.  [backendResponse] is present
    exactly when the response text is not empty, whether or not the
    document has an [error] field, and holds the first 280 characters of
    the text. *)
Theorem failure_outcome_fields {H : Host} (status : Z) (text : string) :
  statusOk status = false ->
  exists d,
    classifyOutcome (Responded status text) = {| ok := false; data := DataObject d |}
    /\ (forall k, In k (keys d) -> In k (safeKeys ++ ["backendResponse"]))
    /\ NoDup (keys d)
    /\ hasKey "message" d = isString (optProp (backendJson text) "message")
    /\ lookup "message" d
       = included (isString (optProp (backendJson text) "message"))
           (optProp (backendJson text) "message")
    /\ hasKey "status" d = isString (optProp (backendJson text) "status")
    /\ lookup "status" d
       = included (isString (optProp (backendJson text) "status"))
           (optProp (backendJson text) "status")
    /\ hasKey "code" d = isString (optProp (backendJson text) "code")
    /\ lookup "code" d
       = included (isString (optProp (backendJson text) "code"))
           (optProp (backendJson text) "code")
    /\ hasKey "detail" d = isString (optProp (backendJson text) "detail")
    /\ lookup "detail" d
       = included (isString (optProp (backendJson text) "detail"))
           (optProp (backendJson text) "detail")
    /\ hasKey "error" d = true
    /\ lookup "error" d
       = (if isString (optProp (backendJson text) "error")
             && truthy (optProp (backendJson text) "error")
          then optProp (backendJson text) "error"
          else JStr (genericFailure status))
    /\ hasKey "backendResponse" d = nonEmpty text
    /\ lookup "backendResponse" d
       = included (nonEmpty text) (JStr (slice0 280 text)).
Proof.
  intro Hs.
  unfold classifyOutcome. fold (backendJson text). rewrite Hs. cbn [negb].
  fold (genericFailure status).
  generalize (backendJson text) as v. intro v.
  generalize (JStr (genericFailure status)) as msg. intro msg.
  unfold included, safeResponse, copyIfString.
  destruct text as [|c0 r0];
    [ cbn [nonEmpty String.eqb negb truthy]
    | change (slice0 280 (String c0 r0)) with (String c0 (slice0 279 r0));
      generalize (slice0 279 r0) as raw; intro raw;
      cbn [nonEmpty String.eqb negb truthy] ];
    destruct v as [| |b|x|s|items|ps];
    cbn [truthy isObjectType negb orb optProp getProp isString andb].
  all: rewrite ?orb_true_r.
  all: cbn [negb orb isString andb].
  all: try (destruct (isString (lookup "message" ps)),
                     (isString (lookup "status" ps)),
                     (isString (lookup "code" ps)),
                     (isString (lookup "error" ps)),
                     (isString (lookup "detail" ps))).
  all: cbn [setProp keys map List.length Nat.ltb Nat.leb fst andb].
  all: outcome_leaf.
Qed.

(** A failure with a structured [error] field and the raw text at once. *)
Lemma failure_outcome_fields_witness :
  statusOk 403 = false
  /\ exists d,
       @classifyOutcome exampleHost (Responded 403 errorDocument)
       = {| ok := false; data := DataObject d |}
       /\ hasKey "error" d = true
       /\ hasKey "backendResponse" d = nonEmpty errorDocument.
Proof.
  split; [reflexivity|].
  destruct (@failure_outcome_fields exampleHost 403 errorDocument eq_refl)
    as (d & Hd & _ & _ & _ & _ & _ & _ & _ & _ & _ & _ & He & _ & Hb & _).
  exists d. repeat split; assumption.
Defined.

(** C7 as stated fails: the backend document has a string [error] field,
    and the failure still carries the raw response text, in which the
    field [trace], which is not whitelisted, can be read. *)
Lemma failure_raw_text_counterexample :
  let r := @classifyOutcome exampleHost (Responded 403 errorDocument) in
  ok r = false
  /\ isString (optProp (@backendJson exampleHost errorDocument) "error") = true
  /\ data r
     = DataObject [("error", JStr "denied"); ("backendResponse", JStr errorDocument)]
  /\ includes errorDocument "trace" = true.
Proof. repeat split. Qed.

End OutcomeFacts.

(** * The submit handler of the form *)

Module SubmitFacts.

Import Frontend Spec Examples.

Section Submit.
Context {H : Host} {W : Type} {N : Network W}.

Lemma replay_length (reqs : list Request) :
  forall w : W, List.length (fst (replay w reqs)) = List.length reqs.
Proof.
  induction reqs as [|r rest IH]; intro w; cbn [replay]; [reflexivity|].
  destruct (fetch w r) as [o w']. specialize (IH w').
  destruct (replay w' rest) as [os w'']. cbn [fst List.length] in *. now rewrite IH.
Qed.

(** The loop issues the requests of the entries, in their order, each in
    the state the network reached after the earlier ones, whatever their
    outcomes, and records the failed entries in that order. *)
Lemma submitAll_sequential (es : list InviteEntry) :
  forall (failures : list (string * jsval)) (n : Net W),
    let outcomes := fst (replay (world n) (map requestOf es)) in
    calls (snd (submitAll es failures n)) = calls n ++ map requestOf es
    /\ world (snd (submitAll es failures n)) = snd (replay (world n) (map requestOf es))
    /\ map fst (fst (submitAll es failures n))
       = map fst failures ++ failedEmails es outcomes.
Proof.
  induction es as [|e rest IH]; intros failures n; cbv zeta.
  - cbn. rewrite !app_nil_r. auto.
  - cbn [submitAll map replay]. unfold sendInvite.
    fold (requestOf e).
    destruct (fetch (world n) (requestOf e)) as [o w'] eqn:Ef.
    set (n1 := {| world := w'; calls := calls n ++ [requestOf e] |}).
    set (failures' :=
           if negb (ok (classifyOutcome o))
           then failures ++
                [(email e,
                  orElse (match data (classifyOutcome o) with
                          | DataObject ps => lookup "error" ps
                          | _ => JUndefined
                          end) (JStr "Invite failed"))]
           else failures).
    destruct (IH failures' n1) as (Hc & Hw & Hf). cbv zeta in Hf.
    change (world n1) with w' in *.
    destruct (replay w' (map requestOf rest)) as [os w''] eqn:Er.
    cbn [fst snd] in *.
    split; [|split].
    + rewrite Hc. subst n1. cbn [calls]. now rewrite <- app_assoc.
    + exact Hw.
    + rewrite Hf. unfold failedEmails. cbn [combine filter fst snd].
      subst failures'.
      destruct (negb (ok (classifyOutcome o))); cbn [map fst].
      * rewrite map_app, <- app_assoc. reflexivity.
      * reflexivity.
Qed.

Lemma submitAll_failures_length (es : list InviteEntry) :
  forall (failures : list (string * jsval)) (n : Net W),
    List.length (fst (submitAll es failures n))
    <= List.length failures + List.length es.
Proof.
  induction es as [|e rest IH]; intros failures n.
  - cbn. lia.
  - cbn [submitAll]. destruct (sendInvite API_URL (entryObject e) n) as [r n1].
    etransitivity; [apply IH|].
    destruct (negb (ok r)); rewrite ?length_app; cbn [List.length]; lia.
Qed.

Lemma gatherEntries_usable (s : AppState) (parsed : ParseResult) :
  gatherEntries s = Some parsed -> entries parsed = usableEntries s.
Proof.
  unfold gatherEntries, usableEntries.
  destruct (0 <? List.length (bulkEntriesFromFile s)).
  - intro E. injection E as <-. reflexivity.
  - destruct (negb (isValidHttpUrl (trim (redirectUrl s)))); [discriminate|].
    intro E. injection E as <-. reflexivity.
Qed.

Lemma gatherEntries_some (s : AppState) :
  bulkEntriesFromFile s <> [] \/ isValidHttpUrl (trim (redirectUrl s)) = true ->
  exists parsed, gatherEntries s = Some parsed.
Proof.
  unfold gatherEntries. intros [Hf | Hr].
  - destruct (bulkEntriesFromFile s) as [|e l]; [congruence|]. cbn. eauto.
  - rewrite Hr. cbn [negb].
    destruct (0 <? List.length (bulkEntriesFromFile s)); eauto.
Qed.

Lemma limit_message :
  "Bulk invite limit is " +++ ofNat MAX_BULK_INVITES +++ " rows per submission."
  = "Bulk invite limit is 100 rows per submission.".
Proof. reflexivity. Qed.

(** C3.  A bulk submission with more than 100 usable entries, typed or
    from a file, ends in an error result and leaves the network as it
    was: no invite call is issued.  When the form is in working order
    (the API URL is accepted and, for typed rows, so is the redirect URL)
    the error is the one of the row limit. *)
Theorem bulk_over_cap_no_call (s : AppState) (n : Net W) :
  mode s = Bulk ->
  MAX_BULK_INVITES < List.length (usableEntries s) ->
  snd (inviteGuest s n) = n
  /\ (exists msg, result (fst (inviteGuest s n)) = Some (errorResult msg))
  /\ (apiConfigured = true ->
      bulkEntriesFromFile s <> [] \/ isValidHttpUrl (trim (redirectUrl s)) = true ->
      result (fst (inviteGuest s n))
      = Some (errorResult "Bulk invite limit is 100 rows per submission.")).
Proof.
  intros Hm Hlen. unfold inviteGuest.
  destruct apiConfigured eqn:Hapi; cbn [negb].
  2: { split; [reflexivity|]. split; [eexists; reflexivity | discriminate]. }
  change (mode (setResult None (setLoading true s))) with (mode s). rewrite Hm.
  unfold inviteBulk.
  change (gatherEntries (setResult None (setLoading true s))) with (gatherEntries s).
  destruct (gatherEntries s) as [parsed|] eqn:Hg.
  - rewrite (gatherEntries_usable s parsed Hg).
    assert (E0 : (List.length (usableEntries s) =? 0) = false)
      by (apply Nat.eqb_neq; lia).
    assert (E1 : (MAX_BULK_INVITES <? List.length (usableEntries s)) = true)
      by (apply Nat.ltb_lt; exact Hlen).
    rewrite E0, E1, limit_message. cbn [fst snd result setResult].
    split; [reflexivity|]. split; [eexists; reflexivity | reflexivity].
  - cbn [fst snd result setResult].
    split; [reflexivity|]. split; [eexists; reflexivity|].
    intros _ Hok. destruct (gatherEntries_some s Hok) as [p Hp]. congruence.
Qed.

(** C8.  A bulk submission with between 1 and 100 usable entries issues
    exactly one invite call per entry, in the order of the entries, each
    sent in the state the network reached after the calls before it and
    whatever their outcomes; the summary lists the addresses of the failed
    entries in the order of the entries, and counts them. *)
Theorem bulk_submission_sequential (s : AppState) (n : Net W) :
  apiConfigured = true ->
  mode s = Bulk ->
  bulkEntriesFromFile s <> [] \/ isValidHttpUrl (trim (redirectUrl s)) = true ->
  0 < List.length (usableEntries s) <= MAX_BULK_INVITES ->
  let es := usableEntries s in
  let outcomes := fst (replay (world n) (map requestOf es)) in
  calls (snd (inviteGuest s n)) = calls n ++ map requestOf es
  /\ world (snd (inviteGuest s n)) = snd (replay (world n) (map requestOf es))
  /\ List.length outcomes = List.length es
  /\ exists okAll source total invalid invited failed failures,
       result (fst (inviteGuest s n))
       = Some {| ok := okAll;
                 data := DataSummary source total (List.length es) invalid
                           invited failed failures |}
       /\ map fst failures = failedEmails es outcomes
       /\ failed = List.length failures
       /\ invited + failed = List.length es.
Proof.
  intros Hapi Hm Hok [Hpos Hcap]. cbv zeta.
  unfold inviteGuest. rewrite Hapi. cbn [negb].
  change (mode (setResult None (setLoading true s))) with (mode s). rewrite Hm.
  unfold inviteBulk.
  change (gatherEntries (setResult None (setLoading true s))) with (gatherEntries s).
  destruct (gatherEntries_some s Hok) as [parsed Hg]. rewrite Hg.
  rewrite (gatherEntries_usable s parsed Hg).
  assert (E0 : (List.length (usableEntries s) =? 0) = false)
    by (apply Nat.eqb_neq; lia).
  assert (E1 : (MAX_BULK_INVITES <? List.length (usableEntries s)) = false)
    by (apply Nat.ltb_ge; exact Hcap).
  rewrite E0, E1.
  destruct (submitAll_sequential (usableEntries s) [] n) as (Hc & Hw & Hf).
  pose proof (submitAll_failures_length (usableEntries s) [] n) as Hl.
  cbv zeta in Hf. cbn [map app List.length] in Hf, Hl.
  destruct (submitAll (usableEntries s) [] n) as [failures n'].
  cbn [fst snd] in *.
  split; [exact Hc|]. split; [exact Hw|]. split; [rewrite replay_length; apply length_map|].
  destruct ((List.length failures =? 0) && (List.length (errors parsed) =? 0));
    do 7 eexists;
    (split; [reflexivity | split; [exact Hf | split; [reflexivity | lia]]]).
Qed.

End Submit.

End SubmitFacts.

Module SubmitExamples.

Import Frontend Spec Examples SubmitFacts.

(** 101 typed rows: the limit error and no call. *)
Lemma bulk_over_cap_no_call_witness :
  mode (bulkForm (manyRows 101)) = Bulk
  /\ MAX_BULK_INVITES < List.length (usableEntries (bulkForm (manyRows 101)))
  /\ calls (snd (@inviteGuest exampleHost unit (constantNetwork Failed)
                   (bulkForm (manyRows 101)) freshNet)) = []
  /\ result (fst (@inviteGuest exampleHost unit (constantNetwork Failed)
                    (bulkForm (manyRows 101)) freshNet))
     = Some (errorResult "Bulk invite limit is 100 rows per submission.").
Proof.
  assert (Hlen : MAX_BULK_INVITES
                 < List.length (usableEntries (bulkForm (manyRows 101))))
    by (vm_compute; apply le_n).
  destruct (@bulk_over_cap_no_call exampleHost unit (constantNetwork Failed)
              (bulkForm (manyRows 101)) freshNet eq_refl Hlen) as (Hn & _ & Hr).
  split; [reflexivity|]. split; [exact Hlen|]. split.
  - rewrite Hn. reflexivity.
  - apply Hr; [reflexivity | right; reflexivity].
Defined.

(** Two typed rows and a backend that fails every call: two calls, two
    failures. *)
Lemma bulk_submission_sequential_witness :
  (@apiConfigured exampleHost = true
   /\ mode (bulkForm (manyRows 2)) = Bulk
   /\ 0 < List.length (usableEntries (bulkForm (manyRows 2))) <= MAX_BULK_INVITES)
  /\ List.length
       (calls (snd (@inviteGuest exampleHost unit (constantNetwork (Responded 500 ""))
                      (bulkForm (manyRows 2)) freshNet))) = 2.
Proof.
  assert (Hlen : 0 < List.length (usableEntries (bulkForm (manyRows 2)))
                 <= MAX_BULK_INVITES)
    by (vm_compute; split; repeat constructor).
  destruct (@bulk_submission_sequential exampleHost unit
              (constantNetwork (Responded 500 "")) (bulkForm (manyRows 2)) freshNet
              eq_refl eq_refl (or_intror eq_refl) Hlen) as (Hc & _).
  split; [split; [reflexivity | split; [reflexivity | exact Hlen]]|].
  rewrite Hc. reflexivity.
Defined.

End SubmitExamples.

(** * The templated normalizer *)

Module TemplateFacts.

Import Frontend Spec Examples.

Section Template.
Context {H : Host}.

(** A row whose email column is blank is skipped: the arrays are left as
    they were. *)
Lemma templateRow_blank_skipped (emailIdx redirectIdx : nat)
    (sendEmailIdx messageIdx : option nat) (reset : bool) (acc : ParseResult)
    (line : string) (i : nat) :
  cell (parseCsvLine line) emailIdx = "" ->
  templateRow emailIdx redirectIdx sendEmailIdx messageIdx reset acc line i = acc.
Proof.
  intro Hc. unfold templateRow. rewrite Hc. reflexivity.
Qed.

(** What the row loop does with a row is decided by its email column
    once the prefix [Example:] has been taken off: the row is skipped
    only when nothing is left, or when what is left starts with
    [Example:] again. *)
Lemma templateRow_skip_iff (emailIdx redirectIdx : nat)
    (sendEmailIdx messageIdx : option nat) (reset : bool) (acc : ParseResult)
    (line : string) (i : nat) :
  let rest := stripExamplePrefix (cell (parseCsvLine line) emailIdx) in
  negb (nonEmpty rest) || startsWith rest "Example:" = false ->
  templateRow emailIdx redirectIdx sendEmailIdx messageIdx reset acc line i <> acc.
Proof.
  cbv zeta. intro Hc. unfold templateRow. rewrite Hc.
  destruct (negb (Regex.test EMAIL_REGEX _)).
  - destruct acc as [es errs]. unfold pushError. cbn [entries errors].
    intro E. injection E as E. apply (f_equal (@List.length string)) in E.
    rewrite length_app in E. cbn in E. lia.
  - destruct (negb (isValidHttpUrl _)).
    + destruct acc as [es errs]. unfold pushError. cbn [entries errors].
      intro E. injection E as E. apply (f_equal (@List.length string)) in E.
      rewrite length_app in E. cbn in E. lia.
    + destruct acc as [es errs]. unfold pushEntry. cbn [entries errors].
      intro E. injection E as E. apply (f_equal (@List.length InviteEntry)) in E.
      rewrite length_app in E. cbn in E. lia.
Qed.

(** C1 at the input of the specification.  The data row of
    [templateFile] has the email column [Example: foo@bar.com].  The
    parser does not skip it: it takes the prefix off and reads the row as
    an invitation of [foo@bar.com], which gives one entry, or one error
    when the redirect URL of the row is rejected. *)
Theorem template_example_row_not_skipped :
  parseEntraTemplateCsv templateFile false
  = if isValidHttpUrl "https://myapplications.microsoft.com"
    then {| entries :=
              [ {| email := "foo@bar.com";
                   firstName := "";
                   lastName := "";
                   displayName := "";
                   inviteRedirectUrl := "https://myapplications.microsoft.com";
                   sendEmail := true;
                   customizedMessageBody := "";
                   resetRedemption := false |} ];
            errors := [] |}
    else {| entries := []; errors := ["Line 3: invalid inviteRedirectURL"] |}.
Proof.
  unfold parseEntraTemplateCsv.
  cbv -[isValidHttpUrl].
  destruct (isValidHttpUrl _); reflexivity.
Qed.

End Template.

(** With a host that accepts the redirect URL the example row becomes an
    invitation. *)
Lemma template_example_row_invited :
  map email (entries (@parseEntraTemplateCsv exampleHost templateFile false))
  = ["foo@bar.com"]
  /\ errors (@parseEntraTemplateCsv exampleHost templateFile false) = [].
Proof. split; reflexivity. Qed.

End TemplateFacts.

(** * The authorization decision *)

Module AuthFacts.

Import Backend Spec Examples.

Section Auth.
Context {H : Host} {W : Type} {D : Directory W}.

Lemma bind_ret {A B : Type} (a : A) (k : A -> M W B) (s : Sys W) :
  bind (ret a) k s = k a s.
Proof. reflexivity. Qed.

Lemma bind_throw {A B : Type} (e : Exn) (k : A -> M W B) (s : Sys W) :
  bind (throw e) k s = (inl e, s).
Proof. reflexivity. Qed.

(** A token without a text ends the request before anything is sent. *)
Lemma graphRequest_no_text (method url : string) (token : jsval) (body : option jsval)
    (s : Sys W) :
  ToString token = None ->
  graphRequest method url token body s = (inl conversionError, s).
Proof. intro Htoken. unfold graphRequest, toText, converted. now rewrite Htoken. Qed.

(** With a token that has a text the call is made and logged, whatever
    comes of it. *)
Lemma graphRequest_events (method url : string) (token : jsval) (body : option jsval)
    (s : Sys W) (text : string) :
  ToString token = Some text ->
  events (snd (graphRequest method url token body s))
  = events s ++ [EvGraph {| c_method := method; c_url := url;
                            c_token := token; c_body := body |}].
Proof.
  intro Htoken. unfold graphRequest, toText, converted. rewrite Htoken.
  rewrite bind_ret.
  destruct (graphFetch (world s) _) as [[e|res] w']; [reflexivity|].
  destruct (negb (Frontend.statusOk (g_status res))); reflexivity.
Qed.

(** A request that returns has been sent. *)
Lemma graphRequest_returns (method url : string) (token : jsval) (body : option jsval)
    (s s' : Sys W) (v : jsval) :
  graphRequest method url token body s = (inr v, s') ->
  events s' = events s ++ [EvGraph {| c_method := method; c_url := url;
                                      c_token := token; c_body := body |}].
Proof.
  intro Hrun. destruct (ToString token) as [text|] eqn:Htoken.
  - pose proof (graphRequest_events method url token body s text Htoken) as Hev.
    now rewrite Hrun in Hev.
  - rewrite (graphRequest_no_text method url token body s Htoken) in Hrun.
    discriminate.
Qed.

(** No request adds a PATCH to the log unless it is one. *)
Lemma graphRequest_no_patch (method url : string) (token : jsval) (body : option jsval)
    (s : Sys W) :
  (method =? "PATCH")%string = false ->
  filter isPatch (events (snd (graphRequest method url token body s)))
  = filter isPatch (events s).
Proof.
  intro Hmethod. destruct (ToString token) as [text|] eqn:Htoken.
  - rewrite (graphRequest_events method url token body s text Htoken), filter_app.
    cbn. rewrite Hmethod. apply app_nil_r.
  - now rewrite (graphRequest_no_text method url token body s Htoken).
Qed.

(** C2, as amended.  In the managed runtime with enforcement on and no
    allowed group, [authorizeInviter] never authorizes.  Without a decoded
    principal, or without an object id in it, it denies with 401 and calls
    no one; an object id that cannot be converted to text makes the
    building of the profile URL throw its TypeError, again before any
    call; otherwise it fetches the caller's profile: an error of that
    call is thrown on, a profile that is inactive or not a Member is
    denied with 403, and every caller that passes these checks is denied
    with 500, the misconfiguration. *)
Theorem authorizeInviter_misconfigured (cfg : Config) (request : HttpRequest)
    (token : jsval) (s : Sys W) :
  IS_AZURE_RUNTIME cfg = true ->
  ENFORCE_GROUP_MEMBERSHIP_IN_AZURE cfg = true ->
  ALLOWED_INVITER_GROUP_OBJECT_IDS cfg = [] ->
  let principal := decodeClientPrincipal request in
  let oid := getCallerObjectId principal in
  let run := authorizeInviter cfg request token s in
  (forall m c, fst run <> inr (Authorized m c))
  /\ (truthy principal = false ->
      exists msg, run = (inr (Denied 401 msg), s))
  /\ (truthy principal = true -> truthy oid = false ->
      exists msg, run = (inr (Denied 401 msg), s))
  /\ (truthy principal = true -> truthy oid = true ->
      match ToString oid with
      | None => run = (inl conversionError, s)
      | Some text =>
          match graphRequest "GET" (profileUrl text) token None s with
          | (inl e, s') => run = (inl e, s')
          | (inr caller, s') =>
              if callerAccepted caller
              then run
                   = (inr (Denied 500
                             "Server misconfiguration. ALLOWED_INVITER_GROUP_OBJECT_IDS must be set in Azure."),
                      s')
              else exists msg, run = (inr (Denied 403 msg), s')
          end
      end).
Proof.
  intros Haz Henf Hall. cbv zeta.
  unfold authorizeInviter. rewrite Haz, Henf, Hall. cbn [negb andb List.length Nat.eqb].
  destruct (truthy (decodeClientPrincipal request)) eqn:Hp; cbn [negb].
  2: { unfold ret. cbn [fst]. repeat split; try discriminate; eauto. }
  destruct (truthy (getCallerObjectId (decodeClientPrincipal request))) eqn:Ho;
    cbn [negb].
  2: { unfold ret. cbn [fst]. repeat split; try discriminate; eauto. }
  unfold toText, converted.
  destruct (ToString (getCallerObjectId (decodeClientPrincipal request))) as [text|].
  2: { rewrite bind_throw. cbn [fst]. repeat split; try discriminate. }
  rewrite bind_ret. cbv beta. fold (profileUrl text). unfold bind.
  destruct (graphRequest "GET" _ token None s) as [[e|caller] s'].
  { cbn [fst]. repeat split; try discriminate. }
  unfold callerAccepted.
  destruct (truthy (optProp caller "id")); cbn [negb orb andb].
  2: { unfold ret. cbn [fst]. repeat split; try discriminate; eauto. }
  destruct (match optProp caller "accountEnabled" with
            | JBool false => true
            | _ => false
            end); cbn [negb andb].
  { unfold ret. cbn [fst]. repeat split; try discriminate; eauto. }
  destruct (strictEqStr (optProp caller "userType") "Member"); cbn [negb].
  - unfold ret. cbn [fst]. repeat split; try discriminate; eauto.
  - unfold ret. cbn [fst]. repeat split; try discriminate; eauto.
Qed.

(** [authorizeInviter] makes no PATCH call. *)
Lemma authorizeInviter_no_patch (cfg : Config) (request : HttpRequest)
    (token : jsval) (s : Sys W) :
  filter isPatch (events (snd (authorizeInviter cfg request token s)))
  = filter isPatch (events s).
Proof.
  unfold authorizeInviter.
  destruct (negb (IS_AZURE_RUNTIME cfg) && ALLOW_LOCAL_ANONYMOUS_INVITE cfg);
    [reflexivity|].
  destruct (negb (truthy (decodeClientPrincipal request))); [reflexivity|].
  destruct (negb (truthy (getCallerObjectId (decodeClientPrincipal request))));
    [reflexivity|].
  unfold toText, converted.
  destruct (ToString (getCallerObjectId (decodeClientPrincipal request))) as [text|];
    [|reflexivity].
  rewrite bind_ret. cbv beta. unfold bind at 1.
  match goal with
  | |- context [graphRequest ?m ?u ?t ?b s] =>
      pose proof (graphRequest_no_patch m u t b s eq_refl) as Hs1;
      destruct (graphRequest m u t b s) as [[e|caller] s1]
  end; cbn [snd] in Hs1.
  { exact Hs1. }
  destruct (_ || _); [exact Hs1|].
  destruct (negb (strictEqStr _ _)); [exact Hs1|].
  destruct (_ && _ && _); [exact Hs1|].
  destruct (_ && _); [|exact Hs1].
  rewrite bind_ret. cbv beta. unfold bind.
  match goal with
  | |- context [graphRequest ?m ?u ?t ?b s1] =>
      pose proof (graphRequest_no_patch m u t b s1 eq_refl) as Hs2;
      destruct (graphRequest m u t b s1) as [[e|membership] s2]
  end; cbn [snd] in Hs2; rewrite Hs1 in Hs2.
  { exact Hs2. }
  destruct (_ =? 0); exact Hs2.
Qed.

End Auth.

(** The managed runtime with enforcement on and no allowed group, and a
    signed-in Member whose profile the directory returns: the request
    passes the identity checks and is denied with 500. *)
Lemma authorizeInviter_misconfigured_witness :
  IS_AZURE_RUNTIME (loadConfig azureEnv) = true
  /\ ENFORCE_GROUP_MEMBERSHIP_IN_AZURE (loadConfig azureEnv) = true
  /\ ALLOWED_INVITER_GROUP_OBJECT_IDS (loadConfig azureEnv) = []
  /\ truthy (@decodeClientPrincipal directoryHost signedInRequest) = true
  /\ exists s',
       @authorizeInviter directoryHost unit scriptedDirectory (loadConfig azureEnv)
         signedInRequest (JStr "tok") freshSys
       = (inr (Denied 500
                 "Server misconfiguration. ALLOWED_INVITER_GROUP_OBJECT_IDS must be set in Azure."),
          s')
       /\ events s' = [EvGraph (profileCall "u1" (JStr "tok"))].
Proof.
  split; [reflexivity|]. split; [reflexivity|]. split; [reflexivity|].
  split; [reflexivity|].
  destruct (@authorizeInviter_misconfigured directoryHost unit scriptedDirectory
              (loadConfig azureEnv) signedInRequest (JStr "tok") freshSys
              eq_refl eq_refl eq_refl) as (_ & _ & _ & Hcall).
  specialize (Hcall eq_refl eq_refl). hnf in Hcall.
  eexists. split; [exact Hcall | reflexivity].
Defined.

(** C2 as stated fails: in the managed runtime with enforcement on and no
    allowed group, a request without a client principal is denied with
    401, not 500. *)
Lemma misconfigured_status_counterexample :
  IS_AZURE_RUNTIME (loadConfig azureEnv) = true
  /\ ENFORCE_GROUP_MEMBERSHIP_IN_AZURE (loadConfig azureEnv) = true
  /\ ALLOWED_INVITER_GROUP_OBJECT_IDS (loadConfig azureEnv) = []
  /\ @authorizeInviter exampleHost unit exampleDirectory (loadConfig azureEnv)
       anonymousRequest (JStr "tok") freshSys
     = (inr (Denied 401
               "Unauthorized. Enable App Service Authentication and call this API as a signed-in internal user."),
        freshSys)
  /\ (forall msg,
        fst (@authorizeInviter exampleHost unit exampleDirectory (loadConfig azureEnv)
               anonymousRequest (JStr "tok") freshSys)
        <> inr (Denied 500 msg)).
Proof.
  repeat split. intros msg. discriminate.
Qed.

End AuthFacts.

(** * The inviteGuest handler *)

Module HandlerFacts.

Import Backend Spec Examples AuthFacts.

Section Handler.
Context {H : Host} {W : Type} {D : Directory W}.

(** The handler up to the point where the display name is computed:
    a body that cannot be read, or names that cannot be converted to
    text, end the request with the error of the [catch] block, and
    nothing has been called.  After that point the handler goes on with
    the address and the display name. *)
Lemma inviteGuest_reads (cfg : Config) (request : HttpRequest) (s : Sys W)
    (email displayName : jsval) :
  getProp (bodyOf request) "email" = Some email ->
  displayNameOf (bodyOf request) email = Some displayName ->
  inviteGuest cfg request s
  = if negb (truthy email)
    then (inr {| status := num 400;
                 jsonBody_out := JObj [("error", JStr "email is required")] |}, s)
    else
      match getGraphAccessToken cfg s with
      | (inl e, s1) => (inr (errorResponse None e), s1)
      | (inr (token, runtime), s1) =>
          match inviteAuthorized cfg request email
                  (invitationOf (bodyOf request) email displayName)
                  token runtime s1 with
          | (inl e, s2) => (inr (errorResponse (Some runtime) e), s2)
          | (inr response, s2) => (inr response, s2)
          end
      end.
Proof.
  intros Hget Hname.
  unfold inviteGuest, tryCatch, bind, readProp.
  fold (bodyOf request). rewrite Hget. unfold ret at 1.
  rewrite Hname. unfold converted, ret at 1.
  destruct (negb (truthy email)); [reflexivity|].
  destruct (getGraphAccessToken cfg s) as [[e|[token runtime]] s1]; [reflexivity|].
  cbn [fst snd]. unfold invitationOf.
  destruct (inviteAuthorized cfg request email _ token runtime s1) as [[e|r] s2];
    reflexivity.
Qed.

(** A request whose body can be read, whose display name can be
    computed and which has no usable [email] is answered with 400 before
    anything else is done: the world and the log of external calls are as
    they were. *)
Lemma inviteGuest_email_required (cfg : Config) (request : HttpRequest)
    (s : Sys W) (email displayName : jsval) :
  getProp (bodyOf request) "email" = Some email ->
  displayNameOf (bodyOf request) email = Some displayName ->
  truthy email = false ->
  inviteGuest cfg request s
  = (inr {| status := num 400;
            jsonBody_out := JObj [("error", JStr "email is required")] |}, s).
Proof.
  intros Hget Hname Hfalsy.
  rewrite (inviteGuest_reads cfg request s email displayName Hget Hname).
  now rewrite Hfalsy.
Qed.

(** Names that cannot be converted to text end the request before the
    address is looked at: the answer is 500 with the message of the
    TypeError, and nothing has been called. *)
Lemma inviteGuest_unconvertible_name (cfg : Config) (request : HttpRequest)
    (s : Sys W) (email : jsval) :
  getProp (bodyOf request) "email" = Some email ->
  displayNameOf (bodyOf request) email = None ->
  inviteGuest cfg request s = (inr (errorResponse None conversionError), s).
Proof.
  intros Hget Hname.
  unfold inviteGuest, tryCatch, bind, readProp.
  fold (bodyOf request). rewrite Hget. unfold ret at 1.
  rewrite Hname. reflexivity.
Qed.

(** A body that is not JSON is read as the empty object, and every JSON
    value except [null] can be read; none of them has an [email] unless
    it is an object with that field. *)
Lemma body_without_email (request : HttpRequest) :
  bodyOf request <> JNull ->
  bodyOf request <> JUndefined ->
  exists email, getProp (bodyOf request) "email" = Some email.
Proof.
  intros Hn Hu. destruct (bodyOf request); try congruence; cbn; eauto.
Qed.

(** C9 at the body [null].  The handler reads [body.email] from the
    value [null]; the TypeError of that read is caught by the handler,
    which answers 500 with the message of the error, not 400.  No token
    is acquired and no directory call is made. *)
Theorem inviteGuest_null_body (cfg : Config) (header : option string) (s : Sys W) :
  inviteGuest cfg {| principalHeader := header; jsonBody := Some JNull |} s
  = (inr {| status := num 500;
            jsonBody_out :=
              JObj [ ("error", JStr "Cannot read properties of null (reading 'email')");
                     ("details", JNull);
                     ("requestId", JNull);
                     ("clientRequestId", JNull);
                     ("wwwAuthenticate", JNull);
                     ("runtime", JNull);
                     ("azClientIdConfigured", JBool false) ] |}, s).
Proof. reflexivity. Qed.

Lemma getGraphAccessToken_events (cfg : Config) (s : Sys W) :
  events (snd (getGraphAccessToken cfg s))
  = events s ++ [EvGetToken (getRuntimeCredential cfg)].
Proof.
  unfold getGraphAccessToken.
  destruct (getToken (world s) _) as [[e|tok] w']; reflexivity.
Qed.

(** C10.  When the request names an invitee, its display name has been
    computed, the token is acquired, the caller is authorized and the
    invitation call succeeds with a document that has no
    [invitedUser.id], the handler answers 500 with the error
    [Invite succeeded but invitedUser.id not returned] and the invitation
    document as the directory returned it, and stops there: the state is
    the one the invitation call left, so no PATCH has been made. *)
Theorem inviteGuest_without_user_id (cfg : Config) (request : HttpRequest)
    (s s1 s2 s3 : Sys W) (email displayName token : jsval) (runtime : Runtime)
    (authMode : string) (caller invitation : jsval) :
  getProp (bodyOf request) "email" = Some email ->
  displayNameOf (bodyOf request) email = Some displayName ->
  truthy email = true ->
  getGraphAccessToken cfg s = (inr (token, runtime), s1) ->
  authorizeInviter cfg request token s1 = (inr (Authorized authMode caller), s2) ->
  graphRequest "POST" (GRAPH_BASE +++ "/invitations") token
    (Some (JObj (buildInvitationBody email
                   displayName
                   (redirectUrlOf (bodyOf request))
                   (sendInvitationMessageOf (bodyOf request))
                   (customizedMessageBodyOf (bodyOf request))
                   (messageLanguageOf (bodyOf request))
                   (resetRedemptionOf (bodyOf request))))) s2
  = (inr invitation, s3) ->
  truthy (optProp (optProp invitation "invitedUser") "id") = false ->
  inviteGuest cfg request s
  = (inr {| status := num 500;
            jsonBody_out :=
              JObj [ ("error", JStr "Invite succeeded but invitedUser.id not returned");
                     ("invitation", invitation) ] |}, s3)
  /\ filter isPatch (events s3) = filter isPatch (events s).
Proof.
  intros Hget Hname Htruthy Htok Hauth Hpost Hid.
  split.
  - rewrite (inviteGuest_reads cfg request s email displayName Hget Hname).
    rewrite Htruthy. cbn [negb]. rewrite Htok.
    unfold inviteAuthorized, invitationOf, bind. rewrite Hauth, Hpost, Hid. reflexivity.
  - pose proof (getGraphAccessToken_events cfg s) as E1. rewrite Htok in E1.
    pose proof (authorizeInviter_no_patch cfg request token s1) as E2.
    rewrite Hauth in E2.
    pose proof (graphRequest_returns "POST" (GRAPH_BASE +++ "/invitations") token
                  (Some (JObj (buildInvitationBody email
                                 displayName
                                 (redirectUrlOf (bodyOf request))
                                 (sendInvitationMessageOf (bodyOf request))
                                 (customizedMessageBodyOf (bodyOf request))
                                 (messageLanguageOf (bodyOf request))
                                 (resetRedemptionOf (bodyOf request))))) s2 s3
                  invitation Hpost) as E3.
    cbn [snd] in *.
    rewrite E3, filter_app, E2, E1, filter_app. cbn. now rewrite !app_nil_r.
Qed.

End Handler.

(** The body [null] in a local run: status 500, and the log of external
    calls stays empty. *)
Lemma inviteGuest_null_body_example :
  @inviteGuest exampleHost unit exampleDirectory (loadConfig noEnv)
    nullBodyRequest freshSys
  = (inr {| status := num 500;
            jsonBody_out :=
              JObj [ ("error", JStr "Cannot read properties of null (reading 'email')");
                     ("details", JNull);
                     ("requestId", JNull);
                     ("clientRequestId", JNull);
                     ("wwwAuthenticate", JNull);
                     ("runtime", JNull);
                     ("azClientIdConfigured", JBool false) ] |}, freshSys).
Proof. reflexivity. Qed.

(** A body that is not JSON, in the same run: status 400, nothing
    called. *)
Lemma inviteGuest_unparseable_body_example :
  @inviteGuest exampleHost unit exampleDirectory (loadConfig noEnv)
    anonymousRequest freshSys
  = (inr {| status := num 400;
            jsonBody_out := JObj [("error", JStr "email is required")] |}, freshSys).
Proof. reflexivity. Qed.

(** A first name without a text, in the same run: status 500 with the
    message of the TypeError, nothing called. *)
Lemma inviteGuest_unconvertible_name_example :
  @inviteGuest exampleHost unit exampleDirectory (loadConfig noEnv)
    unnamedRequest freshSys
  = (inr {| status := num 500;
            jsonBody_out :=
              JObj [ ("error", JStr "Cannot convert object to primitive value");
                     ("details", JNull);
                     ("requestId", JNull);
                     ("clientRequestId", JNull);
                     ("wwwAuthenticate", JNull);
                     ("runtime", JNull);
                     ("azClientIdConfigured", JBool false) ] |}, freshSys).
Proof. reflexivity. Qed.

(** A local run: the invitation succeeds, the directory answers with the
    empty object, and the handler answers 500 after the token and the
    invitation call only. *)
Lemma inviteGuest_without_user_id_witness :
  fst (@inviteGuest exampleHost unit exampleDirectory (loadConfig noEnv)
         guestRequest freshSys)
  = inr {| status := num 500;
           jsonBody_out :=
             JObj [ ("error", JStr "Invite succeeded but invitedUser.id not returned");
                    ("invitation", JObj []) ] |}
  /\ List.length
       (events (snd (@inviteGuest exampleHost unit exampleDirectory (loadConfig noEnv)
                       guestRequest freshSys))) = 2.
Proof.
  destruct (@inviteGuest_without_user_id exampleHost unit exampleDirectory
              (loadConfig noEnv) guestRequest freshSys _ _ _
              (JStr "guest@external.com") (JStr "guest@external.com") (JStr "tok")
              _ _ _ (JObj [])
              eq_refl eq_refl eq_refl eq_refl eq_refl eq_refl eq_refl) as [Hrun _].
  rewrite Hrun. split; reflexivity.
Defined.

End HandlerFacts.

(** * More on the helpers of the front end *)

Module HelperFacts.

Import Frontend Spec StringFacts.

Lemma substring_length_le (n : nat) (s : string) :
  String.length (String.substring 0 n s) <= n.
Proof.
  revert s; induction n as [|n IH]; intro s; destruct s as [|c s]; cbn; try lia.
  specialize (IH s). lia.
Qed.

Lemma singleSpacedFrom_prefix (n : nat) (s : string) :
  forall b, singleSpacedFrom s b = true ->
            singleSpacedFrom (String.substring 0 n s) b = true.
Proof.
  revert s; induction n as [|n IH]; intros s b Hs; destruct s as [|c s];
    cbn in *; try reflexivity.
  destruct (isWhiteSpace c).
  - apply andb_true_iff in Hs. destruct Hs as [Hc Hr]. rewrite Hc. cbn. now apply IH.
  - now apply IH.
Qed.

Lemma collapseFrom_singleSpaced (s : string) :
  forall b, singleSpacedFrom (collapseFrom s b) b = true.
Proof.
  induction s as [|c s IH]; intro b; cbn; [reflexivity|].
  destruct (isWhiteSpace c) eqn:Ec.
  - destruct b; [apply IH|]. cbn. apply IH.
  - cbn. rewrite Ec. apply IH.
Qed.

Lemma trimStart_fixed (s : string) :
  trimStart s = s <-> match s with
                      | EmptyString => True
                      | String c _ => isWhiteSpace c = false
                      end.
Proof.
  destruct s as [|c r]; cbn; [tauto|].
  destruct (isWhiteSpace c) eqn:Ec; split; try congruence; try discriminate.
  intro E. exfalso.
  assert (Hl : String.length (trimStart r) <= String.length r).
  { clear. induction r as [|d r IH]; cbn; [lia|].
    destruct (isWhiteSpace d); cbn; lia. }
  rewrite E in Hl. cbn in Hl. lia.
Qed.

Lemma trimStart_head (s : string) :
  match trimStart s with
  | EmptyString => True
  | String c _ => isWhiteSpace c = false
  end.
Proof.
  induction s as [|c r IH]; cbn; [exact I|].
  destruct (isWhiteSpace c) eqn:Ec; [exact IH | exact Ec].
Qed.

Lemma trim_head (s : string) :
  match trim s with
  | EmptyString => True
  | String c _ => isWhiteSpace c = false
  end.
Proof.
  unfold trim. pose proof (trimStart_head s) as Hh.
  destruct (trimStart s) as [|c r]; cbn; [exact I|].
  rewrite Hh. cbn. exact Hh.
Qed.

Lemma sanitizeName_bounds (value : string) :
  String.length (sanitizeName value) <= MAX_NAME_LENGTH
  /\ singleSpaced (sanitizeName value) = true.
Proof.
  unfold sanitizeName, slice0, collapseWhiteSpace, singleSpaced.
  split; [apply substring_length_le|].
  apply singleSpacedFrom_prefix, collapseFrom_singleSpaced.
Qed.

(** [sanitizeName] gives at most 40 characters, never starts with white
    space, and has no white space but single spaces between other
    characters or at its end. *)
Theorem sanitizeName_shape (value : string) :
  String.length (sanitizeName value) <= MAX_NAME_LENGTH
  /\ trimStart (sanitizeName value) = sanitizeName value
  /\ singleSpaced (sanitizeName value) = true.
Proof.
  unfold sanitizeName, slice0, collapseWhiteSpace, singleSpaced.
  split; [apply substring_length_le|]. split.
  - apply trimStart_fixed.
    pose proof (trim_head value) as Hh.
    destruct (trim value) as [|c r]; [reflexivity|].
    cbn [collapseFrom]. rewrite Hh. unfold MAX_NAME_LENGTH. cbn. exact Hh.
  - apply singleSpacedFrom_prefix, collapseFrom_singleSpaced.
Qed.

(** Normalizing an address twice is normalizing it once. *)
Theorem normalizeEmail_idempotent (value : string) :
  normalizeEmail (normalizeEmail value) = normalizeEmail value.
Proof.
  unfold normalizeEmail at 1.
  now rewrite normalizeEmail_trimmed, normalizeEmail_lowercase.
Qed.

Lemma trimEnd_space (s : string) : trimEnd (s +++ " ") = trimEnd s.
Proof.
  induction s as [|c s IH]; cbn; [reflexivity | now rewrite IH].
Qed.

Lemma trim_space_r (s : string) : trim (s +++ " ") = trim s.
Proof.
  unfold trim. now rewrite <- !trimStart_trimEnd, trimEnd_space.
Qed.

(** The display name is the text [first last] trimmed: a missing name
    leaves no stray space. *)
Theorem getDisplayName_trim (firstName lastName : string) :
  getDisplayName firstName lastName = trim (firstName +++ " " +++ lastName)
  /\ trim (getDisplayName firstName lastName) = getDisplayName firstName lastName
  /\ getDisplayName firstName "" = trim firstName
  /\ getDisplayName "" lastName = trim lastName.
Proof.
  assert (main : forall f l, getDisplayName f l = trim (f +++ " " +++ l)).
  { intros f l. unfold getDisplayName, join.
    destruct f as [|a f], l as [|b l]; cbn [filter nonEmpty String.eqb negb String.concat].
    - reflexivity.
    - reflexivity.
    - rewrite append_nil_r.
      change (String a f +++ " " +++ "") with (String a f +++ " ").
      now rewrite trim_space_r.
    - reflexivity. }
  split; [apply main|]. split; [rewrite main; apply trim_idem|]. split.
  - rewrite main. change (firstName +++ " " +++ "") with (firstName +++ " ").
    apply trim_space_r.
  - rewrite main. reflexivity.
Qed.

End HelperFacts.

Module SafeResponseFacts.

Import Frontend Spec PayloadFacts.

Ltac safe_object ps :=
  unfold safeResponse, copyIfString;
  cbn [truthy isObjectType negb orb optProp getProp];
  destruct (isString (lookup "message" ps)) eqn:Em,
           (isString (lookup "status" ps)) eqn:Es,
           (isString (lookup "code" ps)) eqn:Ec,
           (isString (lookup "error" ps)) eqn:Ee,
           (isString (lookup "detail" ps)) eqn:Ed;
  cbn [setProp keys map List.length Nat.ltb Nat.leb fst String.eqb Ascii.eqb Bool.eqb
       truthy isObjectType negb orb optProp getProp lookup].

Lemma safeResponse_non_object (v : jsval) :
  match v with JObj _ => False | _ => True end -> safeResponse v = JNull.
Proof.
  destruct v; intro Hv; try contradiction; unfold safeResponse;
    cbn [truthy isObjectType negb orb]; rewrite ?orb_true_r; reflexivity.
Qed.

(** What [safeResponse] returns is [null] or a non-empty object whose
    keys are among the five whitelisted ones, each once, and whose members
    are all strings. *)
Lemma safeResponse_shape (v : jsval) :
  safeResponse v = JNull
  \/ exists ps,
       safeResponse v = JObj ps
       /\ ps <> []
       /\ (forall k, In k (keys ps) -> In k safeKeys)
       /\ NoDup (keys ps)
       /\ allStrings ps = true.
Proof.
  destruct v as [| |b|x|s|items|ps];
    try (left; apply safeResponse_non_object; exact I).
  safe_object ps;
    first [ left; reflexivity
          | right; eexists; split; [reflexivity|];
            split; [discriminate|];
            split; [apply keys_within; vm_compute; reflexivity|];
            split; [apply NoDup_by_nodup; vm_compute; reflexivity|];
            unfold allStrings; cbn [forallb snd];
            rewrite ?Em, ?Es, ?Ec, ?Ee, ?Ed; reflexivity ].
Qed.

(** Filtering a filtered document changes nothing. *)
Lemma safeResponse_idem (v : jsval) :
  safeResponse (safeResponse v) = safeResponse v.
Proof.
  destruct v as [| |b|x|s|items|ps];
    try (match goal with
         | |- safeResponse (safeResponse ?u) = _ =>
             rewrite (safeResponse_non_object u I); reflexivity
         end).
  generalize (eq_refl (safeResponse (JObj ps))).
  generalize (safeResponse (JObj ps)) at 1 3 4. intros r Hr.
  revert Hr. safe_object ps; intros ->;
    unfold safeResponse, copyIfString;
    cbn [truthy isObjectType negb orb optProp getProp lookup String.eqb Ascii.eqb
         Bool.eqb];
    rewrite ?Em, ?Es, ?Ec, ?Ee, ?Ed;
    cbn [setProp keys map List.length Nat.ltb Nat.leb fst String.eqb Ascii.eqb
         Bool.eqb];
    reflexivity.
Qed.

(** [safeResponse] keeps only whitelisted string members and is
    idempotent. *)
Theorem safeResponse_filter (v : jsval) :
  safeResponse (safeResponse v) = safeResponse v
  /\ (safeResponse v = JNull
      \/ exists ps,
           safeResponse v = JObj ps
           /\ ps <> []
           /\ (forall k, In k (keys ps) -> In k safeKeys)
           /\ NoDup (keys ps)
           /\ allStrings ps = true)
  /\ (forall k, In k safeKeys ->
                optProp (safeResponse v) k
                = included (isString (optProp v k)) (optProp v k)).
Proof.
  split; [apply safeResponse_idem|]. split; [apply safeResponse_shape|].
  intros k Hk.
  destruct v as [| |b|x|s|items|ps];
    try (match goal with
         | |- optProp (safeResponse ?u) _ = _ =>
             rewrite (safeResponse_non_object u I); reflexivity
         end).
  cbn [optProp getProp].
  cbn in Hk.
  destruct Hk as [<- | [<- | [<- | [<- | [<- | []]]]]];
    safe_object ps; unfold included; rewrite ?Em, ?Es, ?Ec, ?Ee, ?Ed; reflexivity.
Qed.

End SafeResponseFacts.


(** * More on the outcomes of an invite call *)

Module OutcomeMore.

Import Frontend Spec PayloadFacts SafeResponseFacts.

Lemma lookup_spread_other (k : string) (b : props_t) :
  forall a, hasKey k b = false -> lookup k (spread a b) = lookup k a.
Proof.
  unfold spread.
  induction b as [|[k0 v0] b IH]; intros a Hk; cbn [fold_left fst snd]; [reflexivity|].
  cbn [hasKey] in Hk. apply orb_false_iff in Hk. destruct Hk as [Hk0 Hb].
  rewrite (IH _ Hb), lookup_setProp, Hk0. reflexivity.
Qed.

Lemma hasKey_In (k : string) (ps : props_t) :
  hasKey k ps = true <-> In k (keys ps).
Proof.
  induction ps as [|[k0 v0] ps IH]; cbn; [split; [discriminate | tauto]|].
  rewrite orb_true_iff, IH, String.eqb_eq. split; intros [E|E]; auto.
Qed.

Lemma lookup_without_key (k : string) (ps : props_t) :
  hasKey k ps = false -> lookup k ps = JUndefined.
Proof.
  induction ps as [|[k0 v0] ps IH]; cbn; [reflexivity|].
  intro Hk. apply orb_false_iff in Hk. destruct Hk as [Hk0 Hps].
  rewrite Hk0. now apply IH.
Qed.

Lemma lookup_allStrings (k : string) (ps : props_t) :
  allStrings ps = true -> truthy (lookup k ps) = true ->
  exists m, lookup k ps = JStr m /\ m <> "".
Proof.
  unfold allStrings.
  induction ps as [|[k0 v0] ps IH]; cbn; [discriminate|].
  intros Hall Ht. apply andb_true_iff in Hall. destruct Hall as [Hv Hps].
  destruct (k =? k0)%string; [|now apply IH].
  destruct v0; try discriminate. exists s. split; [reflexivity|].
  cbn in Ht. unfold nonEmpty in Ht. apply negb_true_iff, String.eqb_neq in Ht. exact Ht.
Qed.

(** The members of a filtered document, as a property list. *)
Lemma safe_props (v : jsval) :
  allStrings (objectProps (safeResponse v)) = true
  /\ (forall k, In k (keys (objectProps (safeResponse v))) -> In k safeKeys)
  /\ (truthy (safeResponse v) = true -> safeResponse v = JObj (objectProps (safeResponse v)))
  /\ (truthy (safeResponse v) = false -> safeResponse v = JNull).
Proof.
  destruct (safeResponse_shape v) as [E | (ps & E & _ & Hk & _ & Hs)]; rewrite E; cbn.
  - repeat split; try tauto; discriminate.
  - repeat split; auto; discriminate.
Qed.

Lemma safe_props_no_key (v : jsval) (k : string) :
  ~ In k safeKeys -> hasKey k (objectProps (safeResponse v)) = false.
Proof.
  intro Hk. destruct (hasKey k (objectProps (safeResponse v))) eqn:E; [|reflexivity].
  apply hasKey_In in E. apply (proj1 (proj2 (safe_props v))) in E. contradiction.
Qed.

Section Outcome.
Context {H : Host}.

(** The data of a failed response, member by member. *)
Lemma failed_response_lookup (status : Z) (text : string) (k : string) :
  statusOk status = false ->
  exists d e,
    classifyOutcome (Responded status text) = {| ok := false; data := DataObject d |}
    /\ (e = JStr (genericFailure status)
        \/ (truthy e = true /\ e = lookup "error" (objectProps (safeResponse (backendJson text)))))
    /\ lookup "error" d = e
    /\ (~ In k safeKeys -> k <> "backendResponse" -> lookup k d = JUndefined).
Proof.
  intro Hs. unfold classifyOutcome. fold (backendJson text). rewrite Hs. cbn [negb].
  fold (genericFailure status).
  set (safe := safeResponse (backendJson text)).
  set (e := orElse (if truthy safe then optProp safe "error" else safe)
              (JStr (genericFailure status))).
  eexists. exists e. split; [reflexivity|].
  assert (He : e = JStr (genericFailure status)
               \/ (truthy e = true /\ e = lookup "error" (objectProps safe))).
  { subst e. unfold orElse.
    destruct (safe_props (backendJson text)) as (_ & _ & Hobj & Hnull). fold safe in Hobj, Hnull.
    destruct (truthy safe) eqn:Ht.
    - rewrite (Hobj eq_refl). cbn [optProp getProp objectProps].
      destruct (truthy (lookup "error" (objectProps safe))) eqn:Hte; auto.
    - rewrite (Hnull eq_refl). cbn. auto. }
  split; [exact He|].
  assert (Hextra : forall k', k' <> "backendResponse" ->
            hasKey k' (if truthy (if nonEmpty text then JStr (slice0 280 text) else JNull)
                       then [("backendResponse",
                              if nonEmpty text then JStr (slice0 280 text) else JNull)]
                       else []) = false).
  { intros k' Hk'. apply String.eqb_neq in Hk'.
    destruct (nonEmpty text); cbn [truthy]; [|reflexivity].
    destruct (nonEmpty (slice0 280 text)); cbn [hasKey]; [|reflexivity].
    now rewrite Hk'. }
  split.
  - rewrite lookup_spread_other by (apply Hextra; discriminate).
    rewrite lookup_setProp. reflexivity.
  - intros Hk Hb.
    rewrite lookup_spread_other by (apply Hextra; exact Hb).
    rewrite lookup_setProp.
    assert (Hke : (k =? "error")%string = false).
    { apply String.eqb_neq. intros ->. apply Hk. cbn. tauto. }
    rewrite Hke, lookup_spread_other by (apply safe_props_no_key; exact Hk).
    reflexivity.
Qed.

Lemma success_keys (status : Z) (text : string) :
  statusOk status = true ->
  exists ps,
    classifyOutcome (Responded status text) = {| ok := true; data := DataObject ps |}
    /\ (forall k, In k (keys ps) -> In k safeKeys).
Proof.
  intro Hs. unfold classifyOutcome. fold (backendJson text). rewrite Hs. cbn [negb].
  eexists. split; [reflexivity|]. unfold orElse.
  destruct (safeResponse_shape (backendJson text)) as [E | (ps & E & _ & Hk & _)];
    rewrite E; cbn [truthy objectProps]; [|exact Hk].
  intros k [<- | []]. cbn. tauto.
Qed.

(** A call succeeds exactly when the backend answers with a status in
    200-299, and then the data shown is the filtered backend document:
    the object [safeResponse] makes of the parsed response text, or the
    one member [message: Invite sent.] when [safeResponse] leaves
    nothing of it.  Either way it is a non-empty object of whitelisted
    string members. *)
Theorem success_outcome_data (o : FetchOutcome) :
  ok (classifyOutcome o)
  = match o with Responded status _ => statusOk status | _ => false end
  /\ (ok (classifyOutcome o) = true ->
      exists status text ps,
        o = Responded status text
        /\ data (classifyOutcome o) = DataObject ps
        /\ (safeResponse (backendJson text) = JObj ps
            \/ (safeResponse (backendJson text) = JNull
                /\ ps = [("message", JStr "Invite sent.")]))
        /\ ps <> []
        /\ allStrings ps = true
        /\ (forall k, In k (keys ps) -> In k safeKeys)).
Proof.
  destruct o as [status text| |]; cbn [classifyOutcome errorResult ok];
    try (split; [reflexivity | discriminate]).
  fold (backendJson text).
  destruct (statusOk status) eqn:Hs; cbn [negb ok data].
  2: { split; [reflexivity | discriminate]. }
  split; [reflexivity|]. intros _.
  exists status, text. unfold orElse.
  destruct (safeResponse_shape (backendJson text)) as [E | (ps & E & Hne & Hk & _ & Hall)];
    rewrite E; cbn [truthy objectProps].
  - eexists. split; [reflexivity|]. split; [reflexivity|].
    split; [right; split; reflexivity|].
    split; [discriminate|]. split; [reflexivity|].
    intros k [<- | []]. cbn. tauto.
  - exists ps. split; [reflexivity|]. split; [reflexivity|].
    split; [left; reflexivity|]. auto.
Qed.

(** Every failed call carries an error text that is not empty. *)
Theorem failure_error_text (o : FetchOutcome) :
  ok (classifyOutcome o) = false ->
  exists ps msg,
    data (classifyOutcome o) = DataObject ps
    /\ lookup "error" ps = JStr msg
    /\ msg <> "".
Proof.
  destruct o as [status text| |]; intro Hok.
  - assert (Hs : statusOk status = false).
    { revert Hok. unfold classifyOutcome. destruct (statusOk status); cbn; congruence. }
    destruct (failed_response_lookup status text "error" Hs)
      as (d & e & Hc & He & Hl & _).
    rewrite Hc. cbn [data]. exists d.
    destruct He as [-> | [Ht ->]].
    + eexists. split; [reflexivity|]. split; [exact Hl | discriminate].
    + destruct (lookup_allStrings "error" _
                  (proj1 (safe_props (backendJson text))) Ht) as (m & Hm & Hne).
      exists m. split; [reflexivity|]. split; [congruence | exact Hne].
  - cbn. eexists. eexists. split; [reflexivity|]. split; [reflexivity | discriminate].
  - cbn. eexists. eexists. split; [reflexivity|]. split; [reflexivity | discriminate].
Qed.

Lemma no_redeem_link_outcome (o : FetchOutcome) :
  getRedeemUrl (Some (classifyOutcome o)) = None.
Proof.
  destruct o as [status text| |]; [|reflexivity|reflexivity].
  destruct (statusOk status) eqn:Hs.
  - destruct (success_keys status text Hs) as (ps & E & Hk).
    unfold getRedeemUrl. rewrite E. cbn [data].
    rewrite lookup_without_key; [reflexivity|].
    destruct (hasKey "inviteRedeemUrl" ps) eqn:Eh; [|reflexivity].
    apply hasKey_In, Hk in Eh. cbn in Eh.
    repeat (destruct Eh as [Eh|Eh]; [discriminate|]). contradiction.
  - destruct (failed_response_lookup status text "inviteRedeemUrl" Hs)
      as (d & e & Hc & _ & _ & Hl).
    unfold getRedeemUrl. rewrite Hc. cbn [data]. rewrite Hl; [reflexivity| |discriminate].
    cbn. intros Hin. repeat (destruct Hin as [Hin|Hin]; [discriminate|]). contradiction.
Qed.

End Outcome.

End OutcomeMore.

(** * Reading back what a CSV writer wrote *)

Module CsvRoundTrip.

Import Frontend Spec StringFacts.

Lemma parseCsvLoop_comma (rest : string) (out : list string) (current : string) :
  parseCsvLoop (String comma rest) out current false
  = parseCsvLoop rest (out ++ [trim current]) "" false.
Proof. reflexivity. Qed.

(** Plain characters are added to the field being read. *)
Lemma parseCsvLoop_plain (t : string) :
  forall rest out current,
    freeOf comma t = true -> freeOf dquote t = true ->
    parseCsvLoop (t +++ rest) out current false
    = parseCsvLoop rest out (current +++ t) false.
Proof.
  induction t as [|c t IH]; intros rest out current Hc Hq.
  - cbn. now rewrite append_nil_r.
  - unfold freeOf in Hc, Hq. cbn [allChars] in Hc, Hq.
    fold (freeOf comma t) in Hc. fold (freeOf dquote t) in Hq.
    apply andb_true_iff in Hc, Hq.
    destruct Hc as [Hc Hct], Hq as [Hq Hqt].
    apply negb_true_iff in Hc, Hq.
    cbn [String.append parseCsvLoop]. rewrite Hq, Hc. cbn [andb].
    rewrite IH by assumption. now rewrite append_char_assoc.
Qed.

(** Inside quotes every character of a quoted text is read back, a
    doubled quote as one quote, up to the closing quote. *)
Lemma parseCsvLoop_quoted (t : string) :
  forall rest out current,
    String.prefix (String dquote "") rest = false ->
    parseCsvLoop (doubleQuotes t +++ String dquote rest) out current true
    = parseCsvLoop rest out (current +++ t) false.
Proof.
  induction t as [|c t IH]; intros rest out current Hrest.
  - cbn [doubleQuotes String.append]. rewrite append_nil_r.
    destruct rest as [|c2 r]; [reflexivity|].
    destruct (Ascii.eqb c2 dquote) eqn:E.
    + apply Ascii.eqb_eq in E. subst c2. destruct r; vm_compute in Hrest; discriminate.
    + change (parseCsvLoop (String dquote (String c2 r)) out current true)
        with (if true && Ascii.eqb c2 dquote
              then parseCsvLoop r out (current +++ String dquote "") true
              else parseCsvLoop (String c2 r) out current (negb true)).
      rewrite E. reflexivity.
  - cbn [doubleQuotes].
    destruct (Ascii.eqb c dquote) eqn:Ec.
    + apply Ascii.eqb_eq in Ec. subst c.
      cbn [String.append].
      change (parseCsvLoop
                (String dquote (String dquote (doubleQuotes t +++ String dquote rest)))
                out current true)
        with (parseCsvLoop (doubleQuotes t +++ String dquote rest) out
                (current +++ String dquote "") true).
      rewrite IH by assumption. now rewrite append_char_assoc.
    + cbn [String.append parseCsvLoop]. rewrite Ec. cbn [andb negb].
      rewrite Bool.andb_false_r.
      rewrite IH by assumption. now rewrite append_char_assoc.
Qed.

Lemma parseCsvLoop_open (t rest : string) (out : list string) :
  parseCsvLoop (csvQuote t +++ rest) out "" false
  = parseCsvLoop (doubleQuotes t +++ String dquote rest) out "" true.
Proof.
  unfold csvQuote. cbn [String.append]. rewrite append_assoc. cbn [String.append].
  destruct (doubleQuotes t +++ String dquote rest) eqn:E.
  - destruct (doubleQuotes t); discriminate.
  - reflexivity.
Qed.

Lemma join_cons (sep x y : string) (l : list string) :
  join sep (x :: y :: l) = x +++ sep +++ join sep (y :: l).
Proof. reflexivity. Qed.

Lemma parseCsvLoop_join_quoted (fs : list string) :
  forall f out,
    parseCsvLoop (join "," (map csvQuote (f :: fs))) out "" false
    = out ++ map trim (f :: fs).
Proof.
  induction fs as [|g fs IH]; intros f out.
  - cbn [map join String.concat].
    rewrite <- (append_nil_r (csvQuote f)), parseCsvLoop_open.
    rewrite parseCsvLoop_quoted by reflexivity. reflexivity.
  - cbn [map]. rewrite join_cons, parseCsvLoop_open.
    rewrite parseCsvLoop_quoted by reflexivity.
    change ("," +++ join "," (csvQuote g :: map csvQuote fs))
      with (String comma (join "," (map csvQuote (g :: fs)))).
    rewrite parseCsvLoop_comma, IH, <- app_assoc. reflexivity.
Qed.

Lemma parseCsvLoop_join_plain (fs : list string) :
  forall f out,
    Forall (fun x => freeOf comma x = true /\ freeOf dquote x = true) (f :: fs) ->
    parseCsvLoop (join "," (f :: fs)) out "" false
    = out ++ map trim (f :: fs).
Proof.
  induction fs as [|g fs IH]; intros f out Hall.
  - inversion Hall as [|? ? [Hc Hq] _]; subst.
    cbn [join String.concat].
    rewrite <- (append_nil_r f) at 1. rewrite parseCsvLoop_plain by assumption.
    reflexivity.
  - inversion Hall as [|? ? [Hc Hq] Hrest]; subst.
    rewrite join_cons, parseCsvLoop_plain by assumption.
    change ("," +++ join "," (g :: fs)) with (String comma (join "," (g :: fs))).
    rewrite parseCsvLoop_comma, IH, <- app_assoc by assumption. reflexivity.
Qed.

(** Quoted the way a CSV writer quotes them, any fields at all are read
    back, each trimmed: commas and quotes inside a field do not split or
    damage it. *)
Theorem parseCsvLine_reads_quoted (f : string) (fs : list string) :
  parseCsvLine (join "," (map csvQuote (f :: fs))) = map trim (f :: fs).
Proof.
  unfold parseCsvLine. now rewrite parseCsvLoop_join_quoted.
Qed.

(** Fields without comma and quote, joined by commas, are read back, each
    trimmed; trimmed fields are read back as they are. *)
Theorem parseCsvLine_reads_plain (f : string) (fs : list string) :
  Forall (fun x => freeOf comma x = true /\ freeOf dquote x = true) (f :: fs) ->
  parseCsvLine (join "," (f :: fs)) = map trim (f :: fs)
  /\ (Forall (fun x => trim x = x) (f :: fs) ->
      parseCsvLine (join "," (f :: fs)) = f :: fs).
Proof.
  intro Hall. unfold parseCsvLine.
  rewrite parseCsvLoop_join_plain by assumption. split; [reflexivity|].
  intro Ht. cbn [app]. clear Hall.
  induction Ht as [|x l Hx _ IHl]; cbn [map]; [reflexivity|]. now rewrite Hx, IHl.
Qed.

End CsvRoundTrip.

(** * More on the two normalizers *)

Module NormalizerFacts.

Import Frontend Spec StringFacts HelperFacts EmailFacts.

(** A property of the state that every step of a loop keeps holds when
    the loop ends. *)
Lemma forEachFrom_invariant {A St : Type} (f : St -> A -> nat -> St)
    (I : nat -> St -> Prop) (l : list A) :
  (forall s x i, I i s -> I (S i) (f s x i)) ->
  forall k s, I k s -> I (k + List.length l) (forEachFrom f l k s).
Proof.
  intro Hstep. induction l as [|x l IH]; intros k s Hk; cbn [forEachFrom List.length].
  - now rewrite Nat.add_0_r.
  - rewrite <- Nat.add_succ_comm. apply IH, Hstep, Hk.
Qed.

Lemma Forall_snoc {A : Type} (P : A -> Prop) (l : list A) (x : A) :
  Forall P l -> P x -> Forall P (l ++ [x]).
Proof. intros Hl Hx. apply Forall_app. split; [exact Hl | now constructor]. Qed.

(** What every entry of [parseManualBulk] satisfies. *)
Lemma manual_entries_inv (rawText : string) (defaults : Defaults) :
  Forall (fun e =>
            Regex.test EMAIL_REGEX (email e) = true
            /\ inviteRedirectUrl e = d_redirectUrl defaults
            /\ sendEmail e = d_sendEmail defaults
            /\ customizedMessageBody e = d_customizedMessageBody defaults
            /\ resetRedemption e = d_resetRedemption defaults
            /\ String.length (firstName e) <= MAX_NAME_LENGTH
            /\ String.length (lastName e) <= MAX_NAME_LENGTH
            /\ singleSpaced (firstName e) = true
            /\ singleSpaced (lastName e) = true
            /\ displayName e = getDisplayName (firstName e) (lastName e))
         (entries (parseManualBulk rawText defaults)).
Proof.
  unfold parseManualBulk.
  set (P := fun e : InviteEntry => _).
  pose proof (forEachFrom_invariant (manualLine defaults)
                (fun _ acc => Forall P (entries acc)) (nonBlankLines rawText)) as Hinv.
  apply (Hinv) with (k := 0); [|constructor].
  intros acc line i Hacc. unfold manualLine.
  destruct (Regex.test EMAIL_REGEX _) eqn:Ht; cbn [negb]; [|exact Hacc].
  cbn [pushEntry entries]. apply Forall_snoc; [exact Hacc|].
  subst P. cbn.
  pose proof (sanitizeName_bounds (nth 1 (parseCsvLine line) "")) as (L1 & S1).
  pose proof (sanitizeName_bounds (nth 2 (parseCsvLine line) "")) as (L2 & S2).
  repeat split; assumption.
Qed.

(** Every entry of [parseManualBulk] carries the defaults of the
    submission, names of at most 40 characters with single spaces only,
    and the display name made of its two names. *)
Theorem parseManualBulk_entries_defaults (rawText : string) (defaults : Defaults) :
  Forall (fun e =>
            inviteRedirectUrl e = d_redirectUrl defaults
            /\ sendEmail e = d_sendEmail defaults
            /\ customizedMessageBody e = d_customizedMessageBody defaults
            /\ resetRedemption e = d_resetRedemption defaults
            /\ String.length (firstName e) <= MAX_NAME_LENGTH
            /\ String.length (lastName e) <= MAX_NAME_LENGTH
            /\ singleSpaced (firstName e) = true
            /\ singleSpaced (lastName e) = true
            /\ displayName e = getDisplayName (firstName e) (lastName e))
         (entries (parseManualBulk rawText defaults)).
Proof.
  eapply Forall_impl; [|apply manual_entries_inv].
  intros e (_ & Hrest). exact Hrest.
Qed.

Section Template.
Context {H : Host}.

(** The conversion inside [parseBoolean] cannot throw at the one place it
    is called from: its argument is a cell, [undefined] or [true]. *)
Lemma parseBoolean_cell (row : list string) (sendEmailIdx : option nat) :
  exists flag,
    parseBoolean
      (match sendEmailIdx with
       | Some idx => cellValue row idx
       | None => JBool true
       end) true = Some flag
    /\ sendEmailOf row sendEmailIdx = flag.
Proof.
  unfold sendEmailOf, parseBoolean, cellValue, orElse.
  destruct sendEmailIdx as [idx|]; [destruct (nth_error row idx) as [c|]|];
    cbn [truthy ToString]; [destruct (nonEmpty c)| |]; cbn [ToString];
    eexists; split; reflexivity.
Qed.

(** A templated text with fewer than two non-blank lines, or whose
    header row lacks [[inviteeEmail]] or [[inviteRedirectURL]], gives no
    entry and exactly one error, whatever its rows. *)
Theorem template_file_level_error (rawText : string) (reset : bool) :
  List.length (nonBlankLines rawText) < 2
  \/ findIndex (fun h => includes h "[inviteeEmail]") (templateHeaders rawText) = None
  \/ findIndex (fun h => includes h "[inviteRedirectURL]") (templateHeaders rawText) = None ->
  entries (parseEntraTemplateCsv rawText reset) = []
  /\ List.length (errors (parseEntraTemplateCsv rawText reset)) = 1.
Proof.
  unfold parseEntraTemplateCsv, stripBom, templateHeaders.
  destruct (List.length (nonBlankLines rawText) <? 2) eqn:Hlen; [split; reflexivity|].
  apply Nat.ltb_ge in Hlen.
  intros [Hlt | [He | Hr]]; [lia | |].
  - rewrite He. split; reflexivity.
  - rewrite Hr.
    destruct (findIndex (fun h => includes h "[inviteeEmail]") _); split; reflexivity.
Qed.

(** What one row adds: nothing, one error citing its line, or one entry
    with a well-formed address and an accepted redirect URL. *)
Lemma templateRow_step (emailIdx redirectIdx : nat)
    (sendEmailIdx messageIdx : option nat) (reset : bool) (acc : ParseResult)
    (line : string) (i : nat) :
  let r := templateRow emailIdx redirectIdx sendEmailIdx messageIdx reset acc line i in
  r = acc
  \/ (entries r = entries acc
      /\ exists msg,
           errors r = errors acc ++ [msg]
           /\ (msg = "Line " +++ ofNat (S i) +++ ": invalid inviteeEmail"
               \/ msg = "Line " +++ ofNat (S i) +++ ": invalid inviteRedirectURL"))
  \/ (errors r = errors acc
      /\ exists e,
           entries r = entries acc ++ [e]
           /\ Regex.test EMAIL_REGEX (email e) = true
           /\ normalizeEmail (email e) = email e
           /\ isValidHttpUrl (inviteRedirectUrl e) = true
           /\ trim (inviteRedirectUrl e) = inviteRedirectUrl e
           /\ firstName e = "" /\ lastName e = "" /\ displayName e = ""
           /\ trim (customizedMessageBody e) = customizedMessageBody e
           /\ resetRedemption e = reset).
Proof.
  cbv zeta. unfold templateRow. rewrite Nat.add_1_r.
  destruct (_ || _); [left; reflexivity|].
  destruct (Regex.test EMAIL_REGEX _) eqn:Ht; cbn [negb].
  2: { right; left. split; [reflexivity|]. eexists. split; [reflexivity|]. auto. }
  destruct (isValidHttpUrl _) eqn:Hu; cbn [negb].
  2: { right; left. split; [reflexivity|]. eexists. split; [reflexivity|]. auto. }
  right; right. split; [reflexivity|]. eexists. split; [reflexivity|].
  cbn [email inviteRedirectUrl firstName lastName displayName customizedMessageBody
       resetRedemption].
  split; [exact Ht|].
  split; [unfold normalizeEmail at 1;
          now rewrite normalizeEmail_trimmed, normalizeEmail_lowercase|].
  split; [exact Hu|]. split; [apply trim_idem|].
  repeat split.
  destruct messageIdx; [apply trim_idem | reflexivity].
Qed.

Lemma templateRowError_mono (i j : nat) (msg : string) :
  i <= j -> templateRowError i msg -> templateRowError j msg.
Proof.
  intros Hij (k & Hk & Hm). exists k. split; [lia | exact Hm].
Qed.

Lemma templateRow_invariant (emailIdx redirectIdx : nat)
    (sendEmailIdx messageIdx : option nat) (reset : bool) (acc : ParseResult)
    (line : string) (i : nat) :
  templateInvariant reset i acc ->
  templateInvariant reset (S i)
    (templateRow emailIdx redirectIdx sendEmailIdx messageIdx reset acc line i).
Proof.
  intros (He & Hr & Hn).
  assert (Hr' : Forall (templateRowError (S i)) (errors acc)).
  { eapply Forall_impl; [|exact Hr]. intros m. apply templateRowError_mono. lia. }
  destruct (templateRow_step emailIdx redirectIdx sendEmailIdx messageIdx reset acc line i)
    as [E | [(Ee & msg & Em & Hmsg) | (Em & e & Ee & Hq)]]; cbv zeta in *.
  - rewrite E. repeat split; [exact He | exact Hr' | lia].
  - unfold templateInvariant. rewrite Ee, Em. split; [exact He|]. split.
    + apply Forall_snoc; [exact Hr'|]. exists (S i). split; [lia | exact Hmsg].
    + rewrite length_app. cbn. lia.
  - unfold templateInvariant. rewrite Ee, Em. split; [|split; [exact Hr'|]].
    + apply Forall_snoc; [exact He | exact Hq].
    + rewrite length_app. cbn. lia.
Qed.

Lemma template_run (rawText : string) (reset : bool) :
  (entries (parseEntraTemplateCsv rawText reset) = []
   /\ exists msg, errors (parseEntraTemplateCsv rawText reset) = [msg])
  \/ templateInvariant reset (List.length (nonBlankLines rawText))
       (parseEntraTemplateCsv rawText reset).
Proof.
  unfold parseEntraTemplateCsv, stripBom.
  destruct (List.length (nonBlankLines rawText) <? 2) eqn:Hlen;
    [left; split; [reflexivity | eexists; reflexivity]|].
  apply Nat.ltb_ge in Hlen.
  destruct (findIndex (fun h => includes h "[inviteeEmail]") _) as [emailIdx|];
    [|left; split; [reflexivity | eexists; reflexivity]].
  destruct (findIndex (fun h => includes h "[inviteRedirectURL]") _) as [redirectIdx|];
    [|left; split; [reflexivity | eexists; reflexivity]].
  right.
  replace (List.length (nonBlankLines rawText))
    with (2 + List.length (skipn 2 (nonBlankLines rawText)))
    by (rewrite length_skipn; lia).
  apply forEachFrom_invariant.
  - intros s x i. apply templateRow_invariant.
  - repeat split; [constructor | constructor | cbn; lia].
Qed.

(** Every entry of the templated parser has a well-formed, normalized
    address and an accepted, trimmed redirect URL, no names, a trimmed
    message and the reset flag it was given. *)
Theorem template_entries_valid (rawText : string) (reset : bool) :
  Forall (fun e =>
            Regex.test EMAIL_REGEX (email e) = true
            /\ addressShape (email e)
            /\ normalizeEmail (email e) = email e
            /\ isValidHttpUrl (inviteRedirectUrl e) = true
            /\ trim (inviteRedirectUrl e) = inviteRedirectUrl e
            /\ firstName e = "" /\ lastName e = "" /\ displayName e = ""
            /\ trim (customizedMessageBody e) = customizedMessageBody e
            /\ resetRedemption e = reset)
         (entries (parseEntraTemplateCsv rawText reset)).
Proof.
  destruct (template_run rawText reset) as [[E _] | (He & _)].
  - rewrite E. constructor.
  - eapply Forall_impl; [|exact He].
    intros e (Ht & Hrest). split; [exact Ht|]. split; [now apply EMAIL_REGEX_shape|].
    exact Hrest.
Qed.

(** The templated parser gives at most one entry or error per data row:
    never more entries than lines after the header, and either the one
    file-level error or errors that each cite a data line of the file. *)
Theorem template_rows_accounted (rawText : string) (reset : bool) :
  let r := parseEntraTemplateCsv rawText reset in
  let n := List.length (nonBlankLines rawText) in
  List.length (entries r) <= n - 2
  /\ ((entries r = [] /\ exists msg, errors r = [msg])
      \/ (List.length (entries r) + List.length (errors r) <= n - 2
          /\ Forall (templateRowError n) (errors r))).
Proof.
  cbv zeta.
  destruct (template_run rawText reset) as [[E Hm] | (_ & Hr & Hn)].
  - rewrite E. split; [cbn; lia | left; auto].
  - split; [lia|]. right. split; [lia | exact Hr].
Qed.

End Template.

End NormalizerFacts.

(** * More on the submit handler of the form *)

Module SubmitMore.

Import Frontend Spec Examples PayloadFacts SubmitFacts OutcomeMore NormalizerFacts.

Lemma payload_of_entry (e : InviteEntry) :
  lookup "email" (buildInvitePayload (entryObject e)) = JStr (email e)
  /\ lookup "resetRedemption" (buildInvitePayload (entryObject e))
     = JBool (resetRedemption e)
  /\ lookup "sendEmail" (buildInvitePayload (entryObject e)) = JBool (sendEmail e)
  /\ (nonEmpty (inviteRedirectUrl e) = true ->
      lookup "inviteRedirectUrl" (buildInvitePayload (entryObject e))
      = JStr (inviteRedirectUrl e)
      /\ lookup "inviteRedirectURL" (buildInvitePayload (entryObject e))
         = JStr (inviteRedirectUrl e)).
Proof.
  rewrite buildInvitePayload_chain.
  destruct e as [em fn ln dn ru se cm rr].
  unfold entryObject.
  cbn [email firstName lastName displayName customizedMessageBody resetRedemption
       sendEmail inviteRedirectUrl].
  rewrite !lookup_setIf.
  cbn [lookup String.eqb Ascii.eqb Bool.eqb truthy isBoolean andb].
  rewrite ?andb_false_r, ?andb_true_r. cbn [andb].
  destruct (nonEmpty ru); repeat split; try reflexivity; discriminate.
Qed.

Lemma payload_names (e : InviteEntry) :
  hasKey "firstName" (buildInvitePayload (entryObject e)) = nonEmpty (firstName e)
  /\ hasKey "lastName" (buildInvitePayload (entryObject e)) = nonEmpty (lastName e).
Proof.
  rewrite buildInvitePayload_chain.
  destruct e as [em fn ln dn ru se cm rr].
  unfold entryObject.
  cbn [email firstName lastName displayName customizedMessageBody resetRedemption
       sendEmail inviteRedirectUrl].
  rewrite !hasKey_setIf.
  cbn [hasKey lookup String.eqb Ascii.eqb Bool.eqb truthy isBoolean andb orb].
  rewrite ?andb_false_r, ?andb_true_r, ?orb_false_r. cbn [orb].
  rewrite ?orb_false_r. split; reflexivity.
Qed.

Section Submit.
Context {H : Host} {W : Type} {N : Network W}.

(** The requests a submission adds to the log, by mode. *)
Lemma inviteGuest_requests (s : AppState) (n : Net W) :
  exists es,
    calls (snd (inviteGuest s n)) = calls n ++ map requestOf es
    /\ List.length es <= MAX_BULK_INVITES
    /\ (es = []
        \/ (mode s = Single /\ es = [singleEntry s] /\ sendable (singleEntry s))
        \/ (mode s = Bulk /\ es = usableEntries s
            /\ (bulkEntriesFromFile s <> []
                \/ isValidHttpUrl (trim (redirectUrl s)) = true))).
Proof.
  unfold inviteGuest.
  destruct apiConfigured; cbn [negb].
  2: { exists []. cbn. rewrite app_nil_r. split; [reflexivity|]. split; [lia | auto]. }
  change (mode (setResult None (setLoading true s))) with (mode s).
  destruct (mode s) eqn:Hm.
  - unfold inviteSingle.
    change (st_email (setResult None (setLoading true s))) with (st_email s).
    change (redirectUrl (setResult None (setLoading true s))) with (redirectUrl s).
    destruct (Regex.test EMAIL_REGEX (normalizeEmail (st_email s))) eqn:Ht; cbn [negb].
    2: { exists []. cbn. rewrite app_nil_r. split; [reflexivity|]. split; [lia | auto]. }
    destruct (isValidHttpUrl (trim (redirectUrl s))) eqn:Hu; cbn [negb].
    2: { exists []. cbn. rewrite app_nil_r. split; [reflexivity|]. split; [lia | auto]. }
    exists [singleEntry s]. unfold sendInvite.
    destruct (fetch (world n) _) as [o w'] eqn:Ef. cbn [snd calls map].
    split; [reflexivity|]. split; [cbn; unfold MAX_BULK_INVITES; lia|].
    right; left. split; [reflexivity|]. split; [reflexivity|]. split; assumption.
  - unfold inviteBulk.
    change (gatherEntries (setResult None (setLoading true s))) with (gatherEntries s).
    destruct (gatherEntries s) as [parsed|] eqn:Hg.
    2: { exists []. cbn. rewrite app_nil_r. split; [reflexivity|]. split; [lia | auto]. }
    rewrite (gatherEntries_usable s parsed Hg).
    destruct (List.length (usableEntries s) =? 0) eqn:E0.
    { exists []. cbn. rewrite app_nil_r. split; [reflexivity|]. split; [lia | auto]. }
    destruct (MAX_BULK_INVITES <? List.length (usableEntries s)) eqn:E1.
    { exists []. cbn. rewrite app_nil_r. split; [reflexivity|]. split; [lia | auto]. }
    apply Nat.ltb_ge in E1.
    destruct (submitAll_sequential (usableEntries s) [] n) as (Hc & _).
    destruct (submitAll (usableEntries s) [] n) as [failures n'].
    cbn [fst snd] in *.
    exists (usableEntries s). split; [exact Hc|]. split; [exact E1|].
    right; right. split; [reflexivity|]. split; [reflexivity|].
    unfold gatherEntries in Hg.
    destruct (bulkEntriesFromFile s) as [|e l]; [|left; discriminate].
    cbn in Hg. right.
    destruct (isValidHttpUrl (trim (redirectUrl s))); [reflexivity | discriminate].
Qed.

Lemma usableEntries_reset (s : AppState) :
  Forall (fun e => resetRedemption e = resetRedemptionFlag s) (usableEntries s).
Proof.
  unfold usableEntries.
  destruct (0 <? List.length (bulkEntriesFromFile s)).
  - apply Forall_forall. intros e He. apply in_map_iff in He.
    destruct He as (e0 & <- & _). reflexivity.
  - eapply Forall_impl; [|apply manual_entries_inv].
    intros e (_ & _ & _ & _ & Hr & _). exact Hr.
Qed.

Lemma usableEntries_sendable (s : AppState) :
  Forall sendable (bulkEntriesFromFile s) ->
  bulkEntriesFromFile s <> [] \/ isValidHttpUrl (trim (redirectUrl s)) = true ->
  Forall sendable (usableEntries s).
Proof.
  intros Hfile Hok. unfold usableEntries.
  destruct (bulkEntriesFromFile s) as [|e0 l] eqn:Ef.
  - cbn. destruct Hok as [Hne | Hu]; [congruence|].
    eapply Forall_impl; [|apply manual_entries_inv].
    intros e (Ht & Hr & _). cbn in Hr. split; [exact Ht|]. rewrite Hr. exact Hu.
  - cbn [List.length Nat.ltb Nat.leb].
    apply Forall_forall. intros e He. apply in_map_iff in He.
    destruct He as (e1 & <- & Hin).
    rewrite Forall_forall in Hfile. exact (Hfile e1 Hin).
Qed.

(** One submission adds at most 100 calls to the log and removes none;
    every call it adds goes to the configured endpoint, names an address,
    and carries the reset flag the form shows at the time. *)
Theorem submission_calls_bounded (s : AppState) (n : Net W) :
  exists added,
    calls (snd (inviteGuest s n)) = calls n ++ added
    /\ List.length added <= MAX_BULK_INVITES
    /\ Forall (fun r =>
                 req_url r = API_URL
                 /\ lookup "resetRedemption" (req_body r)
                    = JBool (resetRedemptionFlag s)
                 /\ exists address, lookup "email" (req_body r) = JStr address)
              added.
Proof.
  destruct (inviteGuest_requests s n) as (es & Hc & Hlen & Hes).
  exists (map requestOf es). split; [exact Hc|]. split; [now rewrite length_map|].
  assert (Hreset : Forall (fun e => resetRedemption e = resetRedemptionFlag s) es).
  { destruct Hes as [-> | [(_ & -> & _) | (_ & -> & _)]].
    - constructor.
    - repeat constructor.
    - apply usableEntries_reset. }
  apply Forall_map. eapply Forall_impl; [|exact Hreset].
  intros e He. destruct (payload_of_entry e) as (Hem & Hrr & _).
  cbn [requestOf req_url req_body]. split; [reflexivity|]. split; [congruence|].
  eexists. exact Hem.
Qed.

Lemma requests_sendable (s : AppState) (n : Net W) :
  Forall sendable (bulkEntriesFromFile s) ->
  exists es,
    calls (snd (inviteGuest s n)) = calls n ++ map requestOf es
    /\ Forall sendable es.
Proof.
  intro Hfile.
  destruct (inviteGuest_requests s n) as (es & Hc & _ & Hes).
  exists es. split; [exact Hc|].
  destruct Hes as [-> | [(_ & -> & Hsend) | (_ & -> & Hok)]].
  - constructor.
  - constructor; [exact Hsend | constructor].
  - now apply usableEntries_sendable.
Qed.

(** When the entries loaded from a file are sendable, every call of a
    submission is the request of a sendable entry: a well-formed address
    and an accepted redirect URL, sent under both redirect keys. *)
Theorem submission_sends_sendable (s : AppState) (n : Net W) :
  Forall sendable (bulkEntriesFromFile s) ->
  exists es,
    calls (snd (inviteGuest s n)) = calls n ++ map requestOf es
    /\ Forall (fun e =>
                 sendable e
                 /\ lookup "email" (req_body (requestOf e)) = JStr (email e)
                 /\ lookup "inviteRedirectUrl" (req_body (requestOf e))
                    = JStr (inviteRedirectUrl e)
                 /\ lookup "inviteRedirectURL" (req_body (requestOf e))
                    = JStr (inviteRedirectUrl e)) es.
Proof.
  intro Hfile.
  destruct (requests_sendable s n Hfile) as (es & Hc & Hs).
  exists es. split; [exact Hc|].
  eapply Forall_impl; [|exact Hs].
  intros e He. split; [exact He|].
  destruct (payload_of_entry e) as (Hem & _ & _ & Hru).
  cbn [requestOf req_body]. split; [exact Hem|]. apply Hru.
  destruct He as [_ Hu]. unfold isValidHttpUrl in Hu.
  destruct (nonEmpty (inviteRedirectUrl e)); [reflexivity | discriminate].
Qed.

(** A single invite issues one call when the API URL, the address and
    the redirect URL are accepted, and none otherwise.  The call is the
    request of the normalized entry; its outcome becomes the result; a
    blank name is left out of the payload. *)
Theorem single_submission (s : AppState) (n : Net W) :
  mode s = Single ->
  let valid := apiConfigured
               && Regex.test EMAIL_REGEX (normalizeEmail (st_email s))
               && isValidHttpUrl (trim (redirectUrl s)) in
  let req := requestOf (singleEntry s) in
  (valid = true ->
   calls (snd (inviteGuest s n)) = calls n ++ [req]
   /\ world (snd (inviteGuest s n)) = snd (fetch (world n) req)
   /\ result (fst (inviteGuest s n))
      = Some (classifyOutcome (fst (fetch (world n) req))))
  /\ (valid = false ->
      snd (inviteGuest s n) = n
      /\ exists msg, result (fst (inviteGuest s n)) = Some (errorResult msg))
  /\ hasKey "firstName" (req_body req) = nonEmpty (sanitizeName (st_firstName s))
  /\ hasKey "lastName" (req_body req) = nonEmpty (sanitizeName (st_lastName s)).
Proof.
  intro Hm. cbv zeta.
  split; [|split; [|apply (payload_names (singleEntry s))]].
  - intro Hv. apply andb_true_iff in Hv. destruct Hv as [Hv Hu].
    apply andb_true_iff in Hv. destruct Hv as [Ha Ht].
    unfold inviteGuest. rewrite Ha. cbn [negb].
    change (mode (setResult None (setLoading true s))) with (mode s). rewrite Hm.
    unfold inviteSingle.
    change (st_email (setResult None (setLoading true s))) with (st_email s).
    change (redirectUrl (setResult None (setLoading true s))) with (redirectUrl s).
    rewrite Ht, Hu. cbn [negb]. unfold sendInvite.
    change {| req_url := API_URL; req_body := buildInvitePayload (entryObject _) |}
      with (requestOf (singleEntry s)).
    destruct (fetch (world n) (requestOf (singleEntry s))) as [o w'].
    cbn [fst snd calls world].
    destruct (ok (classifyOutcome o)); cbn; auto.
  - intro Hv. unfold inviteGuest.
    destruct apiConfigured; cbn [negb andb] in *.
    2: { split; [reflexivity | eexists; reflexivity]. }
    change (mode (setResult None (setLoading true s))) with (mode s). rewrite Hm.
    unfold inviteSingle.
    change (st_email (setResult None (setLoading true s))) with (st_email s).
    change (redirectUrl (setResult None (setLoading true s))) with (redirectUrl s).
    destruct (Regex.test EMAIL_REGEX (normalizeEmail (st_email s))); cbn [negb andb] in *.
    2: { split; [reflexivity | eexists; reflexivity]. }
    rewrite Hv. cbn [negb]. split; [reflexivity | eexists; reflexivity].
Qed.

Ltac submit_cases s n :=
  unfold inviteGuest;
  destruct apiConfigured eqn:Hapi; cbn [negb];
  [ change (mode (setResult None (setLoading true s))) with (mode s);
    destruct (mode s) eqn:Hm;
    [ unfold inviteSingle;
      destruct (negb (Regex.test EMAIL_REGEX _));
      [ | destruct (negb (isValidHttpUrl _));
          [ | destruct (sendInvite _ _ n) as [response n'] eqn:Hsend;
              destruct (ok response) eqn:Hok ] ]
    | unfold inviteBulk;
      destruct (gatherEntries _) as [parsed|];
      [ destruct (List.length (entries parsed) =? 0);
        [ | destruct (MAX_BULK_INVITES <? List.length (entries parsed));
            [ | destruct (submitAll (entries parsed) [] n) as [failures n'];
                destruct ((List.length failures =? 0)
                          && (List.length (errors parsed) =? 0)) eqn:Hclean ] ]
      | ] ]
  | ].

(** A submission always ends with a result and never touches the
    settings of the form.  What was typed or loaded is cleared only after
    a result that is all right: the address and names after a single
    invite, the rows and the file after a bulk one, the inputs of the
    other mode staying as they were; after any other result it is all
    still there. *)
Theorem submission_keeps_form (s : AppState) (n : Net W) :
  let s' := fst (inviteGuest s n) in
  (mode s' = mode s /\ redirectUrl s' = redirectUrl s
   /\ sendEmailFlag s' = sendEmailFlag s
   /\ resetRedemptionFlag s' = resetRedemptionFlag s
   /\ st_customizedMessageBody s' = st_customizedMessageBody s)
  /\ (exists r,
        result s' = Some r
        /\ (ok r = false ->
            st_email s' = st_email s /\ st_firstName s' = st_firstName s
            /\ st_lastName s' = st_lastName s /\ bulkInput s' = bulkInput s
            /\ bulkEntriesFromFile s' = bulkEntriesFromFile s
            /\ bulkFileName s' = bulkFileName s)
        /\ (ok r = true -> mode s = Single ->
            st_email s' = "" /\ st_firstName s' = "" /\ st_lastName s' = ""
            /\ bulkInput s' = bulkInput s
            /\ bulkEntriesFromFile s' = bulkEntriesFromFile s
            /\ bulkFileName s' = bulkFileName s)
        /\ (ok r = true -> mode s = Bulk ->
            bulkInput s' = "" /\ bulkEntriesFromFile s' = [] /\ bulkFileName s' = ""
            /\ st_email s' = st_email s /\ st_firstName s' = st_firstName s
            /\ st_lastName s' = st_lastName s))
  /\ (apiConfigured = true -> loading s' = false).
Proof.
  cbv zeta. submit_cases s n;
    cbn [fst mode st_email st_firstName st_lastName redirectUrl sendEmailFlag
         resetRedemptionFlag st_customizedMessageBody bulkInput bulkEntriesFromFile
         bulkFileName loading result setResult setLoading clearSingle clearBulk];
    (split; [repeat split; congruence|]);
    (split; [eexists; split; [reflexivity|]; cbn [ok errorResult];
             repeat split; intros; try reflexivity; try discriminate; try congruence
            | intros; try reflexivity; try discriminate ]).
Qed.

(** No result of the form ever yields a redemption link: the link is not
    among the members the response filter lets through. *)
Theorem redeem_link_never_shown :
  (forall (s : AppState) (n : Net W),
      getRedeemUrl (result (fst (inviteGuest s n))) = None)
  /\ (forall (f : UploadedFile) (s : AppState),
        getRedeemUrl (result (onBulkFileChange (Some f) s)) = None).
Proof.
  split.
  - intros s n. submit_cases s n; cbn [fst]; try reflexivity.
    + unfold sendInvite in Hsend. destruct (fetch _ _) as [o w'].
      injection Hsend as <- _. cbn [result setResult setLoading clearSingle].
      apply no_redeem_link_outcome.
    + unfold sendInvite in Hsend. destruct (fetch _ _) as [o w'].
      injection Hsend as <- _. cbn [result setResult setLoading].
      apply no_redeem_link_outcome.
  - intros f s. unfold onBulkFileChange. destruct (file_text f); reflexivity.
Qed.

Lemma upload_sendable (f : UploadedFile) (s : AppState) :
  Forall sendable (bulkEntriesFromFile (onBulkFileChange (Some f) s)).
Proof.
  unfold onBulkFileChange. destruct (file_text f) as [text|]; cbn; [|constructor].
  destruct (template_run text (resetRedemptionFlag s)) as [[E _] | (He & _)].
  - rewrite E. constructor.
  - eapply Forall_impl; [|exact He].
    intros e (Ht & _ & Hu & _). split; assumption.
Qed.

(** Choosing a file stores only sendable entries, under the name of the
    file, and leaves the typed rows alone; a file that cannot be read
    stores none.  A submission made next sends only requests of sendable
    entries. *)
Theorem upload_then_submit (f : UploadedFile) (s0 : AppState) (n : Net W) :
  let s := onBulkFileChange (Some f) s0 in
  Forall sendable (bulkEntriesFromFile s)
  /\ bulkFileName s = file_name f
  /\ bulkInput s = bulkInput s0
  /\ (file_text f = None -> bulkEntriesFromFile s = [])
  /\ exists es,
       calls (snd (inviteGuest s n)) = calls n ++ map requestOf es
       /\ Forall sendable es.
Proof.
  cbv zeta. split; [apply upload_sendable|].
  split; [unfold onBulkFileChange; destruct (file_text f); reflexivity|].
  split; [unfold onBulkFileChange; destruct (file_text f); reflexivity|].
  split; [intro E; unfold onBulkFileChange; rewrite E; reflexivity|].
  apply requests_sendable, upload_sendable.
Qed.

(** Typing into the text area discards a loaded file: the next bulk
    submission works on the typed rows alone. *)
Theorem typing_discards_file (value : string) (s : AppState) :
  let s' := onBulkInputChange value s in
  bulkEntriesFromFile s' = []
  /\ bulkInput s' = value
  /\ usableEntries s'
     = entries
         (parseManualBulk value
            {| d_redirectUrl := trim (redirectUrl s);
               d_sendEmail := sendEmailFlag s;
               d_customizedMessageBody := trim (st_customizedMessageBody s);
               d_resetRedemption := resetRedemptionFlag s |}).
Proof.
  cbv zeta. unfold onBulkInputChange, usableEntries.
  destruct (bulkEntriesFromFile s) as [|e l] eqn:Ef; cbn; rewrite ?Ef; repeat split.
Qed.

(** [isValidHttpUrl] accepts exactly the non-empty texts the URL parser
    reads as an [https] URL, or as an [http] URL of [localhost] or
    [127.0.0.1]. *)
Theorem isValidHttpUrl_iff (value : string) :
  isValidHttpUrl value = true
  <-> value <> ""
      /\ exists url,
           URL_new value = Some url
           /\ (protocol url = "https:"
               \/ (protocol url = "http:"
                   /\ (hostname url = "localhost" \/ hostname url = "127.0.0.1"))).
Proof.
  unfold isValidHttpUrl, nonEmpty.
  destruct (String.eqb_spec value "") as [->|Hne]; cbn [negb].
  { split; [discriminate | intros [Hn _]; congruence]. }
  destruct (URL_new value) as [url|].
  2: { split; [discriminate | intros (_ & u & Hu & _); discriminate]. }
  cbn [existsb]. rewrite orb_false_r.
  destruct (String.eqb_spec (protocol url) "https:") as [Hs|Hs];
    destruct (String.eqb_spec (protocol url) "http:") as [Hp|Hp];
    destruct (String.eqb_spec (hostname url) "localhost") as [Hl|Hl];
    destruct (String.eqb_spec (hostname url) "127.0.0.1") as [Hi|Hi];
    cbn; split; try discriminate; try congruence;
    try (intros _; split; [exact Hne|]; exists url; split; [reflexivity|]; tauto);
    intros (_ & u & Hu & Hcase); injection Hu as <-;
    destruct Hcase as [Hc | [Hc [Hh | Hh]]]; congruence.
Qed.

End Submit.

End SubmitMore.

(** * More on the configuration and the authorization decision *)

Module ConfigFacts.

Import Backend Spec StringFacts.

Lemma allChars_append (p : ascii -> bool) (a b : string) :
  allChars p (a +++ b) = allChars p a && allChars p b.
Proof.
  induction a as [|c a IH]; cbn; [reflexivity | now rewrite IH, andb_assoc].
Qed.

Lemma splitOnFrom_free (c : ascii) (s : string) :
  forall cur, freeOf c cur = true -> Forall (fun x => freeOf c x = true) (splitOnFrom c s cur).
Proof.
  induction s as [|a s IH]; intros cur Hcur; cbn [splitOnFrom].
  - now constructor.
  - destruct (Ascii.eqb a c) eqn:E.
    + constructor; [exact Hcur | now apply IH].
    + apply IH. unfold freeOf. rewrite allChars_append. cbn.
      fold (freeOf c cur). now rewrite Hcur, E.
Qed.

Lemma allChars_trimStart (p : ascii -> bool) (s : string) :
  allChars p s = true -> allChars p (trimStart s) = true.
Proof.
  induction s as [|c s IH]; cbn; [auto|].
  intro Hs. apply andb_true_iff in Hs. destruct Hs as [Hc Hs].
  destruct (isWhiteSpace c); [now apply IH | cbn; now rewrite Hc, Hs].
Qed.

Lemma allChars_trimEnd (p : ascii -> bool) (s : string) :
  allChars p s = true -> allChars p (trimEnd s) = true.
Proof.
  induction s as [|c s IH]; cbn; [auto|].
  intro Hs. apply andb_true_iff in Hs. destruct Hs as [Hc Hs].
  destruct (isWhiteSpace c && (trimEnd s =? "")%string); [reflexivity|].
  cbn. now rewrite Hc, IH.
Qed.

Lemma allChars_trim (p : ascii -> bool) (s : string) :
  allChars p s = true -> allChars p (trim s) = true.
Proof. intro Hs. unfold trim. now apply allChars_trimEnd, allChars_trimStart. Qed.

(** Whatever the environment holds, the allowed group ids the back end
    works with are non-empty, trimmed and free of commas; with the
    variable unset or empty there is none. *)
Theorem allowed_groups_clean (env : Env) :
  Forall (fun g => g <> "" /\ trim g = g /\ freeOf "," g = true)
    (ALLOWED_INVITER_GROUP_OBJECT_IDS (loadConfig env))
  /\ (envOr env "ALLOWED_INVITER_GROUP_OBJECT_IDS" "" = "" ->
      ALLOWED_INVITER_GROUP_OBJECT_IDS (loadConfig env) = []).
Proof.
  cbn [loadConfig ALLOWED_INVITER_GROUP_OBJECT_IDS]. split.
  - apply Forall_forall. intros g Hg.
    apply filter_In in Hg. destruct Hg as [Hin Hne].
    apply in_map_iff in Hin. destruct Hin as (x & <- & Hx).
    split; [|split; [apply trim_idem|]].
    + unfold nonEmpty in Hne. apply negb_true_iff, String.eqb_neq in Hne. exact Hne.
    + apply allChars_trim.
      pose proof (splitOnFrom_free "," (envOr env "ALLOWED_INVITER_GROUP_OBJECT_IDS" "")
                    "" eq_refl) as Hall.
      rewrite Forall_forall in Hall. exact (Hall x Hx).
  - intros ->. reflexivity.
Qed.

End ConfigFacts.

(** * More on the authorization decision *)

Module AuthMore.

Import Backend Spec AuthFacts.

Section Auth.
Context {H : Host} {W : Type} {D : Directory W}.

Lemma app_one_neq {A : Type} (l : list A) (x : A) : l ++ [x] <> l.
Proof.
  intro E. apply (f_equal (@List.length A)) in E.
  rewrite length_app in E. cbn in E. lia.
Qed.

(** The five ways the procedure ends, with the calls made on each. *)
Lemma authorizeInviter_cases (cfg : Config) (request : HttpRequest)
    (token : jsval) (s : Sys W) :
  let principal := decodeClientPrincipal request in
  let oid := getCallerObjectId principal in
  let run := authorizeInviter cfg request token s in
  (localBypass cfg = true
   /\ run = (inr (Authorized "local_bypass"
                    (JObj [("userType", JStr "Member"); ("id", JStr "local-dev")])), s))
  \/ (localBypass cfg = false
      /\ (truthy principal = false \/ truthy oid = false)
      /\ exists msg, run = (inr (Denied 401 msg), s))
  \/ (localBypass cfg = false /\ truthy principal = true /\ truthy oid = true
      /\ (ToString oid = None \/ ToString token = None)
      /\ run = (inl conversionError, s))
  \/ (exists text,
        ToString oid = Some text
        /\ localBypass cfg = false /\ truthy principal = true /\ truthy oid = true
        /\ events (snd run) = events s ++ [EvGraph (profileCall text token)]
        /\ ((exists e, fst run = inl e)
            \/ (exists msg, fst run = inr (Denied 403 msg))
            \/ (misconfigured cfg = true /\ exists msg, fst run = inr (Denied 500 msg))
            \/ (misconfigured cfg = false /\ checksGroups cfg = false
                /\ exists c, callerAccepted c = true
                     /\ fst run = inr (Authorized "entra_authenticated" c))))
  \/ (exists text,
        ToString oid = Some text
        /\ localBypass cfg = false /\ truthy principal = true /\ truthy oid = true
        /\ misconfigured cfg = false /\ checksGroups cfg = true
        /\ events (snd run)
           = events s ++ [EvGraph (profileCall text token);
                          EvGraph (groupCall cfg text token)]
        /\ ((exists e, fst run = inl e)
            \/ (exists msg, fst run = inr (Denied 403 msg))
            \/ (exists c, callerAccepted c = true
                  /\ fst run = inr (Authorized "entra_authenticated" c)))).
Proof.
  cbv zeta.
  unfold authorizeInviter, localBypass, misconfigured, checksGroups,
    profileCall, groupCall, profileUrl.
  destruct (negb (IS_AZURE_RUNTIME cfg) && ALLOW_LOCAL_ANONYMOUS_INVITE cfg).
  { left. split; reflexivity. }
  right.
  destruct (truthy (decodeClientPrincipal request)); cbn [negb].
  2: { left. split; [reflexivity|]. split; [now left|]. eexists. reflexivity. }
  destruct (truthy (getCallerObjectId (decodeClientPrincipal request))); cbn [negb].
  2: { left. split; [reflexivity|]. split; [now right|]. eexists. reflexivity. }
  right.
  unfold toText, converted.
  destruct (ToString (getCallerObjectId (decodeClientPrincipal request))) as [text|].
  2: { left. rewrite bind_throw. repeat split. now left. }
  rewrite bind_ret. cbv beta.
  unfold bind.
  destruct (ToString token) as [tokenText|] eqn:Htoken.
  2: { left.
       match goal with
       | |- context [graphRequest ?m ?u ?t ?b s] =>
           rewrite (graphRequest_no_text m u t b s Htoken)
       end.
       repeat split. now right. }
  right.
  match goal with
  | |- context [graphRequest ?m ?u ?t ?b s] =>
      pose proof (graphRequest_events m u t b s tokenText Htoken) as Hev;
      destruct (graphRequest m u t b s) as [[e|caller] s1]
  end; cbn [snd] in Hev.
  { left. exists text. cbn [fst snd]. repeat split; try exact Hev. left. eauto. }
  unfold callerAccepted.
  destruct (truthy (optProp caller "id")) eqn:Hid; cbn [negb orb andb].
  2: { left. exists text. cbn [fst snd ret]. repeat split; try exact Hev.
       right; left. eauto. }
  destruct (match optProp caller "accountEnabled" with
            | JBool false => true
            | _ => false
            end) eqn:Hen; cbn [negb andb].
  { left. exists text. cbn [fst snd ret]. repeat split; try exact Hev.
    right; left. eauto. }
  destruct (strictEqStr (optProp caller "userType") "Member") eqn:Hm; cbn [negb].
  2: { left. exists text. cbn [fst snd ret]. repeat split; try exact Hev.
       right; left. eauto. }
  assert (Hacc : callerAccepted caller = true)
    by (unfold callerAccepted; rewrite Hid, Hen, Hm; reflexivity).
  destruct (IS_AZURE_RUNTIME cfg && ENFORCE_GROUP_MEMBERSHIP_IN_AZURE cfg
            && (List.length (ALLOWED_INVITER_GROUP_OBJECT_IDS cfg) =? 0)) eqn:Hmis.
  { left. exists text. cbn [fst snd ret]. repeat split; try exact Hev.
    right; right; left. split; [reflexivity|]. eauto. }
  destruct ((0 <? List.length (ALLOWED_INVITER_GROUP_OBJECT_IDS cfg))
            && (negb (IS_AZURE_RUNTIME cfg) || ENFORCE_GROUP_MEMBERSHIP_IN_AZURE cfg))
    eqn:Hchk.
  2: { left. exists text. cbn [fst snd ret]. repeat split; try exact Hev.
       right; right; right. repeat split. exists caller.
       split; [exact Hacc|reflexivity]. }
  right. exists text.
  change (ret text s1) with (@inr Exn string text, s1). cbv beta iota.
  match goal with
  | |- context [graphRequest ?m ?u ?t ?b s1] =>
      pose proof (graphRequest_events m u t b s1 tokenText Htoken) as Hev2;
      destruct (graphRequest m u t b s1) as [[e|membership] s2]
  end; cbn [snd] in Hev2; rewrite Hev, <- app_assoc in Hev2; cbn [app] in Hev2.
  { cbn [fst snd]. repeat split; try exact Hev2. left. eauto. }
  destruct (List.length match optProp membership "value" with
                        | JArr items => items
                        | _ => []
                        end =? 0).
  { cbn [fst snd ret]. repeat split; try exact Hev2. right; left. eauto. }
  cbn [fst snd ret]. repeat split; try exact Hev2. right; right.
  exists caller. split; [exact Hacc|reflexivity].
Qed.

Ltac auth_cases cfg request token s :=
  let Hc := fresh "Hc" in
  pose proof (authorizeInviter_cases cfg request token s) as Hc;
  cbv zeta in Hc;
  destruct Hc as [(Hb & E)
                 |[(Hb & Hfalsy & msg0 & E)
                  |[(Hb & Hp & Ho & Htext & E)
                   |[(text & Htext & Hb & Hp & Ho & Hev & Hres)
                    |(text & Htext & Hb & Hp & Ho & Hmis & Hchk & Hev & Hres)]]]].

(** An authorization is either the local bypass, given without a look at
    the request and without a call, or it is given to a request whose
    principal decodes and names an object id that has a text, for a
    profile the directory returned that has an id, is not disabled and is
    a Member, in a configuration that is not the misconfigured one, after
    the profile has been fetched under that text. *)
Theorem authorizeInviter_sound (cfg : Config) (request : HttpRequest)
    (token : jsval) (s : Sys W) (m : string) (c : jsval) :
  fst (authorizeInviter cfg request token s) = inr (Authorized m c) ->
  (localBypass cfg = true /\ m = "local_bypass"
   /\ snd (authorizeInviter cfg request token s) = s)
  \/ (localBypass cfg = false /\ m = "entra_authenticated"
      /\ truthy (decodeClientPrincipal request) = true
      /\ truthy (getCallerObjectId (decodeClientPrincipal request)) = true
      /\ callerAccepted c = true
      /\ misconfigured cfg = false
      /\ exists text,
           ToString (getCallerObjectId (decodeClientPrincipal request)) = Some text
           /\ In (EvGraph (profileCall text token))
                (events (snd (authorizeInviter cfg request token s)))).
Proof.
  intro Hrun. auth_cases cfg request token s.
  - left. rewrite E in Hrun |- *. cbn [fst snd] in *. now inversion Hrun.
  - rewrite E in Hrun. discriminate.
  - rewrite E in Hrun. discriminate.
  - right. rewrite Hev.
    destruct Hres as [[e He]|[[msg He]|[[_ [msg He]]|(Hmis & _ & c' & Hacc & He)]]];
      rewrite He in Hrun; try discriminate.
    inversion Hrun; subst. repeat split; auto.
    exists text. split; [exact Htext|]. apply in_or_app. right. now left.
  - right. rewrite Hev.
    destruct Hres as [[e He]|[[msg He]|(c' & Hacc & He)]];
      rewrite He in Hrun; try discriminate.
    inversion Hrun; subst. repeat split; auto.
    exists text. split; [exact Htext|]. apply in_or_app. right. now left.
Qed.

(** A denial is never given under the local bypass; its status is 401,
    403 or 500; it is 401 exactly when nothing was called and the state
    is as it was, and 500 only in the misconfigured setting. *)
Theorem authorizeInviter_denials (cfg : Config) (request : HttpRequest)
    (token : jsval) (s : Sys W) (st : Z) (msg : string) :
  fst (authorizeInviter cfg request token s) = inr (Denied st msg) ->
  localBypass cfg = false
  /\ denialStatus st
  /\ (st = 401%Z <-> snd (authorizeInviter cfg request token s) = s)
  /\ (st = 500%Z -> misconfigured cfg = true).
Proof.
  intro Hrun. unfold denialStatus. auth_cases cfg request token s.
  - rewrite E in Hrun. discriminate.
  - rewrite E in Hrun |- *. cbn [fst snd] in *. inversion Hrun; subst.
    repeat split; auto; discriminate.
  - rewrite E in Hrun. discriminate.
  - assert (Hne : snd (authorizeInviter cfg request token s) <> s).
    { intro E. rewrite E in Hev. symmetry in Hev. now apply app_one_neq in Hev. }
    destruct Hres as [[e He]|[[msg' He]|[[Hmis [msg' He]]|(_ & _ & c' & _ & He)]]];
      rewrite He in Hrun; try discriminate; inversion Hrun; subst;
      repeat split; auto; try discriminate; intro; contradiction.
  - assert (Hne : snd (authorizeInviter cfg request token s) <> s).
    { intro E. rewrite E in Hev. apply (f_equal (@List.length Event)) in Hev.
      rewrite length_app in Hev. cbn in Hev. lia. }
    destruct Hres as [[e He]|[[msg' He]|(c' & _ & He)]];
      rewrite He in Hrun; try discriminate; inversion Hrun; subst;
      repeat split; auto; try discriminate; intro; contradiction.
Qed.

(** Whatever the decision, the procedure calls the directory at most
    twice, with the token it was given and by GET or POST only; it asks
    for no token, and when it calls no one the state is as it was. *)
Theorem authorizeInviter_calls (cfg : Config) (request : HttpRequest)
    (token : jsval) (s : Sys W) :
  exists evs,
    events (snd (authorizeInviter cfg request token s)) = events s ++ evs
    /\ List.length evs <= 2
    /\ Forall (fun ev => exists c, ev = EvGraph c /\ c_token c = token
                           /\ (c_method c = "GET" \/ c_method c = "POST")) evs
    /\ (evs = [] -> snd (authorizeInviter cfg request token s) = s).
Proof.
  auth_cases cfg request token s.
  - exists []. rewrite E, app_nil_r. cbn. repeat split; auto.
  - exists []. rewrite E, app_nil_r. cbn. repeat split; auto.
  - exists []. rewrite E, app_nil_r. cbn. repeat split; auto.
  - eexists. split; [exact Hev|]. cbn. repeat split; try lia; try discriminate.
    constructor; [|constructor]. eexists. split; [reflexivity|]. cbn. auto.
  - eexists. split; [exact Hev|]. cbn. repeat split; try lia; try discriminate.
    constructor; [|constructor; [|constructor]];
      (eexists; split; [reflexivity|]; cbn; auto).
Qed.

(** With a group check in force, a caller whose object id has a text and
    whose profile is accepted is judged by the answer to
    [checkMemberGroups] for the allowed ids: a non-empty [value] array
    authorizes, anything else is a 403.  An object id without a text
    never gets that far: the procedure throws the TypeError of the
    conversion before it calls anyone. *)
Theorem authorizeInviter_group_decision (cfg : Config) (request : HttpRequest)
    (token : jsval) (s : Sys W) :
  localBypass cfg = false ->
  truthy (decodeClientPrincipal request) = true ->
  truthy (getCallerObjectId (decodeClientPrincipal request)) = true ->
  checksGroups cfg = true ->
  match ToString (getCallerObjectId (decodeClientPrincipal request)) with
  | None => authorizeInviter cfg request token s = (inl conversionError, s)
  | Some text =>
      forall (s1 s2 : Sys W) (caller membership : jsval),
        graphRequest "GET" (profileUrl text) token None s = (inr caller, s1) ->
        callerAccepted caller = true ->
        graphRequest "POST" (c_url (groupCall cfg text token)) token
          (Some (JObj [("groupIds",
                        JArr (map JStr (ALLOWED_INVITER_GROUP_OBJECT_IDS cfg)))])) s1
        = (inr membership, s2) ->
        authorizeInviter cfg request token s
        = (inr match optProp membership "value" with
               | JArr (_ :: _) => Authorized "entra_authenticated" caller
               | _ => Denied 403 "Forbidden. Caller is not in the allowed inviter group."
               end, s2)
  end.
Proof.
  intros Hb Hp Ho Hchk.
  unfold authorizeInviter. unfold localBypass in Hb. rewrite Hb, Hp, Ho. cbn [negb].
  unfold toText, converted.
  destruct (ToString (getCallerObjectId (decodeClientPrincipal request))) as [text|];
    [|reflexivity].
  intros s1 s2 caller membership Hget Hacc Hpost.
  rewrite bind_ret. cbv beta. fold (profileUrl text).
  unfold bind. rewrite Hget.
  unfold callerAccepted in Hacc.
  apply andb_true_iff in Hacc. destruct Hacc as [Hacc Hm].
  apply andb_true_iff in Hacc. destruct Hacc as [Hid Hen].
  apply negb_true_iff in Hen. rewrite Hid, Hen, Hm. cbn [negb orb].
  unfold checksGroups in Hchk. pose proof Hchk as Hchk'.
  apply andb_true_iff in Hchk'. destruct Hchk' as [Hlen _].
  apply Nat.ltb_lt in Hlen.
  assert (Hz : (List.length (ALLOWED_INVITER_GROUP_OBJECT_IDS cfg) =? 0) = false)
    by (apply Nat.eqb_neq; lia).
  rewrite Hz, andb_false_r, Hchk.
  unfold ret at 1. cbv beta iota.
  unfold groupCall in Hpost. cbn [c_url] in Hpost. rewrite Hpost.
  destruct (optProp membership "value") as [| | | | |items|]; try reflexivity.
  destruct items; reflexivity.
Qed.

End Auth.

End AuthMore.

(** * More on the handlers *)

Module HandlerMore.

Import Backend Spec AuthFacts HandlerFacts.

Section Handler.
Context {H : Host} {W : Type} {D : Directory W}.

Lemma tryCatch_ret_snd {A : Type} (m : M W A) (h : Exn -> A) (s : Sys W) :
  snd (tryCatch m (fun e => ret (h e)) s) = snd (m s).
Proof. unfold tryCatch, ret. destruct (m s) as [[e|a] s']; reflexivity. Qed.

Lemma readProp_state (v : jsval) (k : string) (s : Sys W) :
  snd (readProp v k s) = s.
Proof. unfold readProp. destruct (getProp v k); reflexivity. Qed.

(** The calls of the authorization, as directory calls. *)
Lemma authorizeInviter_trace (cfg : Config) (request : HttpRequest)
    (token : jsval) (s : Sys W) :
  exists calls,
    events (snd (authorizeInviter cfg request token s)) = events s ++ map EvGraph calls
    /\ List.length calls <= 2
    /\ Forall isLookupCall calls.
Proof.
  assert (Hprofile : forall text, isLookupCall (profileCall text token)).
  { intro text. split; [now left|]. intros [Hm _]. discriminate. }
  assert (Hgroup : forall text, isLookupCall (groupCall cfg text token)).
  { intro text. split; [now right|]. intros [_ Hu]. cbn in Hu. discriminate. }
  pose proof (AuthMore.authorizeInviter_cases cfg request token s) as Hc.
  cbv zeta in Hc.
  destruct Hc as [(_ & E)|[(_ & _ & msg & E)|[(_ & _ & _ & _ & E)
                 |[(text & _ & _ & _ & _ & Hev & _)
                  |(text & _ & _ & _ & _ & _ & _ & Hev & _)]]]].
  - exists []. rewrite E, app_nil_r. cbn. repeat split; auto.
  - exists []. rewrite E, app_nil_r. cbn. repeat split; auto.
  - exists []. rewrite E, app_nil_r. cbn. repeat split; auto.
  - exists [profileCall text token].
    repeat split; [exact Hev | cbn; lia | auto].
  - exists [profileCall text token; groupCall cfg text token].
    repeat split; [exact Hev | cbn; lia | auto].
Qed.

Lemma inviteAuthorized_trace (cfg : Config) (request : HttpRequest) (email : jsval)
    (body : props_t) (token : jsval) (runtime : Runtime) (s : Sys W) :
  exists calls tail,
    events (snd (inviteAuthorized cfg request email body token runtime s))
    = events s ++ map EvGraph calls ++ tail
    /\ List.length calls <= 2
    /\ Forall isLookupCall calls
    /\ invitationTail tail.
Proof.
  destruct (authorizeInviter_trace cfg request token s) as (calls & Hev & Hlen & Hall).
  exists calls.
  unfold inviteAuthorized, bind.
  destruct (authorizeInviter cfg request token s) as [[e|[mode caller|st err]] s1];
    cbn [snd] in Hev.
  - exists []. rewrite app_nil_r. cbn [snd]. repeat split; auto. now left.
  - destruct (ToString token) as [tokenText|] eqn:Htoken.
    2: { match goal with
         | |- context [graphRequest ?m ?u ?t ?b s1] =>
             rewrite (graphRequest_no_text m u t b s1 Htoken)
         end.
         exists []. rewrite app_nil_r. cbn [snd]. repeat split; auto. now left. }
    match goal with
    | |- context [graphRequest ?m ?u ?t ?b s1] =>
        pose proof (graphRequest_events m u t b s1 tokenText Htoken) as Hev2;
        destruct (graphRequest m u t b s1) as [[e|invitation] s2]
    end; cbn [snd] in Hev2.
    + eexists. cbn [snd]. rewrite Hev2, Hev, <- app_assoc.
      repeat split; auto. right. eexists. split; [|left; reflexivity]. split; reflexivity.
    + destruct (negb (truthy (optProp (optProp invitation "invitedUser") "id"))).
      * eexists. cbn [snd ret]. rewrite Hev2, Hev, <- app_assoc.
        repeat split; auto. right. eexists. split; [|left; reflexivity].
        split; reflexivity.
      * unfold toText, converted.
        destruct (ToString (optProp (optProp invitation "invitedUser") "id"))
          as [text|]; cbv beta iota delta [ret throw].
        2: { eexists. cbn [snd]. rewrite Hev2, Hev, <- app_assoc.
             repeat split; auto. right. eexists. split; [|left; reflexivity].
             split; reflexivity. }
        match goal with
        | |- context [graphRequest ?m ?u ?t ?b s2] =>
            pose proof (graphRequest_events m u t b s2 tokenText Htoken) as Hev3;
            destruct (graphRequest m u t b s2) as [[e|stamped] s3]
        end; cbn [snd] in Hev3.
        -- eexists. cbn [snd]. rewrite Hev3, Hev2, Hev, <- !app_assoc. cbn [app].
           repeat split; auto. right. eexists.
           split; [|right; eexists; split; [|reflexivity]; reflexivity].
           split; reflexivity.
        -- eexists. cbn [snd]. rewrite Hev3, Hev2, Hev, <- !app_assoc. cbn [app].
           repeat split; auto. right. eexists.
           split; [|right; eexists; split; [|reflexivity]; reflexivity].
           split; reflexivity.
  - exists []. rewrite app_nil_r. cbn [snd ret]. repeat split; auto. now left.
Qed.

(** The external calls of [inviteGuest], in order: none at all, or the
    token first, then at most two look-ups of the authorization, then at
    most the invitation, then at most one PATCH, which only follows the
    invitation. *)
Theorem inviteGuest_call_order (cfg : Config) (request : HttpRequest) (s : Sys W) :
  exists evs,
    events (snd (inviteGuest cfg request s)) = events s ++ evs
    /\ (evs = []
        \/ exists calls tail,
             evs = EvGetToken (getRuntimeCredential cfg) :: map EvGraph calls ++ tail
             /\ List.length calls <= 2
             /\ Forall isLookupCall calls
             /\ invitationTail tail).
Proof.
  unfold inviteGuest. rewrite tryCatch_ret_snd. unfold bind.
  pose proof (readProp_state (bodyOf request) "email" s) as Hread.
  fold (bodyOf request).
  destruct (readProp (bodyOf request) "email" s) as [[e|email] s0];
    cbn [snd] in Hread; subst s0.
  { exists []. rewrite app_nil_r. auto. }
  unfold converted.
  destruct (displayNameOf (bodyOf request) email) as [displayName|];
    cbv beta iota delta [ret throw].
  2: { exists []. rewrite app_nil_r. auto. }
  destruct (negb (truthy email)).
  { exists []. rewrite app_nil_r. auto. }
  pose proof (getGraphAccessToken_events cfg s) as Htok.
  destruct (getGraphAccessToken cfg s) as [[e|[token runtime]] s1]; cbn [snd] in Htok.
  { eexists. split; [exact Htok|]. right. exists [], []. cbn.
    repeat split; auto. now left. }
  cbn [fst snd].
  match goal with
  | |- context [tryCatch ?m ?h s1] =>
      change (snd (tryCatch m h s1))
        with (snd (tryCatch m (fun e => ret (errorResponse (Some runtime) e)) s1));
      rewrite (tryCatch_ret_snd m (errorResponse (Some runtime)) s1)
  end.
  match goal with
  | |- context [inviteAuthorized cfg request email ?b token runtime s1] =>
      destruct (inviteAuthorized_trace cfg request email b token runtime s1)
        as (calls & tail & Hev & Hlen & Hall & Htail)
  end.
  eexists. split.
  - rewrite Hev, Htok, <- app_assoc. cbn [app]. reflexivity.
  - right. exists calls, tail. auto.
Qed.

(** When the caller is denied, the handler answers with the status and
    the message of the denial and the runtime it ran with, and stops: the
    state is the one the authorization left, so no invitation is posted.
    The denial is only reached by a request whose display name could be
    computed: names that cannot be converted to text end the request
    with the TypeError before the token is asked for. *)
Theorem inviteGuest_denied (cfg : Config) (request : HttpRequest)
    (s s1 s2 : Sys W) (email token : jsval) (runtime : Runtime)
    (st : Z) (err : string) :
  getProp (bodyOf request) "email" = Some email ->
  truthy email = true ->
  getGraphAccessToken cfg s = (inr (token, runtime), s1) ->
  authorizeInviter cfg request token s1 = (inr (Denied st err), s2) ->
  match displayNameOf (bodyOf request) email with
  | None => inviteGuest cfg request s = (inr (errorResponse None conversionError), s)
  | Some _ =>
      inviteGuest cfg request s
      = (inr {| status := num st;
                jsonBody_out :=
                  JObj [ ("error", JStr err);
                         ("runtime", JStr (rt_mode runtime));
                         ("azClientIdConfigured",
                          JBool (azClientIdConfigured runtime)) ] |},
         s2)
  end.
Proof.
  intros Hget Htruthy Htok Hauth.
  destruct (displayNameOf (bodyOf request) email) as [displayName|] eqn:Hname.
  2: { exact (inviteGuest_unconvertible_name cfg request s email Hget Hname). }
  rewrite (inviteGuest_reads cfg request s email displayName Hget Hname).
  rewrite Htruthy. cbn [negb]. rewrite Htok.
  unfold inviteAuthorized, bind. rewrite Hauth. unfold ret.
  unfold runtimeMode, runtimeClientId, orElse.
  assert (Hmode : truthy (JStr (rt_mode runtime)) = true).
  { unfold getGraphAccessToken in Htok.
    destruct (getToken (world s) (getRuntimeCredential cfg)) as [[e|tok] w'];
      [discriminate|].
    inversion Htok; subst. unfold getRuntimeCredential.
    destruct (IS_AZURE_RUNTIME cfg); [destruct (nonEmpty (AZURE_CLIENT_ID cfg))|];
      reflexivity. }
  rewrite Hmode. cbn [truthy]. destruct (azClientIdConfigured runtime); reflexivity.
Qed.

(** When the invitation call returns the id of the invited user, the
    handler builds the URL of that user and makes exactly one more call,
    the PATCH that sets the guest-source attribute.  An id that cannot be
    converted to text makes the handler answer with the TypeError and no
    PATCH; if the PATCH fails the handler answers with its error; in both
    cases the invitation has been sent.  Otherwise the handler answers
    200 with the status [invited_and_stamped], the id, the address and
    the way the caller was authorized. *)
Theorem inviteGuest_stamps (cfg : Config) (request : HttpRequest)
    (s s1 s2 s3 : Sys W) (email displayName token : jsval) (runtime : Runtime)
    (authMode : string) (caller invitation : jsval) :
  getProp (bodyOf request) "email" = Some email ->
  displayNameOf (bodyOf request) email = Some displayName ->
  truthy email = true ->
  getGraphAccessToken cfg s = (inr (token, runtime), s1) ->
  authorizeInviter cfg request token s1 = (inr (Authorized authMode caller), s2) ->
  graphRequest "POST" (GRAPH_BASE +++ "/invitations") token
    (Some (JObj (invitationOf (bodyOf request) email displayName))) s2
  = (inr invitation, s3) ->
  truthy (optProp (optProp invitation "invitedUser") "id") = true ->
  match ToString (optProp (optProp invitation "invitedUser") "id") with
  | None =>
      inviteGuest cfg request s
      = (inr (errorResponse (Some runtime) conversionError), s3)
  | Some text =>
      match graphRequest "PATCH" (GRAPH_BASE +++ "/users/" +++ text)
              token (Some (JObj [(EXT_FIELD, JStr (GUEST_SOURCE_VALUE cfg))])) s3 with
      | (inl e, s4) =>
          inviteGuest cfg request s = (inr (errorResponse (Some runtime) e), s4)
      | (inr _, s4) =>
          exists body,
            inviteGuest cfg request s
            = (inr {| status := num 200; jsonBody_out := JObj body |}, s4)
            /\ lookup "status" body = JStr "invited_and_stamped"
            /\ lookup "invitedUserId" body
               = optProp (optProp invitation "invitedUser") "id"
            /\ lookup "email" body = email
            /\ lookup "guestSource" body = JStr (GUEST_SOURCE_VALUE cfg)
            /\ lookup "inviterAuthorizationMode" body = JStr authMode
      end
  end.
Proof.
  intros Hget Hname Htruthy Htok Hauth Hpost Hid.
  assert (Hrun : inviteGuest cfg request s
                 = match inviteAuthorized cfg request email
                           (invitationOf (bodyOf request) email displayName)
                           token runtime s1 with
                   | (inl e, s2) => (inr (errorResponse (Some runtime) e), s2)
                   | (inr response, s2) => (inr response, s2)
                   end).
  { rewrite (inviteGuest_reads cfg request s email displayName Hget Hname).
    rewrite Htruthy. cbn [negb]. now rewrite Htok. }
  rewrite Hrun. unfold inviteAuthorized, bind. rewrite Hauth, Hpost, Hid. cbn [negb].
  unfold toText, converted.
  destruct (ToString (optProp (optProp invitation "invitedUser") "id")) as [text|];
    [|reflexivity].
  change (ret text s3) with (@inr Exn string text, s3). cbv beta iota.
  destruct (graphRequest "PATCH" _ token _ s3) as [[e|stamped] s4].
  - reflexivity.
  - eexists. split; [reflexivity|]. repeat split.
Qed.

Lemma truthy_orElse (a b : jsval) : truthy (orElse a b) = truthy a || truthy b.
Proof. unfold orElse. destruct (truthy a) eqn:E; [now rewrite E | reflexivity]. Qed.

Lemma messageLanguageOf_nonEmpty (body : jsval) :
  nonEmpty (messageLanguageOf body) = true.
Proof.
  unfold messageLanguageOf.
  destruct (optProp body "messageLanguage"); try reflexivity.
  destruct (nonEmpty (trim s)) eqn:E; [exact E | reflexivity].
Qed.

(** The display name cannot be computed exactly when [displayName] is
    falsy and the first or the last name is a truthy value that has no
    text. *)
Lemma displayNameOf_throws (body email : jsval) :
  displayNameOf body email = None
  <-> truthy (optProp body "displayName") = false
      /\ exists v, In v [optProp body "firstName"; optProp body "lastName"]
                   /\ truthy v = true /\ ToString v = None.
Proof.
  unfold displayNameOf, joinedNames.
  generalize (optProp body "firstName") (optProp body "lastName"). intros a b.
  destruct (truthy (optProp body "displayName")).
  { split; [discriminate | intros [Hx _]; discriminate]. }
  cbn [filter].
  destruct (truthy a) eqn:Ha, (truthy b) eqn:Hb; cbn [allTexts option_map];
    destruct (ToString a) eqn:Ta, (ToString b) eqn:Tb; cbn [option_map];
    (split;
     [ intro Hx; try discriminate Hx; (split; [reflexivity|]);
       first [ solve [exists a; cbn; auto] | solve [exists b; cbn; auto] ]
     | intros (_ & v & [<-|[<-|[]]] & Hv & Hn); congruence ]).
Qed.

(** The display name is computed for a request with a truthy email
    unless one of its names has no text, and the invitation then built
    carries that email, a display name and a redirect URL that are never
    blank, the message settings exactly when [sendEmail] is not the
    boolean [false], with a language that is never empty, and
    [resetRedemption] exactly when the request has it as the boolean
    [true]. *)
Theorem invitation_never_blank (body email : jsval) :
  truthy email = true ->
  (displayNameOf body email = None
   <-> truthy (optProp body "displayName") = false
       /\ exists v, In v [optProp body "firstName"; optProp body "lastName"]
                    /\ truthy v = true /\ ToString v = None)
  /\ forall displayName,
       displayNameOf body email = Some displayName ->
       truthy displayName = true
       /\ lookup "invitedUserEmailAddress" (invitationOf body email displayName) = email
       /\ lookup "invitedUserDisplayName" (invitationOf body email displayName)
          = displayName
       /\ truthy (lookup "inviteRedirectUrl" (invitationOf body email displayName))
          = true
       /\ (hasKey "invitedUserMessageInfo" (invitationOf body email displayName) = true
           <-> optProp body "sendEmail" <> JBool false)
       /\ (optProp body "sendEmail" <> JBool false ->
           lookup "sendInvitationMessage" (invitationOf body email displayName)
           = JBool true
           /\ exists lang,
                lang <> ""
                /\ optProp (lookup "invitedUserMessageInfo"
                              (invitationOf body email displayName))
                     "messageLanguage" = JStr lang)
       /\ (hasKey "resetRedemption" (invitationOf body email displayName) = true
           <-> optProp body "resetRedemption" = JBool true).
Proof.
  intro Hemail. split; [apply displayNameOf_throws|].
  intros dn Hname.
  assert (Hdn : truthy dn = true).
  { unfold displayNameOf in Hname.
    destruct (truthy (optProp body "displayName")) eqn:Hd.
    - inversion Hname; subst. exact Hd.
    - destruct (joinedNames body) as [text|]; [|discriminate].
      inversion Hname; subst. rewrite truthy_orElse, Hemail. apply orb_true_r. }
  assert (Hru : truthy (redirectUrlOf body) = true).
  { unfold redirectUrlOf. rewrite !truthy_orElse. cbn. now rewrite !orb_true_r. }
  assert (Hsend : sendInvitationMessageOf body = true
                  <-> optProp body "sendEmail" <> JBool false).
  { unfold sendInvitationMessageOf.
    destruct (optProp body "sendEmail") as [| |[|]| | | |];
      split; try discriminate; try reflexivity; intro Hx; congruence. }
  assert (Hreset : resetRedemptionOf body = true
                   <-> optProp body "resetRedemption" = JBool true).
  { unfold resetRedemptionOf.
    destruct (optProp body "resetRedemption") as [| |[|]| | | |];
      split; try discriminate; try reflexivity. }
  pose proof (messageLanguageOf_nonEmpty body) as Hlang.
  unfold invitationOf, buildInvitationBody.
  clear Hname. revert Hru Hsend Hreset Hlang.
  generalize (redirectUrlOf body)
    (messageLanguageOf body) (customizedMessageBodyOf body).
  intros ru lang msg Hru Hsend Hreset Hlang.
  assert (Hne : lang <> "") by (intros ->; discriminate).
  destruct (sendInvitationMessageOf body), (resetRedemptionOf body),
    (nonEmpty msg); cbn;
    (repeat split; auto;
     try (apply Hsend; reflexivity); try (apply Hreset; reflexivity);
     try (intro Hx; apply Hsend in Hx; discriminate);
     try (intro Hx; apply Hreset in Hx; discriminate);
     try discriminate;
     try match goal with
         | Hx : optProp body "sendEmail" <> JBool false,
           Hs : false = true <-> _ |- _ => apply Hs in Hx; discriminate
         end;
     eauto).
Qed.

(** [whoami] asks for one token and then makes at most one call, the GET
    of the organization with the token it got; when it is switched off it
    answers 404 and calls no one. *)
Theorem whoami_calls (cfg : Config) (s : Sys W) :
  (WHOAMI_ENABLED cfg = false ->
   whoami cfg s
   = (inr {| status := num 404; jsonBody_out := JObj [("error", JStr "Not found")] |},
      s))
  /\ exists evs,
       events (snd (whoami cfg s)) = events s ++ evs
       /\ (evs = []
           \/ evs = [EvGetToken (getRuntimeCredential cfg)]
           \/ exists token runtime s1,
                getGraphAccessToken cfg s = (inr (token, runtime), s1)
                /\ evs = [EvGetToken (getRuntimeCredential cfg);
                          EvGraph (organizationCall token)]).
Proof.
  split.
  { intro Hoff. unfold whoami. rewrite Hoff. reflexivity. }
  unfold whoami. destruct (negb (WHOAMI_ENABLED cfg)).
  { exists []. rewrite app_nil_r. auto. }
  rewrite tryCatch_ret_snd. unfold bind.
  pose proof (getGraphAccessToken_events cfg s) as Htok.
  destruct (getGraphAccessToken cfg s) as [[e|[token runtime]] s1]; cbn [snd] in Htok.
  { eexists. split; [exact Htok|]. auto. }
  cbn [fst snd].
  destruct (ToString token) as [tokenText|] eqn:Htoken.
  2: { match goal with
       | |- context [graphRequest ?m ?u ?t ?b s1] =>
           rewrite (graphRequest_no_text m u t b s1 Htoken)
       end.
       eexists. split; [exact Htok|]. auto. }
  match goal with
  | |- context [graphRequest ?m ?u ?t ?b s1] =>
      pose proof (graphRequest_events m u t b s1 tokenText Htoken) as Hev;
      destruct (graphRequest m u t b s1) as [[e|org] s2]
  end; cbn [snd] in Hev; rewrite Htok, <- app_assoc in Hev; cbn [app] in Hev.
  - eexists. split; [exact Hev|]. right; right. exists token, runtime, s1.
    split; reflexivity.
  - eexists. split; [exact Hev|]. right; right. exists token, runtime, s1.
    split; reflexivity.
Qed.

End Handler.

End HandlerMore.

(** * The decoding helpers of the back end *)

Module DecodeFacts.

Import Backend Spec StringFacts.








Lemma find_first {A : Type} (p : A -> bool) (before : list A) (x : A) (after : list A) :
  Forall (fun y => p y = false) before ->
  p x = true ->
  find p (before ++ x :: after) = Some x.
Proof.
  intros Hbefore Hx. induction Hbefore as [|y before Hy _ IH]; cbn [app find].
  - now rewrite Hx.
  - now rewrite Hy.
Qed.

Lemma find_none {A : Type} (p : A -> bool) (l : list A) :
  Forall (fun y => p y = false) l -> find p l = None.
Proof.
  intro Hl. induction Hl as [|y l Hy _ IH]; cbn [find]; [reflexivity|].
  now rewrite Hy.
Qed.


Section Decode.
Context {H : Host}.


(** The object id of the caller is the first of three that is truthy:
    the [objectidentifier] claim, the [oid] claim, the [userId] of the
    principal; with none of them it is [null], never another falsy
    value.  A claim is read from the first entry of [claims] that has the
    asked type, wherever it stands and whatever follows it; it is [null]
    when no entry has that type and when [claims] is no array. *)
Theorem getCallerObjectId_precedence (principal : jsval) :
  (truthy (getClaimValue principal
             "http://schemas.microsoft.com/identity/claims/objectidentifier") = true ->
   getCallerObjectId principal
   = getClaimValue principal
       "http://schemas.microsoft.com/identity/claims/objectidentifier")
  /\ (truthy (getClaimValue principal
                "http://schemas.microsoft.com/identity/claims/objectidentifier") = false ->
      truthy (getClaimValue principal "oid") = true ->
      getCallerObjectId principal = getClaimValue principal "oid")
  /\ (truthy (getClaimValue principal
                "http://schemas.microsoft.com/identity/claims/objectidentifier") = false ->
      truthy (getClaimValue principal "oid") = false ->
      getCallerObjectId principal = orElse (optProp principal "userId") JNull)
  /\ (truthy (getCallerObjectId principal) = false ->
      getCallerObjectId principal = JNull)
  /\ (forall name, isArray (optProp principal "claims") = false ->
                   getClaimValue principal name = JNull)
  /\ (forall name before c after,
        optProp principal "claims" = JArr (before ++ c :: after) ->
        Forall (fun c' => strictEqStr (optProp c' "typ") name = false) before ->
        strictEqStr (optProp c "typ") name = true ->
        getClaimValue principal name = orElse (optProp c "val") JNull)
  /\ (forall name items,
        optProp principal "claims" = JArr items ->
        Forall (fun c' => strictEqStr (optProp c' "typ") name = false) items ->
        getClaimValue principal name = JNull).
Proof.
  unfold getCallerObjectId.
  set (long := getClaimValue principal
                 "http://schemas.microsoft.com/identity/claims/objectidentifier").
  set (short := getClaimValue principal "oid").
  repeat split.
  - intro Hl. unfold orElse at 1. now rewrite Hl.
  - intros Hl Hs. unfold orElse at 1. rewrite Hl. unfold orElse at 1. now rewrite Hs.
  - intros Hl Hs. unfold orElse at 1. rewrite Hl. unfold orElse at 1. now rewrite Hs.
  - unfold orElse.
    destruct (truthy long) eqn:Hl; [congruence|].
    destruct (truthy short) eqn:Hs; [congruence|].
    destruct (truthy (optProp principal "userId")) eqn:Hu; [congruence|].
    reflexivity.
  - intros name Harr. unfold getClaimValue.
    destruct (optProp principal "claims"); try reflexivity. discriminate.
  - intros name before c after Hclaims Hbefore Htyp. unfold getClaimValue.
    rewrite Hclaims.
    now rewrite (find_first (fun c' => strictEqStr (optProp c' "typ") name)
                   before c after Hbefore Htyp).
  - intros name items Hclaims Hitems. unfold getClaimValue.
    rewrite Hclaims.
    now rewrite (find_none (fun c' => strictEqStr (optProp c' "typ") name)
                   items Hitems).
Qed.

End Decode.

End DecodeFacts.

(** * The further properties at concrete inputs *)

Module FrontendExamples.

Import Frontend Spec Examples.

(** A 403 with a structured error: the failure carries its text. *)
Lemma failure_error_text_witness :
  ok (@classifyOutcome exampleHost (Responded 403 errorDocument)) = false
  /\ exists ps msg,
       data (@classifyOutcome exampleHost (Responded 403 errorDocument)) = DataObject ps
       /\ lookup "error" ps = JStr msg
       /\ msg <> "".
Proof.
  split; [reflexivity|].
  exact (@OutcomeMore.failure_error_text exampleHost (Responded 403 errorDocument)
           eq_refl).
Defined.

(** Two plain fields, the second with a space before it. *)
Lemma parseCsvLine_reads_plain_witness :
  Forall (fun x => freeOf comma x = true /\ freeOf dquote x = true)
    ["guest@external.com"; " Ann"]
  /\ parseCsvLine "guest@external.com, Ann" = ["guest@external.com"; "Ann"].
Proof.
  assert (Hplain : Forall (fun x => freeOf comma x = true /\ freeOf dquote x = true)
                     ["guest@external.com"; " Ann"])
    by (repeat constructor).
  split; [exact Hplain|].
  exact (proj1 (CsvRoundTrip.parseCsvLine_reads_plain "guest@external.com" [" Ann"]
                  Hplain)).
Defined.

(** The empty file: one file-level error and no entry. *)
Lemma template_file_level_error_witness :
  List.length (nonBlankLines "") < 2
  /\ entries (@parseEntraTemplateCsv exampleHost "" false) = []
  /\ List.length (errors (@parseEntraTemplateCsv exampleHost "" false)) = 1.
Proof.
  assert (Hshort : List.length (nonBlankLines "") < 2) by (vm_compute; lia).
  split; [exact Hshort|].
  exact (@NormalizerFacts.template_file_level_error exampleHost "" false
           (or_introl Hshort)).
Defined.

(** Two typed rows and no file: both rows are sent as they were read. *)
Lemma submission_sends_sendable_witness :
  Forall (@sendable exampleHost) (bulkEntriesFromFile (bulkForm (manyRows 2)))
  /\ exists es,
       calls (snd (@inviteGuest exampleHost unit (constantNetwork (Responded 200 "{}"))
                     (bulkForm (manyRows 2)) freshNet))
       = map requestOf es
       /\ Forall (@sendable exampleHost) es.
Proof.
  assert (Hfile : Forall (@sendable exampleHost)
                    (bulkEntriesFromFile (bulkForm (manyRows 2))))
    by constructor.
  split; [exact Hfile|].
  destruct (@SubmitMore.submission_sends_sendable exampleHost unit
              (constantNetwork (Responded 200 "{}")) (bulkForm (manyRows 2)) freshNet
              Hfile) as (es & Hcalls & Hall).
  exists es. split; [exact Hcalls|].
  eapply Forall_impl; [|exact Hall]. intros e He. exact (proj1 He).
Defined.

(** A single invitation with a well-formed address: one call. *)
Lemma single_submission_witness :
  mode (singleForm "guest@external.com") = Single
  /\ calls (snd (@inviteGuest exampleHost unit (constantNetwork (Responded 200 "{}"))
                   (singleForm "guest@external.com") freshNet))
     = [requestOf (singleEntry (singleForm "guest@external.com"))].
Proof.
  split; [reflexivity|].
  pose proof (@SubmitMore.single_submission exampleHost unit
                (constantNetwork (Responded 200 "{}"))
                (singleForm "guest@external.com") freshNet eq_refl) as Hs.
  cbv zeta in Hs. destruct Hs as (Hvalid & _).
  assert (Hv : @apiConfigured exampleHost
               && Regex.test EMAIL_REGEX
                    (normalizeEmail (st_email (singleForm "guest@external.com")))
               && @isValidHttpUrl exampleHost
                    (trim (redirectUrl (singleForm "guest@external.com"))) = true)
    by (vm_compute; reflexivity).
  destruct (Hvalid Hv) as (Hcalls & _). exact Hcalls.
Defined.

End FrontendExamples.

Module BackendExamples.

Import Backend Spec Examples.

(** The signed-in Member of an allowed group is authorized. *)
Lemma authorizeInviter_sound_witness :
  fst (@authorizeInviter directoryHost unit scriptedDirectory (loadConfig groupEnv)
         signedInRequest (JStr "tok") freshSys)
  = inr (Authorized "entra_authenticated"
           (JObj [("id", JStr "u1"); ("userType", JStr "Member");
                  ("accountEnabled", JBool true)]))
  /\ localBypass (loadConfig groupEnv) = false
  /\ misconfigured (loadConfig groupEnv) = false.
Proof.
  assert (Hrun : fst (@authorizeInviter directoryHost unit scriptedDirectory
                        (loadConfig groupEnv) signedInRequest (JStr "tok") freshSys)
                 = inr (Authorized "entra_authenticated"
                          (JObj [("id", JStr "u1"); ("userType", JStr "Member");
                                 ("accountEnabled", JBool true)])))
    by (vm_compute; reflexivity).
  split; [exact Hrun|].
  destruct (@AuthMore.authorizeInviter_sound directoryHost unit scriptedDirectory
              (loadConfig groupEnv) signedInRequest (JStr "tok") freshSys _ _ Hrun)
    as [(Hb & _)|(Hb & _ & _ & _ & _ & Hmis & _)].
  - discriminate Hb.
  - split; [exact Hb | exact Hmis].
Defined.

(** No principal in the managed runtime: a 401 and nothing called. *)
Lemma authorizeInviter_denials_witness :
  fst (@authorizeInviter exampleHost unit exampleDirectory (loadConfig azureEnv)
         anonymousRequest (JStr "tok") freshSys)
  = inr (Denied 401
           "Unauthorized. Enable App Service Authentication and call this API as a signed-in internal user.")
  /\ snd (@authorizeInviter exampleHost unit exampleDirectory (loadConfig azureEnv)
            anonymousRequest (JStr "tok") freshSys) = freshSys.
Proof.
  assert (Hrun : fst (@authorizeInviter exampleHost unit exampleDirectory
                        (loadConfig azureEnv) anonymousRequest (JStr "tok") freshSys)
                 = inr (Denied 401
                          "Unauthorized. Enable App Service Authentication and call this API as a signed-in internal user."))
    by reflexivity.
  split; [exact Hrun|].
  destruct (@AuthMore.authorizeInviter_denials exampleHost unit exampleDirectory
              (loadConfig azureEnv) anonymousRequest (JStr "tok") freshSys _ _ Hrun)
    as (_ & _ & Hstate & _).
  apply Hstate. reflexivity.
Defined.

(** The directory names the group [g1] for the caller: authorized. *)
Lemma authorizeInviter_group_decision_witness :
  checksGroups (loadConfig groupEnv) = true
  /\ @ToString directoryHost
       (@getCallerObjectId (@decodeClientPrincipal directoryHost signedInRequest))
     = Some "u1"
  /\ exists s2,
       @authorizeInviter directoryHost unit scriptedDirectory (loadConfig groupEnv)
         signedInRequest (JStr "tok") freshSys
       = (inr (Authorized "entra_authenticated"
                 (JObj [("id", JStr "u1"); ("userType", JStr "Member");
                        ("accountEnabled", JBool true)])), s2).
Proof.
  split; [reflexivity|]. split; [reflexivity|].
  pose proof (@AuthMore.authorizeInviter_group_decision directoryHost unit
                scriptedDirectory (loadConfig groupEnv) signedInRequest (JStr "tok")
                freshSys eq_refl eq_refl eq_refl eq_refl) as Hdecision.
  hnf in Hdecision. eexists.
  exact (Hdecision _ _
           (JObj [("id", JStr "u1"); ("userType", JStr "Member");
                  ("accountEnabled", JBool true)])
           (JObj [("value", JArr [JStr "g1"])])
           eq_refl eq_refl eq_refl).
Defined.

(** An anonymous request in the managed runtime: the handler answers 401
    after the token alone. *)
Lemma inviteGuest_denied_witness :
  @displayNameOf exampleHost (bodyOf guestRequest) (JStr "guest@external.com")
  = Some (JStr "guest@external.com")
  /\ fst (@inviteGuest exampleHost unit exampleDirectory (loadConfig azureEnv)
            guestRequest freshSys)
     = inr {| status := num 401;
              jsonBody_out :=
                JObj [ ("error",
                        JStr "Unauthorized. Enable App Service Authentication and call this API as a signed-in internal user.");
                       ("runtime", JStr "managed_identity_system_assigned");
                       ("azClientIdConfigured", JBool false) ] |}.
Proof.
  split; [reflexivity|].
  pose proof (@HandlerMore.inviteGuest_denied exampleHost unit exampleDirectory
                (loadConfig azureEnv) guestRequest freshSys _ _
                (JStr "guest@external.com") (JStr "tok") _ _ _
                eq_refl eq_refl eq_refl eq_refl) as Hdenied.
  hnf in Hdenied. rewrite Hdenied. reflexivity.
Defined.

(** The signed-in Member invites a guest: 200, invited and stamped. *)
Lemma inviteGuest_stamps_witness :
  exists body s4,
    @inviteGuest directoryHost unit scriptedDirectory (loadConfig groupEnv)
      signedInRequest freshSys
    = (inr {| status := num 200; jsonBody_out := JObj body |}, s4)
    /\ lookup "status" body = JStr "invited_and_stamped"
    /\ lookup "invitedUserId" body = JStr "g-1".
Proof.
  pose proof (@HandlerMore.inviteGuest_stamps directoryHost unit scriptedDirectory
                (loadConfig groupEnv) signedInRequest freshSys _ _ _
                (JStr "guest@external.com") (JStr "guest@external.com") (JStr "tok") _
                "entra_authenticated"
                (JObj [("id", JStr "u1"); ("userType", JStr "Member");
                       ("accountEnabled", JBool true)])
                (JObj [("invitedUser", JObj [("id", JStr "g-1")])])
                eq_refl eq_refl eq_refl eq_refl eq_refl eq_refl eq_refl) as Hs.
  hnf in Hs. destruct Hs as (body & Hrun & Hstatus & Hid & _).
  exists body. eexists. split; [exact Hrun|]. split; [exact Hstatus | exact Hid].
Defined.

(** The body that only names the address: the address is also the
    display name, and the default redirect URL is used.  With a first
    name that is an object with a member [toString] there is no display
    name. *)
Lemma invitation_never_blank_witness :
  @displayNameOf exampleHost (JObj [("email", JStr "guest@external.com")])
    (JStr "guest@external.com")
  = Some (JStr "guest@external.com")
  /\ truthy (lookup "inviteRedirectUrl"
               (invitationOf (JObj [("email", JStr "guest@external.com")])
                  (JStr "guest@external.com") (JStr "guest@external.com"))) = true
  /\ @displayNameOf exampleHost
       (JObj [("email", JStr "guest@external.com");
              ("firstName", JObj [("toString", num 1)])])
       (JStr "guest@external.com")
     = None.
Proof.
  split; [reflexivity|]. split.
  - destruct (@HandlerMore.invitation_never_blank exampleHost
                (JObj [("email", JStr "guest@external.com")])
                (JStr "guest@external.com") eq_refl) as (_ & Hbuilt).
    exact (proj1 (proj2 (proj2 (proj2 (Hbuilt _ eq_refl))))).
  - apply (proj1 (@HandlerMore.invitation_never_blank exampleHost
                    (JObj [("email", JStr "guest@external.com");
                           ("firstName", JObj [("toString", num 1)])])
                    (JStr "guest@external.com") eq_refl)).
    split; [reflexivity|].
    exists (JObj [("toString", num 1)]). cbn. auto.
Defined.

End BackendExamples.
